(** * Convolut MCP server: a shallow embedding of the request pipeline

    The development follows the layering of the repository:

    - [Js]        the fragment of JavaScript values and coercions the
                  sources rely on (truthiness, [typeof], [String(v)],
                  [+], [<], property reads);
    - [Transport] [ConvolutAPIClient] of [utils/api-client.cjs] and of
                  its "FIXED VERSION" sibling: [request], [listContexts],
                  [getContext] and the write operations;
    - [Tools]     the validators and the eleven tool handlers of
                  [tools/contexts.cjs], [tools/contexts-fixed.cjs],
                  [tools/ai-tools.cjs] and [tools/export.cjs];
    - [Stdio]     [handleMCPRequest] of [stdio-client.cjs].

    Promises are run to completion in program order: an [await] is a
    monadic bind.  A thrown value (or a rejected promise) is the left
    injection of the result. *)

From Stdlib Require Import String Ascii List ZArith Bool Lia DecimalString Setoid.
Import ListNotations.
Open Scope string_scope.
Set Warnings "-register-all".

(** ** Exceptions *)

(** Every value the sources throw is an [Error] object; the engine adds
    [TypeError] and [RangeError].  Handlers only ever read [.message]. *)
Inductive exn : Type :=
| Error (message : string)
| TypeError (message : string)
| RangeError (message : string).

Definition message (e : exn) : string :=
  match e with
  | Error m | TypeError m | RangeError m => m
  end.

(** [M A]: a computation that returns an [A] or throws. *)
Definition M (A : Type) : Type := (exn + A)%type.

Definition ret {A} (a : A) : M A := inr a.
Definition throw {A} (e : exn) : M A := inl e.
Definition bind {A B} (c : M A) (k : A -> M B) : M B :=
  match c with
  | inl e => inl e
  | inr a => k a
  end.

Declare Scope js_scope.
Delimit Scope js_scope with js.
Notation "x <- c ;; k" := (bind c (fun x => k))
  (at level 100, c at next level, right associativity) : js_scope.
Notation "c ;;; k" := (bind c (fun _ => k))
  (at level 100, right associativity) : js_scope.
Open Scope js_scope.

(** ** JavaScript values *)

Module Js.

(** The values that reach the code: what [JSON.parse] produces, plus
    [undefined] (a missing property) and [NaN] (a failed numeric
    coercion).  Numbers are the integers among the doubles: the API
    traffics in counts, offsets, limits and seconds.  A string is a
    sequence of code units below 256.  An object is the list of its own
    properties; a read takes the first binding of a name. *)
Inductive value : Type :=
| VUndefined
| VNull
| VBool (b : bool)
| VNum (n : Z)
| VNaN
| VStr (s : string)
| VArr (items : list value)
| VObj (fields : list (string * value)).

Definition truthy (v : value) : bool :=
  match v with
  | VUndefined | VNull | VNaN => false
  | VBool b => b
  | VNum n => negb (n =? 0)%Z
  | VStr s => negb (s =? EmptyString)
  | VArr _ | VObj _ => true
  end.

(** [a || b] *)
Definition or_else (a b : value) : value := if truthy a then a else b.

Definition typeof (v : value) : string :=
  match v with
  | VUndefined => "undefined"
  | VNull | VArr _ | VObj _ => "object"
  | VBool _ => "boolean"
  | VNum _ | VNaN => "number"
  | VStr _ => "string"
  end.

Definition isArray (v : value) : bool :=
  match v with VArr _ => true | _ => false end.

Definition is_undefined (v : value) : bool :=
  match v with VUndefined => true | _ => false end.

(** Own-property lookup in a property list. *)
Fixpoint own (fields : list (string * value)) (k : string) : option value :=
  match fields with
  | [] => None
  | (k', v) :: rest => if k' =? k then Some v else own rest k
  end.

Definition has_own (fields : list (string * value)) (k : string) : bool :=
  match own fields k with Some _ => true | None => false end.

(** [fields] without the property [k] (object rest pattern). *)
Definition without (k : string) (fields : list (string * value)) :=
  filter (fun kv => negb (fst kv =? k)) fields.

(** [o[k] = v] for a key [k] that is no array index: replace or
    append. *)
Fixpoint set_own (fields : list (string * value)) (k : string) (v : value) :=
  match fields with
  | [] => [(k, v)]
  | (k', v') :: rest =>
      if k' =? k then (k, v) :: rest else (k', v') :: set_own rest k v
  end.

(** [s] between double quotes *)
Definition quoted (s : string) : string :=
  String (ascii_of_nat 34) (s ++ String (ascii_of_nat 34) EmptyString).

(** The decimal digits of an integer. *)
Definition decimal (n : Z) : string :=
  NilZero.string_of_int (Z.to_int n).

(** The double nearest to the integer [z], ties to even, for [z] below
    2^1024 in absolute value: integers up to 2^53 are doubles
    themselves. *)
Definition to_double (z : Z) : Z :=
  let a := Z.abs z in
  if (a <? 2 ^ 53)%Z then z
  else
    let e := (Z.log2 a - 52)%Z in
    let q := (a / 2 ^ e)%Z in
    let r := (a mod 2 ^ e)%Z in
    let half := (2 ^ (e - 1))%Z in
    let m := if (r <? half)%Z then q
             else if (half <? r)%Z then (q + 1)%Z
             else if Z.even q then q else (q + 1)%Z in
    (Z.sgn z * (m * 2 ^ e))%Z.

(** The decimal [v] reads back as the double [x >= 2^53]: it lies
    within half a step of [x], the ends included when the significand
    of [x] is even; below a power of two the step is half as long. *)
Definition reads_back (x v : Z) : bool :=
  let e := (Z.log2 x - 52)%Z in
  let m := (x / 2 ^ e)%Z in
  let up := (2 * 2 ^ e)%Z in
  let down := if (m =? 2 ^ 52)%Z then (2 ^ e)%Z else (2 * 2 ^ e)%Z in
  if Z.even m
  then (4 * x - down <=? 4 * v)%Z && (4 * v <=? 4 * x + up)%Z
  else (4 * x - down <? 4 * v)%Z && (4 * v <? 4 * x + up)%Z.

(** The better of two readings [(s, n)] of [x], each standing for
    [s * 10^(n - k)]: the nearer one, and the even [s] when both are as
    near. *)
Definition nearer (x : Z) (k : nat) (a b : option (Z * nat)) : option (Z * nat) :=
  match a, b with
  | Some (s, n), Some (s', n') =>
      let d := Z.abs (s * 10 ^ Z.of_nat (n - k) - x) in
      let d' := Z.abs (s' * 10 ^ Z.of_nat (n' - k) - x) in
      if (d <? d')%Z then a
      else if (d' <? d)%Z then b
      else if Z.even s then a else b
  | Some _, None => a
  | None, _ => b
  end.

(** A reading of [x] with [k] digits and [n] digits before the point. *)
Definition reading (x : Z) (k n : nat) : option (Z * nat) :=
  if (n <? k)%nat then None
  else
    let u := (10 ^ Z.of_nat (n - k))%Z in
    let try s :=
      if (10 ^ Z.of_nat (k - 1) <=? s)%Z && (s <? 10 ^ Z.of_nat k)%Z
         && reads_back x (s * u)
      then Some (s, n) else None in
    nearer x k (try (x / u)%Z) (try (x / u + 1)%Z).

(** The shortest reading of [x], tried with [k], [k + 1], ... digits. *)
Fixpoint shortest (x : Z) (digits : nat) (k fuel : nat) : option (Z * nat) :=
  match fuel with
  | O => None
  | S fuel' =>
      match nearer x k (reading x k digits) (reading x k (S digits)) with
      | Some r => Some r
      | None => shortest x digits (S k) fuel'
      end
  end.

(** [Number.prototype.toString] of a positive double that is an integer
    of 2^53 or more: the digits of its shortest reading, followed by
    zeros up to 21 digits, and in exponent notation beyond. *)
Definition large_to_string (x : Z) : string :=
  match shortest x (String.length (decimal x)) 1 17 with
  | Some (s, n) =>
      let ds := decimal s in
      let k := String.length ds in
      if (n <=? 21)%nat then
        ds ++ substring 0 (n - k) "000000000000000000000"
      else
        substring 0 1 ds
        ++ (if (1 <? k)%nat then "." ++ substring 1 (k - 1) ds else EmptyString)
        ++ "e+" ++ decimal (Z.of_nat (n - 1))
  | None => decimal x
  end.

(** [String(n)] for a number that is an integer. *)
Definition num_to_string (n : Z) : string :=
  if (Z.abs n <? 2 ^ 53)%Z then decimal n
  else
    (if (n <? 0)%Z then "-" else EmptyString)
    ++ large_to_string (to_double (Z.abs n)).

(** The array index a property key denotes, if any: the canonical
    decimal text of an integer from 0 to 2^32 - 2. *)
Definition array_index (k : string) : option Z :=
  match NilZero.uint_of_string k with
  | Some u =>
      let n := Z.of_uint u in
      if (num_to_string n =? k) && (n <? 4294967295)%Z then Some n else None
  | None => None
  end.

(** A new array-index key [k], denoting [n], goes among the array-index
    keys, which an object lists first and in ascending order. *)
Fixpoint insert_index (fields : list (string * value)) (k : string) (n : Z)
    (v : value) : list (string * value) :=
  match fields with
  | [] => [(k, v)]
  | (k', v') :: rest =>
      match array_index k' with
      | Some m =>
          if (m <? n)%Z then (k', v') :: insert_index rest k n v
          else (k, v) :: fields
      | None => (k, v) :: fields
      end
  end.

(** [o[k] = v] for a computed key [k]: a property that exists keeps its
    place; a new one is listed with the array indices when it is one,
    and last otherwise. *)
Definition assign (fields : list (string * value)) (k : string) (v : value)
    : list (string * value) :=
  match own fields k, array_index k with
  | None, Some n => insert_index fields k n v
  | _, _ => set_own fields k v
  end.

(** The names every plain object inherits from [Object.prototype]. *)
Definition Object_prototype : list string :=
  [ "constructor"; "__defineGetter__"; "__defineSetter__"; "hasOwnProperty";
    "__lookupGetter__"; "__lookupSetter__"; "isPrototypeOf";
    "propertyIsEnumerable"; "toString"; "valueOf"; "__proto__";
    "toLocaleString" ].

Definition inherited (k : string) : bool :=
  existsb (String.eqb k) Object_prototype.

(** [String(m)] for the member [k] of [Object.prototype]: the accessor
    [__proto__] reads as the prototype object, [constructor] is the
    function [Object], the others are functions named after the key. *)
Definition inherited_to_string (k : string) : string :=
  if k =? "__proto__" then "[object Object]"
  else if k =? "constructor" then "function Object() { [native code] }"
  else "function " ++ k ++ "() { [native code] }".

Definition cannot_read (of_what k : string) : exn :=
  TypeError ("Cannot read properties of " ++ of_what ++ " (reading '" ++ k ++ "')").

Definition not_a_function (expr : string) : exn :=
  TypeError (expr ++ " is not a function").

Definition no_primitive : exn :=
  TypeError "Cannot convert object to primitive value".

(** [v.k] for the property names the sources spell out ([items], [id],
    [limit], ...; none of them is an array index or a member of a
    built-in prototype).  Reading from [undefined] or [null] throws. *)
Definition get (v : value) (k : string) : M value :=
  match v with
  | VUndefined => throw (cannot_read "undefined" k)
  | VNull => throw (cannot_read "null" k)
  | VObj fields =>
      ret (match own fields k with Some x => x | None => VUndefined end)
  | _ => ret VUndefined
  end.

(** [v.length] *)
Definition length_of (v : value) : M value :=
  match v with
  | VArr l => ret (VNum (Z.of_nat (List.length l)))
  | VStr s => ret (VNum (Z.of_nat (String.length s)))
  | _ => get v "length"
  end.

(** [String(v)], also the conversion behind template literals, property
    keys and [Array.prototype.join].  An object whose own [toString]
    property shadows the inherited method has no primitive value. *)
Fixpoint to_string (v : value) : M string :=
  match v with
  | VUndefined => ret "undefined"
  | VNull => ret "null"
  | VBool true => ret "true"
  | VBool false => ret "false"
  | VNum n => ret (num_to_string n)
  | VNaN => ret "NaN"
  | VStr s => ret s
  | VArr l =>
      (fix join (l : list value) : M string :=
         match l with
         | [] => ret EmptyString
         | x :: rest =>
             s <- match x with
                  | VUndefined | VNull => ret EmptyString
                  | _ => to_string x
                  end ;;
             match rest with
             | [] => ret s
             | _ => r <- join rest ;; ret (s ++ "," ++ r)
             end
         end) l
  | VObj fields =>
      if has_own fields "toString" then throw no_primitive
      else ret "[object Object]"
  end.

(** [v.toString()] *)
Definition toString (expr : string) (v : value) : M string :=
  match v with
  | VUndefined => throw (cannot_read "undefined" "toString")
  | VNull => throw (cannot_read "null" "toString")
  | VObj fields =>
      if has_own fields "toString" then throw (not_a_function (expr ++ ".toString"))
      else ret "[object Object]"
  | _ => to_string v
  end.

(** [a === b].  Two objects (or arrays) that come from different places
    are never the same object. *)
Definition strict_eq (a b : value) : bool :=
  match a, b with
  | VUndefined, VUndefined | VNull, VNull => true
  | VBool x, VBool y => Bool.eqb x y
  | VNum x, VNum y => (x =? y)%Z
  | VStr x, VStr y => x =? y
  | _, _ => false
  end.

(** [[c1, ..., cn].includes(v)] for a literal array of strings. *)
Definition includes (choices : list string) (v : value) : bool :=
  existsb (fun c => strict_eq (VStr c) v) choices.

(** White space of [String.prototype.trim] among the code units below 256. *)
Definition is_space (c : ascii) : bool :=
  let n := nat_of_ascii c in
  ((9 <=? n) && (n <=? 13) || (n =? 32) || (n =? 160))%nat.

Fixpoint trim_start (s : string) : string :=
  match s with
  | String c rest => if is_space c then trim_start rest else s
  | EmptyString => EmptyString
  end.

Fixpoint rev_string (s acc : string) : string :=
  match s with
  | EmptyString => acc
  | String c rest => rev_string rest (String c acc)
  end.

Definition trim (s : string) : string :=
  rev_string (trim_start (rev_string (trim_start s) EmptyString)) EmptyString.

(** [s.replace(pat, by)] with a string pattern: the first occurrence. *)
Definition replace_first (pat by_ s : string) : string :=
  match index 0 pat s with
  | Some i =>
      substring 0 i s ++ by_ ++
      substring (i + String.length pat) (String.length s - i - String.length pat) s
  | None => s
  end.

(** *** Numeric coercions, [+] and [<] *)

(** [ToPrimitive]: arrays and objects become their string. *)
Definition to_primitive (v : value) : M value :=
  match v with
  | VArr _ | VObj _ => s <- to_string v ;; ret (VStr s)
  | _ => ret v
  end.

(** [ToNumber] of a primitive, given the engine's reading of numeric
    strings ([None] for [NaN]). *)
Definition to_number (string_to_number : string -> option Z) (p : value) : value :=
  match p with
  | VNull => VNum 0
  | VBool b => VNum (if b then 1 else 0)
  | VNum n => VNum n
  | VStr s =>
      match string_to_number s with Some n => VNum n | None => VNaN end
  | _ => VNaN
  end.

Definition is_string (v : value) : bool :=
  match v with VStr _ => true | _ => false end.

(** [a + b]: string concatenation as soon as one side is a string;
    otherwise no string is left to be read as a number.  The sum of two
    numbers is the integer sum, which is what the double sum is as long
    as it stays within 2^53 in absolute value; statements about sums
    carry that bound. *)
Definition js_add (a b : value) : M value :=
  pa <- to_primitive a ;;
  pb <- to_primitive b ;;
  if is_string pa || is_string pb then
    sa <- to_string pa ;;
    sb <- to_string pb ;;
    ret (VStr (sa ++ sb))
  else
    match to_number (fun _ => None) pa, to_number (fun _ => None) pb with
    | VNum x, VNum y => ret (VNum (x + y))
    | _, _ => ret VNaN
    end.

(** [a < b]: code-unit order on two strings, numeric order otherwise;
    a comparison with [NaN] is false. *)
Definition js_lt (s2n : string -> option Z) (a b : value) : M bool :=
  pa <- to_primitive a ;;
  pb <- to_primitive b ;;
  match pa, pb with
  | VStr x, VStr y => ret (String.ltb x y)
  | _, _ =>
      match to_number s2n pa, to_number s2n pb with
      | VNum x, VNum y => ret (x <? y)%Z
      | _, _ => ret false
      end
  end.

(** [a * b] *)
Definition js_mul (s2n : string -> option Z) (a b : value) : M value :=
  pa <- to_primitive a ;;
  pb <- to_primitive b ;;
  match to_number s2n pa, to_number s2n pb with
  | VNum x, VNum y => ret (VNum (x * y))
  | _, _ => ret VNaN
  end.

(** [Math.round(a / n)] for a positive count [n]: halves round up.  The
    quotient is taken exactly, as the double quotient is rounded to the
    same integer while [|a| + n] stays below 2^52. *)
Definition round_div (s2n : string -> option Z) (a : value) (n : Z) : M value :=
  pa <- to_primitive a ;;
  match to_number s2n pa with
  | VNum x => ret (VNum ((2 * x + n) / (2 * n)))
  | _ => ret VNaN
  end.

(** *** Array methods *)

(** The receiver of [expr.method(...)] as an array. *)
Definition as_array (expr method : string) (v : value) : M (list value) :=
  match v with
  | VArr l => ret l
  | VUndefined => throw (cannot_read "undefined" method)
  | VNull => throw (cannot_read "null" method)
  | _ => throw (not_a_function (expr ++ "." ++ method))
  end.

(** [l.find(p)] *)
Fixpoint find (p : value -> M bool) (l : list value) : M value :=
  match l with
  | [] => ret VUndefined
  | x :: rest => b <- p x ;; if b then ret x else find p rest
  end.

(** [l.filter(p).length] *)
Fixpoint count (p : value -> M bool) (l : list value) : M Z :=
  match l with
  | [] => ret 0%Z
  | x :: rest => b <- p x ;; n <- count p rest ;; ret (if b then n + 1 else n)%Z
  end.

(** [l.reduce(f, init)] and [l.forEach] with an accumulator. *)
Fixpoint reduce {A} (f : A -> value -> M A) (l : list value) (init : A) : M A :=
  match l with
  | [] => ret init
  | x :: rest => acc <- f init x ;; reduce f rest acc
  end.

(** *** The built-ins taken from the runtime *)

Record url : Type := {
  url_hostname : string;
  url_port : string;
  url_pathname : string;
  url_search : string
}.

(** What Node.js supplies and the sources call without the claims
    depending on how it is computed. *)
Record runtime : Type := {
  (** [JSON.parse(s)]; [None] when it throws. *)
  JSON_parse : string -> option value;
  (** [JSON.stringify(v)] *)
  JSON_stringify : value -> string;
  (** [JSON.stringify(v, null, 2)] *)
  JSON_pretty : value -> string;
  (** [new URL(s)]; [None] when it throws. *)
  URL_parse : string -> option url;
  (** [new URL(s, base)] *)
  URL_resolve : string -> string -> option url;
  (** the percent-encoding of [URLSearchParams.prototype.toString] *)
  form_encode : string -> string;
  (** the number a string denotes; [None] for [NaN] *)
  string_to_number : string -> option Z;
  (** [Date.now()] *)
  Date_now : Z;
  (** [new Date(t).toISOString()] for a time value in range *)
  toISOString : Z -> string;
  (** the message of the [TypeError] a member of [Object.prototype]
      raises when it is called without a receiver *)
  receiver_error : string -> string
}.

End Js.
Export Js.

(** ** The HTTPS transport and the API client *)

Module Transport.

(** What [https.request] is given, and what was written to it. *)
Record http_request : Type := {
  rq_hostname : string;
  rq_port : string;
  rq_path : string;
  rq_method : string;
  rq_headers : list (string * string);
  rq_body : option string
}.

(** [res.statusCode], [res.headers.location] and the collected chunks. *)
Record http_response : Type := {
  statusCode : option Z;
  location : option string;
  data : string
}.

(** How one call ends: the ['end'] event of a response, the ['error']
    event, or the 10 s timer. *)
Inductive outcome : Type :=
| Responded (res : http_response)
| Failed (e : exn)
| TimedOut.

(** The remote side: it answers a request knowing the requests that came
    before. *)
Definition network : Type := list http_request -> http_request -> outcome.

(** [T A]: a computation that may call the network; the state is the
    list of the requests issued so far, oldest first. *)
Definition T (A : Type) : Type := list http_request -> M A * list http_request.

Definition retT {A} (a : A) : T A := fun tr => (ret a, tr).
Definition throwT {A} (e : exn) : T A := fun tr => (throw e, tr).
Definition bindT {A B} (c : T A) (k : A -> T B) : T B :=
  fun tr =>
    match c tr with
    | (inl e, tr') => (inl e, tr')
    | (inr a, tr') => k a tr'
    end.
Definition lift {A} (c : M A) : T A := fun tr => (c, tr).

(** [try { body } catch (error) { handler(error) }] *)
Definition try_catch {A} (body : T A) (handler : exn -> T A) : T A :=
  fun tr =>
    match body tr with
    | (inl e, tr') => handler e tr'
    | (inr a, tr') => (inr a, tr')
    end.

Notation "x <~ c ;; k" := (bindT c (fun x => k))
  (at level 100, c at next level, right associativity) : js_scope.

Record options : Type := {
  opt_method : option string;
  opt_headers : list (string * string);
  opt_body : option string
}.

Definition no_options : options :=
  {| opt_method := None; opt_headers := []; opt_body := None |}.

Definition with_body (method : string) (body : option string) : options :=
  {| opt_method := Some method; opt_headers := []; opt_body := body |}.

(** [s || fallback] on an optional string *)
Definition str_or (s : option string) (fallback : string) : string :=
  match s with
  | Some x => if x =? EmptyString then fallback else x
  | None => fallback
  end.

(** [if (s) ...] on an optional string *)
Definition present (s : option string) : option string :=
  match s with
  | Some x => if x =? EmptyString then None else Some x
  | None => None
  end.

Fixpoint set_header (hs : list (string * string)) (k v : string) :=
  match hs with
  | [] => [(k, v)]
  | (k', v') :: rest =>
      if k' =? k then (k, v) :: rest else (k', v') :: set_header rest k v
  end.

(** [{ ...base, ...extra }] *)
Definition spread (base extra : list (string * string)) :=
  fold_left (fun acc kv => set_header acc (fst kv) (snd kv)) extra base.

Definition status_text (st : option Z) : string :=
  match st with Some n => num_to_string n | None => "undefined" end.

(** [!st || st < 200 || st >= 300] *)
Definition not_2xx (st : option Z) : bool :=
  match st with
  | Some n => (n =? 0)%Z || (n <? 200)%Z || (300 <=? n)%Z
  | None => true
  end.

(** [st === 307 || st === 301 || st === 302] *)
Definition is_redirect (st : option Z) : bool :=
  match st with
  | Some n => (n =? 307)%Z || (n =? 301)%Z || (n =? 302)%Z
  | None => false
  end.

Definition baseUrl : string := "https://api.convolut.app/v1".

Section Client.

Context (rt : runtime) (net : network) (apiKey : string).

(** [https.request(opts, ...)] followed by the optional [req.write] and
    [req.end()]: the request joins the trace and the network answers. *)
Definition send (rq : http_request) : T outcome :=
  fun tr => (ret (net tr rq), (tr ++ [rq])%list).

Definition new_URL (s : string) : M url :=
  match URL_parse rt s with
  | Some u => ret u
  | None => throw (TypeError "Invalid URL")
  end.

Definition requestOptions (u : url) (o : options) : http_request :=
  {| rq_hostname := url_hostname u;
     rq_port := if url_port u =? EmptyString then "443" else url_port u;
     rq_path := url_pathname u ++ url_search u;
     rq_method := str_or (opt_method o) "GET";
     rq_headers :=
       spread [ ("Content-Type", "application/json");
                ("api_key", apiKey);
                ("User-Agent", "convolut-mcp-client/1.0.0") ]
              (opt_headers o);
     rq_body := present (opt_body o) |}.

(** The body of the ['end'] callback of [utils/api-client.cjs]. *)
Definition on_end (res : http_response) : M value :=
  if not_2xx (statusCode res) then
    throw (Error ("API Error " ++ status_text (statusCode res) ++ ": " ++ data res))
  else
    match JSON_parse rt (data res) with
    | Some v => ret v
    | None => throw (Error ("Invalid JSON response: " ++ data res))
    end.

(** [queryParams.toString()] for the appended pairs. *)
Definition URLSearchParams_toString (q : list (string * string)) : string :=
  String.concat "&"
    (map (fun kv => form_encode rt (fst kv) ++ "=" ++ form_encode rt (snd kv)) q).

(** [JSON.stringify(v)] as a request body; [undefined] has none. *)
Definition stringify (v : value) : option string :=
  if is_undefined v then None else Some (JSON_stringify rt v).

End Client.

(** The operations a tool handler calls on [apiClient]. *)
Record api_client : Type := {
  listContexts : value -> T value;
  getContext : value -> T value;
  createContext : value -> T value;
  updateContext : value -> value -> T value;
  deleteContext : value -> T value;
  consolidateContexts : value -> T value;
  planFromContexts : value -> T value;
  exportContexts : value -> T value;
  generateRawUrl : value -> T value
}.

(** [Array.isArray(response) ? response : response.items || []], the
    normalisation the fixed modules apply to a list response. *)
Definition items_or_empty (response : value) : M value :=
  if isArray response then ret response
  else items <- get response "items" ;; ret (or_else items (VArr [])).

(** [if (params.k) queryParams.append(name, params.k.toString())] *)
Definition append_number (params : value) (k : string)
    (q : list (string * string)) : M (list (string * string)) :=
  v <- get params k ;;
  if truthy v then
    s <- toString ("params." ++ k) v ;; ret (q ++ [(k, s)])%list
  else ret q.

(** [if (params.k) queryParams.append(name, params.k)] *)
Definition append_string (params : value) (k name : string)
    (q : list (string * string)) : M (list (string * string)) :=
  v <- get params k ;;
  if truthy v then s <- to_string v ;; ret (q ++ [(name, s)])%list
  else ret q.

(** [if (params.tags && params.tags.length)
      queryParams.append('tags', params.tags.join(','))] *)
Definition append_tags (params : value)
    (q : list (string * string)) : M (list (string * string)) :=
  tags <- get params "tags" ;;
  if truthy tags then
    len <- length_of tags ;;
    if truthy len then
      match tags with
      | VArr _ => s <- to_string tags ;; ret (q ++ [("tags", s)])%list
      | _ => throw (not_a_function "params.tags.join")
      end
    else ret q
  else ret q.

(** [if (params.is_favorite !== undefined)
      queryParams.append('is_favorite', params.is_favorite.toString())] *)
Definition append_favorite (params : value)
    (q : list (string * string)) : M (list (string * string)) :=
  v <- get params "is_favorite" ;;
  if is_undefined v then ret q
  else s <- toString "params.is_favorite" v ;; ret (q ++ [("is_favorite", s)])%list.

(** The pairs [listContexts] appends, in order.  [keyword] is the name
    under which [params.contain] goes out: ['contain'] in
    [utils/api-client.cjs], ['search'] in its fixed sibling. *)
Definition list_query (keyword : string) (params : value)
    : M (list (string * string)) :=
  let params := if is_undefined params then VObj [] else params in
  q <- append_number params "limit" [] ;;
  q <- append_number params "offset" q ;;
  q <- append_string params "contain" keyword q ;;
  q <- append_string params "category" "category" q ;;
  q <- append_tags params q ;;
  q <- append_string params "from" "from" q ;;
  q <- append_string params "to" "to" q ;;
  append_favorite params q.

End Transport.
Export Transport.

(** *** [utils/api-client.cjs] *)

Module ApiClient.
Section Client.

Context (rt : runtime) (net : network) (apiKey : string).

(** [ConvolutAPIClient.request] *)
Definition request (endpoint : string) (o : options) : T value :=
  u <~ lift (new_URL rt (baseUrl ++ endpoint)) ;;
  out <~ send net (requestOptions apiKey u o) ;;
  match out with
  | Responded res => lift (on_end rt res)
  | Failed e => throwT e
  | TimedOut => throwT (Error "Request timeout")
  end.

Definition listContexts_query : value -> M (list (string * string)) :=
  list_query "contain".

(** [`/contexts${queryParams.toString() ? `?${queryParams.toString()}` : ''}`] *)
Definition listContexts_endpoint (q : list (string * string)) : string :=
  let s := URLSearchParams_toString rt q in
  "/contexts" ++ (if s =? EmptyString then EmptyString else "?" ++ s).

Definition listContexts (params : value) : T value :=
  q <~ lift (listContexts_query params) ;;
  request (listContexts_endpoint q) no_options.

(** [getContext]: reads [response.items] whatever the response is. *)
Definition getContext (contextId : value) : T value :=
  response <~ listContexts (VObj [("limit", VNum 100)]) ;;
  lift (items <- get response "items" ;;
        l <- as_array "response.items" "find" items ;;
        context <- find (fun item => id <- get item "id" ;;
                                     ret (strict_eq id contextId)) l ;;
        if truthy context then ret context
        else
          s <- to_string contextId ;;
          throw (Error ("Context with ID " ++ s ++ " not found"))).

Definition createContext (contextData : value) : T value :=
  request "/contexts" (with_body "POST" (stringify rt contextData)).

Definition updateContext (contextId updates : value) : T value :=
  s <~ lift (to_string contextId) ;;
  request ("/contexts/" ++ s) (with_body "PUT" (stringify rt updates)).

Definition deleteContext (contextId : value) : T value :=
  s <~ lift (to_string contextId) ;;
  request ("/contexts/" ++ s) (with_body "DELETE" None).

Definition consolidateContexts (req : value) : T value :=
  request "/contexts/consolidate" (with_body "POST" (stringify rt req)).

Definition planFromContexts (req : value) : T value :=
  request "/contexts/plan" (with_body "POST" (stringify rt req)).

Definition exportContexts (req : value) : T value :=
  request "/contexts/export" (with_body "POST" (stringify rt req)).

Definition generateRawUrl (req : value) : T value :=
  request "/contexts/raw-url" (with_body "POST" (stringify rt req)).

Definition ConvolutAPIClient : api_client :=
  Build_api_client listContexts getContext createContext updateContext
    deleteContext consolidateContexts planFromContexts exportContexts
    generateRawUrl.

End Client.
End ApiClient.

(** *** The "FIXED VERSION" of the API client

    The sibling of [utils/api-client.cjs] whose header reads "FIXED
    VERSION: Handles both direct array and paginated object responses";
    it adds redirect handling to [request], sends the keyword as
    [search], normalises the list response in [getContext] and adds
    [searchContexts]. *)

Module ApiClientFixed.
Section Client.

Context (rt : runtime) (net : network) (apiKey : string).

(** The ['end'] callback of the redirected request, once it is not
    followed further. *)
Definition on_redirect_end (res : http_response) : M value :=
  if not_2xx (statusCode res) then
    throw (Error ("API Error " ++ status_text (statusCode res) ++ ": " ++ data res))
  else
    match JSON_parse rt (data res) with
    | Some v => ret v
    | None => throw (Error ("Invalid JSON response from redirect: " ++ data res))
    end.

(** [location.startsWith('http') ? new URL(location)
                                 : new URL(location, `https://${url.hostname}`)] *)
Definition redirect_target (u : url) (loc : string) : option url :=
  if prefix "http" loc then URL_parse rt loc
  else URL_resolve rt loc ("https://" ++ url_hostname u).

(** [{ ...requestOptions, hostname, port, path }], with the body written
    only for [POST] and [PUT]. *)
Definition redirectRequestOptions (ro : http_request) (target : url) (o : options)
    : http_request :=
  {| rq_hostname := url_hostname target;
     rq_port := if url_port target =? EmptyString then "443" else url_port target;
     rq_path := url_pathname target ++ url_search target;
     rq_method := rq_method ro;
     rq_headers := rq_headers ro;
     rq_body :=
       match opt_method o with
       | Some m => if (m =? "POST") || (m =? "PUT") then present (opt_body o) else None
       | None => None
       end |}.

(** [request(endpoint, options = {}, maxRedirects = 5)] *)
Fixpoint request_from (maxRedirects : nat) (endpoint : string) (o : options)
    {struct maxRedirects} : T value :=
  u <~ lift (new_URL rt (baseUrl ++ endpoint)) ;;
  let ro := requestOptions apiKey u o in
  out <~ send net ro ;;
  match out with
  | Failed e => throwT e
  | TimedOut => throwT (Error "Request timeout")
  | Responded res =>
      if is_redirect (statusCode res) then
        match maxRedirects with
        | O =>
            throwT (Error ("Too many redirects. Last status: "
                           ++ status_text (statusCode res)))
        | S fewer =>
            match present (location res) with
            | None =>
                throwT (Error ("Redirect response " ++ status_text (statusCode res)
                               ++ " missing Location header"))
            | Some loc =>
                match redirect_target u loc with
                | None => throwT (Error ("Invalid JSON response: " ++ data res))
                | Some redirectUrl =>
                    out' <~ send net (redirectRequestOptions ro redirectUrl o) ;;
                    match out' with
                    | Failed e => throwT e
                    | TimedOut => throwT (Error "Redirect request timeout")
                    | Responded redirectRes =>
                        if is_redirect (statusCode redirectRes)
                           && (1 <? maxRedirects)%nat
                        then
                          request_from fewer
                            (replace_first "/v1" EmptyString
                               (url_pathname redirectUrl ++ url_search redirectUrl))
                            o
                        else lift (on_redirect_end redirectRes)
                    end
                end
            end
        end
      else lift (on_end rt res)
  end.

Definition request (endpoint : string) (o : options) : T value :=
  request_from 5 endpoint o.

Definition listContexts_query : value -> M (list (string * string)) :=
  list_query "search".

Definition listContexts (params : value) : T value :=
  q <~ lift (listContexts_query params) ;;
  request (ApiClient.listContexts_endpoint rt q) no_options.

Definition getContext (contextId : value) : T value :=
  response <~ listContexts (VObj [("limit", VNum 100)]) ;;
  lift (contexts <- items_or_empty response ;;
        l <- as_array "contexts" "find" contexts ;;
        context <- find (fun item => id <- get item "id" ;;
                                     ret (strict_eq id contextId)) l ;;
        if truthy context then ret context
        else
          s <- to_string contextId ;;
          throw (Error ("Context with ID " ++ s ++ " not found"))).

Definition createContext (contextData : value) : T value :=
  request "/contexts" (with_body "POST" (stringify rt contextData)).

Definition updateContext (contextId updates : value) : T value :=
  s <~ lift (to_string contextId) ;;
  request ("/contexts/" ++ s) (with_body "PUT" (stringify rt updates)).

Definition deleteContext (contextId : value) : T value :=
  s <~ lift (to_string contextId) ;;
  request ("/contexts/" ++ s) (with_body "DELETE" None).

(** [searchContexts]: the only method that reads [params.query]; no
    handler calls it. *)
Definition searchContexts_query (params : value) : M (list (string * string)) :=
  let params := if is_undefined params then VObj [] else params in
  q <- append_string params "query" "search" [] ;;
  q <- append_number params "limit" q ;;
  q <- append_number params "offset" q ;;
  q <- append_string params "category" "category" q ;;
  append_tags params q.

Definition searchContexts (params : value) : T value :=
  q <~ lift (searchContexts_query params) ;;
  request (ApiClient.listContexts_endpoint rt q) no_options.

Definition consolidateContexts (req : value) : T value :=
  request "/contexts/consolidate" (with_body "POST" (stringify rt req)).

Definition planFromContexts (req : value) : T value :=
  request "/contexts/plan" (with_body "POST" (stringify rt req)).

Definition exportContexts (req : value) : T value :=
  request "/contexts/export" (with_body "POST" (stringify rt req)).

Definition generateRawUrl (req : value) : T value :=
  request "/contexts/raw-url" (with_body "POST" (stringify rt req)).

Definition ConvolutAPIClient : api_client :=
  Build_api_client listContexts getContext createContext updateContext
    deleteContext consolidateContexts planFromContexts exportContexts
    generateRawUrl.

End Client.
End ApiClientFixed.

(** ** Tool handlers *)

Module Tools.

(** The Tool Result envelope: [{ content: [{ type, text }], isError }].
    A result without the [isError] property has [isError = false]. *)
Record content_block : Type := { block_type : string; text : string }.
Record tool_result : Type := { content : list content_block; isError : bool }.

Definition text_block (s : string) : content_block :=
  {| block_type := "text"; text := s |}.

(** [return { content: [{ type: 'text', text: s }] }] *)
Definition success (s : string) : tool_result :=
  {| content := [text_block s]; isError := false |}.

(** [return { content: [{ type: 'text', text: `${prefix}${error.message}` }],
             isError: true }] *)
Definition failure (prefix : string) (e : exn) : tool_result :=
  {| content := [text_block (prefix ++ message e)]; isError := true |}.

(** A handler body under its [try]/[catch]. *)
Definition guarded (prefix : string) (body : T tool_result) : T tool_result :=
  try_catch body (fun e => retT (failure prefix e)).

(** [v < n] and [v > n] once [typeof v === 'number'] *)
Definition below (v : value) (n : Z) : bool :=
  match v with VNum x => (x <? n)%Z | _ => false end.
Definition above (v : value) (n : Z) : bool :=
  match v with VNum x => (n <? x)%Z | _ => false end.

(** [typeof v !== 'string' || v.trim().length === 0] *)
Definition blank (v : value) : bool :=
  match v with
  | VStr s => trim s =? EmptyString
  | _ => true
  end.

(** [v.trim()] for a string *)
Definition trimmed (v : value) : value :=
  match v with VStr s => VStr (trim s) | _ => v end.

(** [if (cond) o[k] = v] *)
Definition set_if (cond : bool) (k : string) (v : value)
    (o : list (string * value)) : list (string * value) :=
  if cond then set_own o k v else o.

(** The properties [const { [k]: _, ...rest } = v] leaves in [rest]. *)
Fixpoint indexed (l : list value) (i : Z) : list (string * value) :=
  match l with
  | [] => []
  | x :: rest => (num_to_string i, x) :: indexed rest (i + 1)
  end.

Fixpoint chars (s : string) : list value :=
  match s with
  | EmptyString => []
  | String c rest => VStr (String c EmptyString) :: chars rest
  end.

(** Destructuring [undefined] or [null] by a pattern whose first
    property has no default throws, naming that property. *)
Definition destructurable (first_key : string) (v : value) : M unit :=
  match v with
  | VUndefined =>
      throw (TypeError ("Cannot destructure property '" ++ first_key
                        ++ "' of 'args' as it is undefined."))
  | VNull =>
      throw (TypeError ("Cannot destructure property '" ++ first_key
                        ++ "' of 'args' as it is null."))
  | _ => ret tt
  end.

Definition rest_without (k : string) (v : value) : value :=
  match v with
  | VObj fields => VObj (without k fields)
  | VArr l => VObj (indexed l 0)
  | VStr s => VObj (indexed (chars s) 0)
  | _ => VObj []
  end.

(** [k = dflt] in a destructuring pattern: the property is read, which
    throws on [undefined] and [null], and [dflt] stands in for
    [undefined]. *)
Definition get_default (v : value) (k : string) (dflt : value) : M value :=
  x <- get v k ;; ret (if is_undefined x then dflt else x).

End Tools.
Export Tools.

(** *** [tools/contexts.cjs] *)

Module Contexts.

Definition validateContextSearch (args : value) : M value :=
  limit <- get args "limit" ;;
  params <-
    (if is_undefined limit then ret []
     else if negb (typeof limit =? "number") || below limit 1 || above limit 100
          then throw (Error "limit must be a number between 1 and 100")
          else ret [("limit", limit)]) ;;
  offset <- get args "offset" ;;
  params <-
    (if is_undefined offset then ret params
     else if negb (typeof offset =? "number") || below offset 0
          then throw (Error "offset must be a non-negative number")
          else ret (set_own params "offset" offset)) ;;
  contain <- get args "contain" ;;
  let params := set_if (truthy contain) "contain" contain params in
  category <- get args "category" ;;
  let params := set_if (truthy category) "category" category params in
  tags <- get args "tags" ;;
  let params := set_if (truthy tags && isArray tags) "tags" tags params in
  from <- get args "from" ;;
  let params := set_if (truthy from) "from" from params in
  to <- get args "to" ;;
  let params := set_if (truthy to) "to" to params in
  is_favorite <- get args "is_favorite" ;;
  let params := set_if (negb (is_undefined is_favorite)) "is_favorite" is_favorite params in
  ret (VObj params).

Definition validateContextId (args : value) : M value :=
  context_id <- get args "context_id" ;;
  if negb (truthy context_id) || negb (typeof context_id =? "string")
  then throw (Error "context_id is required and must be a string")
  else ret (VObj [("context_id", context_id)]).

Definition validateCreateContext (args : value) : M value :=
  title <- get args "title" ;;
  (if negb (truthy title) || blank title
   then throw (Error "title is required and must be a non-empty string")
   else ret tt) ;;;
  content <- get args "content" ;;
  (if negb (truthy content) || blank content
   then throw (Error "content is required and must be a non-empty string")
   else ret tt) ;;;
  category <- get args "category" ;;
  is_favorite <- get args "is_favorite" ;;
  let data :=
    [ ("title", trimmed title);
      ("content", trimmed content);
      ("category", or_else category (VStr "other"));
      ("is_favorite", or_else is_favorite (VBool false)) ] in
  tags <- get args "tags" ;;
  let data := set_if (truthy tags && isArray tags) "tags" tags data in
  files <- get args "files" ;;
  let data := set_if (truthy files && isArray files) "files" files data in
  ret (VObj data).

Definition validateUpdateContext (args : value) : M value :=
  title <- get args "title" ;;
  data <-
    (if is_undefined title then ret []
     else if blank title then throw (Error "title must be a non-empty string")
          else ret [("title", trimmed title)]) ;;
  content <- get args "content" ;;
  data <-
    (if is_undefined content then ret data
     else if blank content then throw (Error "content must be a non-empty string")
          else ret (set_own data "content" (trimmed content))) ;;
  category <- get args "category" ;;
  let data := set_if (negb (is_undefined category)) "category" category data in
  is_favorite <- get args "is_favorite" ;;
  let data := set_if (negb (is_undefined is_favorite)) "is_favorite" is_favorite data in
  tags <- get args "tags" ;;
  let data := set_if (negb (is_undefined tags)) "tags" tags data in
  files <- get args "files" ;;
  let data := set_if (negb (is_undefined files)) "files" files data in
  ret (VObj data).

Section Handlers.

Context (rt : runtime).

(** [(response.offset || 0) + response.items.length < response.total_count] *)
Definition hasMore_of_response (response : value) : M bool :=
  offset <- get response "offset" ;;
  items <- get response "items" ;;
  len <- length_of items ;;
  reached <- js_add (or_else offset (VNum 0)) len ;;
  total <- get response "total_count" ;;
  js_lt (string_to_number rt) reached total.

(** The object [handleListContexts] serialises. *)
Definition list_payload (response : value) : M value :=
  contexts <- get response "items" ;;
  total <- get response "total_count" ;;
  limit <- get response "limit" ;;
  offset <- get response "offset" ;;
  hasMore <- hasMore_of_response response ;;
  ret (VObj [ ("contexts", contexts);
              ("pagination",
               VObj [ ("total", total); ("limit", limit); ("offset", offset);
                      ("hasMore", VBool hasMore) ]) ]).

Definition handleListContexts (args : value) (apiClient : api_client)
    : T tool_result :=
  guarded "Error listing contexts: "
    (params <~ lift (validateContextSearch args) ;;
     response <~ listContexts apiClient params ;;
     payload <~ lift (list_payload response) ;;
     retT (success (JSON_pretty rt payload))).

Definition handleGetContext (args : value) (apiClient : api_client)
    : T tool_result :=
  guarded "Error retrieving context: "
    (validated <~ lift (validateContextId args) ;;
     context_id <~ lift (get validated "context_id") ;;
     context <~ getContext apiClient context_id ;;
     retT (success (JSON_pretty rt context))).

Definition handleCreateContext (args : value) (apiClient : api_client)
    : T tool_result :=
  guarded "Error creating context: "
    (contextData <~ lift (validateCreateContext args) ;;
     context <~ createContext apiClient contextData ;;
     retT (success (JSON_pretty rt
       (VObj [ ("message", VStr "Context created successfully");
               ("context", context) ])))).

Definition handleUpdateContext (args : value) (apiClient : api_client)
    : T tool_result :=
  guarded "Error updating context: "
    (_ <~ lift (destructurable "context_id" args) ;;
     context_id <~ lift (get args "context_id") ;;
     let updates := rest_without "context_id" args in
     _ <~ lift (validateContextId (VObj [("context_id", context_id)])) ;;
     updateData <~ lift (validateUpdateContext updates) ;;
     context <~ updateContext apiClient context_id updateData ;;
     retT (success (JSON_pretty rt
       (VObj [ ("message", VStr "Context updated successfully");
               ("context", context) ])))).

Definition handleDeleteContext (args : value) (apiClient : api_client)
    : T tool_result :=
  guarded "Error deleting context: "
    (validated <~ lift (validateContextId args) ;;
     context_id <~ lift (get validated "context_id") ;;
     _ <~ deleteContext apiClient context_id ;;
     retT (success (JSON_pretty rt
       (VObj [ ("message", VStr "Context deleted successfully");
               ("context_id", context_id) ])))).

End Handlers.
End Contexts.

(** *** [tools/contexts-fixed.cjs]

    The validators and the other four handlers are those of
    [tools/contexts.cjs], line for line; [handleListContexts] is the
    handler marked "FIXED: Handle both response formats". *)

Module ContextsFixed.
Section Handlers.

Context (rt : runtime).

(** [Array.isArray(response) ? response.length : response.total_count || 0] *)
Definition totalCount_of (response : value) : M value :=
  if isArray response then length_of response
  else total <- get response "total_count" ;; ret (or_else total (VNum 0)).

(** The object [handleListContexts] serialises. *)
Definition list_payload (params response : value) : M value :=
  contexts <- items_or_empty response ;;
  totalCount <- totalCount_of response ;;
  plimit <- get params "limit" ;;
  let limit := or_else plimit (VNum 20) in
  poffset <- get params "offset" ;;
  let offset := or_else poffset (VNum 0) in
  len <- length_of contexts ;;
  reached <- js_add offset len ;;
  hasMore <- js_lt (string_to_number rt) reached totalCount ;;
  ret (VObj [ ("contexts", contexts);
              ("pagination",
               VObj [ ("total", totalCount); ("limit", limit); ("offset", offset);
                      ("hasMore", VBool hasMore) ]) ]).

Definition handleListContexts (args : value) (apiClient : api_client)
    : T tool_result :=
  guarded "Error listing contexts: "
    (params <~ lift (Contexts.validateContextSearch args) ;;
     response <~ listContexts apiClient params ;;
     payload <~ lift (list_payload params response) ;;
     retT (success (JSON_pretty rt payload))).

Definition handleGetContext := Contexts.handleGetContext rt.
Definition handleCreateContext := Contexts.handleCreateContext rt.
Definition handleUpdateContext := Contexts.handleUpdateContext rt.
Definition handleDeleteContext := Contexts.handleDeleteContext rt.

End Handlers.
End ContextsFixed.

(** *** [tools/ai-tools.cjs] *)

Module AiTools.

(** [!ids || !Array.isArray(ids) || ids.length < lo || ids.length > hi] *)
Definition bad_ids (ids : value) (lo hi : Z) : bool :=
  match ids with
  | VArr l =>
      (Z.of_nat (List.length l) <? lo)%Z || (hi <? Z.of_nat (List.length l))%Z
  | _ => true
  end.

Definition validateConsolidateRequest (args : value) : M value :=
  context_ids <- get args "context_ids" ;;
  (if bad_ids context_ids 2 10
   then throw (Error "context_ids must be an array of 2-10 context IDs")
   else ret tt) ;;;
  consolidation_type <- get args "consolidation_type" ;;
  (if negb (truthy consolidation_type)
      || negb (includes ["summarize"; "compose"] consolidation_type)
   then throw (Error ("consolidation_type must be either " ++ quoted "summarize"
                      ++ " or " ++ quoted "compose"))
   else ret tt) ;;;
  let request :=
    [ ("context_ids", context_ids); ("consolidation_type", consolidation_type) ] in
  custom_prompt <- get args "custom_prompt" ;;
  ret (VObj (set_if (truthy custom_prompt) "custom_prompt" custom_prompt request)).

Definition validatePlanRequest (args : value) : M value :=
  context_ids <- get args "context_ids" ;;
  (if bad_ids context_ids 1 20
   then throw (Error "context_ids must be an array of 1-20 context IDs")
   else ret tt) ;;;
  let request := [ ("context_ids", context_ids) ] in
  planning_prompt <- get args "planning_prompt" ;;
  ret (VObj (set_if (truthy planning_prompt) "planning_prompt" planning_prompt request)).

(** The [searchParams] of [handleSearchContexts]. *)
Definition searchParams (args : value) : M value :=
  query <- get args "query" ;;
  (if negb (truthy query) || blank query
   then throw (Error "query is required and must be a non-empty string")
   else ret tt) ;;;
  limit <- get args "limit" ;;
  let params := [ ("search", query); ("limit", or_else limit (VNum 10)) ] in
  category <- get args "category" ;;
  let params := set_if (truthy category) "category" category params in
  tags <- get args "tags" ;;
  let params := set_if (truthy tags && isArray tags) "tags" tags params in
  ret (VObj params).

Section Handlers.

Context (rt : runtime).

Definition handleConsolidateContexts (args : value) (apiClient : api_client)
    : T tool_result :=
  guarded "Error consolidating contexts: "
    (request <~ lift (validateConsolidateRequest args) ;;
     result <~ consolidateContexts apiClient request ;;
     payload <~ lift (consolidation_type <- get request "consolidation_type" ;;
                      ids <- get request "context_ids" ;;
                      n <- length_of ids ;;
                      ret (VObj [ ("message", VStr "Contexts consolidated successfully");
                                  ("consolidation_type", consolidation_type);
                                  ("input_contexts", n);
                                  ("result", result) ])) ;;
     retT (success (JSON_pretty rt payload))).

Definition handlePlanFromContexts (args : value) (apiClient : api_client)
    : T tool_result :=
  guarded "Error generating plan: "
    (request <~ lift (validatePlanRequest args) ;;
     result <~ planFromContexts apiClient request ;;
     payload <~ lift (ids <- get request "context_ids" ;;
                      n <- length_of ids ;;
                      ret (VObj [ ("message", VStr "Plan generated successfully from contexts");
                                  ("analyzed_contexts", n);
                                  ("result", result) ])) ;;
     retT (success (JSON_pretty rt payload))).

Definition handleSearchContexts (args : value) (apiClient : api_client)
    : T tool_result :=
  guarded "Error searching contexts: "
    (params <~ lift (searchParams args) ;;
     response <~ listContexts apiClient params ;;
     payload <~ lift (results <- items_or_empty response ;;
                      query <- get args "query" ;;
                      n <- length_of results ;;
                      ret (VObj [ ("message", VStr "Context search completed");
                                  ("query", query);
                                  ("results", results);
                                  ("total_found", n) ])) ;;
     retT (success (JSON_pretty rt payload))).

End Handlers.
End AiTools.

(** *** [tools/export.cjs] *)

Module ExportTools.

Definition validateExportRequest (args : value) : M value :=
  context_ids <- get args "context_ids" ;;
  (if AiTools.bad_ids context_ids 1 100
   then throw (Error "context_ids must be an array of 1-100 context IDs")
   else ret tt) ;;;
  format <- get args "format" ;;
  (if negb (truthy format) || negb (includes ["json"; "xml"; "txt"; "markdown"] format)
   then throw (Error "format must be one of: json, xml, txt, markdown")
   else ret tt) ;;;
  include_metadata <- get args "include_metadata" ;;
  ret (VObj [ ("context_ids", context_ids);
              ("format", format);
              ("include_metadata",
               if is_undefined include_metadata then VBool true else include_metadata) ]).

Definition validateRawUrlRequest (args : value) : M value :=
  Contexts.validateContextId args.

(** [acc[key] = (acc[key] || 0) + 1] on an object literal [acc]: an
    absent key reads through to [Object.prototype], and an assignment to
    [__proto__] with a primitive is ignored. *)
Definition bump (acc : list (string * value)) (key : string)
    : M (list (string * value)) :=
  next <-
    match own acc key with
    | Some v => js_add (or_else v (VNum 0)) (VNum 1)
    | None =>
        if inherited key then ret (VStr (inherited_to_string key ++ "1"))
        else ret (VNum 1)
    end ;;
  ret (if key =? "__proto__" then acc else assign acc key next).

(** [items.reduce((acc, context) => { acc[context.category] = ...; return acc }, {})] *)
Definition by_category (items : list value) : M (list (string * value)) :=
  reduce (fun acc context =>
            category <- get context "category" ;;
            key <- to_string category ;;
            bump acc key) items [].

(** [{ favorites: items.filter(c => c.is_favorite).length,
       non_favorites: items.filter(c => !c.is_favorite).length }] *)
Definition by_favorite (items : list value) : M (list (string * value)) :=
  favorites <- count (fun c => f <- get c "is_favorite" ;; ret (truthy f)) items ;;
  non_favorites <- count (fun c => f <- get c "is_favorite" ;; ret (negb (truthy f))) items ;;
  ret [ ("favorites", VNum favorites); ("non_favorites", VNum non_favorites) ].

(** [items.forEach(context => context.tags.forEach(tag => { tagCounts[tag] = ... }))] *)
Definition by_tags (items : list value) : M (list (string * value)) :=
  reduce (fun tagCounts context =>
            tags <- get context "tags" ;;
            l <- as_array "context.tags" "forEach" tags ;;
            reduce (fun tagCounts tag => key <- to_string tag ;; bump tagCounts key)
                   l tagCounts) items [].

(** [items.reduce((sum, ctx) => sum + (ctx.word_count || 0), 0)] *)
Definition total_words (items : list value) : M value :=
  reduce (fun sum ctx =>
            word_count <- get ctx "word_count" ;;
            js_add sum (or_else word_count (VNum 0))) items (VNum 0).

Section Handlers.

Context (rt : runtime).

(** The [stats] object for a [group_by]; the three [if] branches, and
    [{}] when none applies. *)
Definition statistics (group_by allContexts : value) : M (list (string * value)) :=
  if strict_eq group_by (VStr "category") then
    items <- get allContexts "items" ;;
    l <- as_array "allContexts.items" "reduce" items ;;
    by_category l
  else if strict_eq group_by (VStr "favorite") then
    items <- get allContexts "items" ;;
    l <- as_array "allContexts.items" "filter" items ;;
    by_favorite l
  else if strict_eq group_by (VStr "tags") then
    items <- get allContexts "items" ;;
    l <- as_array "allContexts.items" "forEach" items ;;
    by_tags l
  else ret [].

(** The [result] object of [handleGetContextStats]. *)
Definition stats_result (date_range group_by allContexts : value) : M value :=
  stats <- statistics group_by allContexts ;;
  total_contexts <- get allContexts "total_count" ;;
  items <- get allContexts "items" ;;
  l <- as_array "allContexts.items" "reduce" items ;;
  words <- total_words l ;;
  avg <- (if (0 <? Z.of_nat (List.length l))%Z
          then round_div (string_to_number rt) words (Z.of_nat (List.length l))
          else ret (VNum 0)) ;;
  ret (VObj [ ("total_contexts", total_contexts);
              ("date_range", date_range);
              ("group_by", group_by);
              ("statistics", VObj stats);
              ("total_words", words);
              ("avg_words_per_context", avg) ]).

Definition handleExportContexts (args : value) (apiClient : api_client)
    : T tool_result :=
  guarded "Error exporting contexts: "
    (request <~ lift (validateExportRequest args) ;;
     result <~ exportContexts apiClient request ;;
     payload <~ lift (format <- get request "format" ;;
                      ids <- get request "context_ids" ;;
                      n <- length_of ids ;;
                      include_metadata <- get request "include_metadata" ;;
                      ret (VObj [ ("message", VStr "Contexts exported successfully");
                                  ("format", format);
                                  ("exported_contexts", n);
                                  ("include_metadata", include_metadata);
                                  ("result", result) ])) ;;
     retT (success (JSON_pretty rt payload))).

(** [new Date(t).toISOString()]: a time value that is [NaN] or beyond
    8.64e15 ms is an invalid date. *)
Definition iso_date (t : value) : M value :=
  match t with
  | VNum ms =>
      if (Z.abs ms <=? 8640000000000000)%Z then ret (VStr (toISOString rt ms))
      else throw (RangeError "Invalid time value")
  | _ => throw (RangeError "Invalid time value")
  end.

Definition handleGetRawUrl (args : value) (apiClient : api_client)
    : T tool_result :=
  guarded "Error generating raw URL: "
    (request <~ lift (validateRawUrlRequest args) ;;
     result <~ generateRawUrl apiClient request ;;
     payload <~ lift (context_id <- get request "context_id" ;;
                      raw_url <- get result "raw_url" ;;
                      expires_in_seconds <- get result "expires_in_seconds" ;;
                      ms <- js_mul (string_to_number rt) expires_in_seconds (VNum 1000) ;;
                      t <- js_add (VNum (Date_now rt)) ms ;;
                      expires_at <- iso_date t ;;
                      ret (VObj [ ("message", VStr "Raw URL generated successfully");
                                  ("context_id", context_id);
                                  ("raw_url", raw_url);
                                  ("expires_in_seconds", expires_in_seconds);
                                  ("expires_at", expires_at) ])) ;;
     retT (success (JSON_pretty rt payload))).

Definition handleGetContextStats (args : value) (apiClient : api_client)
    : T tool_result :=
  guarded "Error generating statistics: "
    (date_range <~ lift (get_default args "date_range" (VStr "30d")) ;;
     group_by <~ lift (get_default args "group_by" (VStr "category")) ;;
     allContexts <~ listContexts apiClient (VObj [("limit", VNum 100)]) ;;
     result <~ lift (stats_result date_range group_by allContexts) ;;
     retT (success (JSON_pretty rt result))).

End Handlers.
End ExportTools.

(** ** The JSON-RPC dispatcher of [stdio-client.cjs] *)

Module Stdio.

(** What a response carries under [result]: the Tool Result of a handler
    or a plain value. *)
Inductive rpc_result : Type :=
| ToolResult (r : tool_result)
| Plain (v : value).

(** [{ jsonrpc: '2.0', id, result }] or [{ jsonrpc: '2.0', id, error: { code, message } }] *)
Inductive rpc_response : Type :=
| Result (id : value) (result : rpc_result)
| RpcError (id : value) (code : Z) (msg : string).

Definition handler : Type := value -> api_client -> T tool_result.

(** What [TOOL_HANDLERS[toolName]] evaluates to: a registered handler,
    a member inherited from [Object.prototype], or [undefined]. *)
Inductive callee : Type :=
| Registered (h : handler)
| Inherited (k : string)
| Missing.

Fixpoint own_handler (table : list (string * handler)) (k : string) : option handler :=
  match table with
  | [] => None
  | (k', h) :: rest => if k' =? k then Some h else own_handler rest k
  end.

Definition lookup (table : list (string * handler)) (k : string) : callee :=
  match own_handler table k with
  | Some h => Registered h
  | None => if inherited k then Inherited k else Missing
  end.

Section Server.

Context (rt : runtime) (TOOLS : value) (apiClient : api_client).

Definition TOOL_HANDLERS : list (string * handler) :=
  [ ("list_contexts", Contexts.handleListContexts rt);
    ("get_context", Contexts.handleGetContext rt);
    ("create_context", Contexts.handleCreateContext rt);
    ("update_context", Contexts.handleUpdateContext rt);
    ("delete_context", Contexts.handleDeleteContext rt);
    ("search_contexts", AiTools.handleSearchContexts rt);
    ("consolidate_contexts", AiTools.handleConsolidateContexts rt);
    ("plan_from_contexts", AiTools.handlePlanFromContexts rt);
    ("export_contexts", ExportTools.handleExportContexts rt);
    ("get_raw_url", ExportTools.handleGetRawUrl rt);
    ("get_context_stats", ExportTools.handleGetContextStats rt) ].

(** [member(args, apiClient)] for the member [k] of [Object.prototype],
    called as a plain function: [Object] returns its argument,
    [toString] names the missing receiver, [isPrototypeOf] answers
    [false] to a primitive, the prototype object behind [__proto__] is
    not callable, and the others need a receiver. *)
Definition call_inherited (k : string) (args : value) : M value :=
  if k =? "constructor" then ret args
  else if k =? "toString" then ret (VStr "[object Undefined]")
  else if k =? "__proto__" then throw (not_a_function "toolHandler")
  else if k =? "isPrototypeOf" then
    match args with
    | VArr _ | VObj _ => throw (TypeError (receiver_error rt k))
    | _ => ret (VBool false)
    end
  else if (k =? "hasOwnProperty") || (k =? "propertyIsEnumerable") then
    _ <- to_string args ;; throw (TypeError (receiver_error rt k))
  else throw (TypeError (receiver_error rt k)).

(** The result of [initialize]. *)
Definition initialize_result : value :=
  VObj [ ("protocolVersion", VStr "2024-11-05");
         ("capabilities",
          VObj [ ("tools", VObj [("listChanged", VBool false)]);
                 ("logging", VObj []);
                 ("experimental", VObj []) ]);
         ("serverInfo",
          VObj [ ("name", VStr "convolut-mcp-server");
                 ("version", VStr "1.0.0") ]) ].

(** [request.params?.name] *)
Definition params_name (request : value) : M value :=
  params <- get request "params" ;;
  match params with
  | VUndefined | VNull => ret VUndefined
  | _ => get params "name"
  end.

(** The [case 'tools/call'] of the dispatcher. *)
Definition tools_call (requestId request : value) : T (option rpc_response) :=
  name <~ lift (params_name request) ;;
  if negb (truthy name) then
    retT (Some (RpcError requestId (-32602) "Missing tool name"))
  else
    params <~ lift (get request "params") ;;
    toolName <~ lift (get params "name") ;;
    key <~ lift (to_string toolName) ;;
    match lookup TOOL_HANDLERS key with
    | Missing =>
        retT (Some (RpcError requestId (-32601) ("Tool not found: " ++ key)))
    | Registered toolHandler =>
        try_catch
          (arguments <~ lift (get params "arguments") ;;
           result <~ toolHandler (or_else arguments (VObj [])) apiClient ;;
           retT (Some (Result requestId (ToolResult result))))
          (fun error => retT (Some (RpcError requestId (-32603) (message error))))
    | Inherited k =>
        try_catch
          (arguments <~ lift (get params "arguments") ;;
           result <~ lift (call_inherited k (or_else arguments (VObj []))) ;;
           retT (Some (Result requestId (Plain result))))
          (fun error => retT (Some (RpcError requestId (-32603) (message error))))
    end.

(** ['id' in request ? request.id : null] *)
Definition request_id (request : value) : value :=
  match request with
  | VObj fields => match own fields "id" with Some v => v | None => VNull end
  | _ => VNull
  end.

(** [handleMCPRequest]; [None] is the [null] returned for a
    notification. *)
Definition handleMCPRequest (request : value) : T (option rpc_response) :=
  if negb (truthy request) || negb (typeof request =? "object") then
    retT (Some (RpcError VNull (-32700) "Invalid request object"))
  else
    let requestId := request_id request in
    try_catch
      (method <~ lift (get request "method") ;;
       if strict_eq method (VStr "initialize") then
         retT (Some (Result requestId (Plain initialize_result)))
       else if strict_eq method (VStr "notifications/initialized") then
         retT None
       else if strict_eq method (VStr "tools/list") then
         retT (Some (Result requestId (Plain (VObj [("tools", TOOLS)]))))
       else if strict_eq method (VStr "resources/list") then
         retT (Some (Result requestId (Plain (VObj [("resources", VArr [])]))))
       else if strict_eq method (VStr "tools/call") then
         tools_call requestId request
       else if strict_eq method (VStr "ping") then
         retT (Some (Result requestId (Plain (VObj [("status", VStr "ok")]))))
       else
         name <~ lift (to_string method) ;;
         retT (Some (RpcError requestId (-32601) ("Method not found: " ++ name))))
      (fun error =>
         retT (Some (RpcError requestId (-32603) ("Internal error: " ++ message error)))).

End Server.
End Stdio.

(** ** The health probe of [utils/api-client.cjs] *)

Module Health.

(** [this.baseUrl.replace('/v1', '') + '/health'] *)
Definition healthUrl : string :=
  replace_first "/v1" EmptyString baseUrl ++ "/health".

(** The options of the probe: the path without its query, one header. *)
Definition healthOptions (u : url) : http_request :=
  {| rq_hostname := url_hostname u;
     rq_port := if url_port u =? EmptyString then "443" else url_port u;
     rq_path := url_pathname u;
     rq_method := "GET";
     rq_headers := [("User-Agent", "convolut-mcp-client/1.0.0")];
     rq_body := None |}.

Section Client.

Context (rt : runtime) (net : network).

(** The ['end'] callback of [healthCheck]. *)
Definition on_health_end (res : http_response) : M value :=
  if not_2xx (statusCode res) then
    throw (Error ("Health check failed: " ++ status_text (statusCode res)
                  ++ " " ++ data res))
  else
    match JSON_parse rt (data res) with
    | Some v => ret v
    | None => throw (Error ("Invalid JSON response: " ++ data res))
    end.

(** [ConvolutAPIClient.healthCheck] *)
Definition healthCheck : T value :=
  u <~ lift (new_URL rt healthUrl) ;;
  out <~ send net (healthOptions u) ;;
  match out with
  | Responded res => lift (on_health_end res)
  | Failed e => throwT e
  | TimedOut => throwT (Error "Health check timeout")
  end.

End Client.
End Health.

(** ** The line loop of [stdio-client.cjs] *)

Module Main.

(** The objects [JSON.stringify(response)] is given. *)
Definition block_value (b : content_block) : value :=
  VObj [("type", VStr (block_type b)); ("text", VStr (text b))].

Definition tool_result_value (r : tool_result) : value :=
  VObj (("content", VArr (map block_value (content r)))
        :: if isError r then [("isError", VBool true)] else []).

Definition response_value (r : Stdio.rpc_response) : value :=
  match r with
  | Stdio.Result id (Stdio.ToolResult t) =>
      VObj [("jsonrpc", VStr "2.0"); ("id", id); ("result", tool_result_value t)]
  | Stdio.Result id (Stdio.Plain v) =>
      VObj [("jsonrpc", VStr "2.0"); ("id", id); ("result", v)]
  | Stdio.RpcError id code msg =>
      VObj [("jsonrpc", VStr "2.0"); ("id", id);
            ("error", VObj [("code", VNum code); ("message", VStr msg)])]
  end.

Section Loop.

(** [syntax_error line] is the message of the [SyntaxError] that
    [JSON.parse(line)] throws. *)
Context (rt : runtime) (TOOLS : value) (apiClient : api_client)
        (syntax_error : string -> string).

(** The [errorResponse] of the [catch] block, printed. *)
Definition parse_error (msg : string) : string :=
  JSON_stringify rt
    (response_value (Stdio.RpcError VNull (-32700) ("Parse error: " ++ msg))).

(** The ['line'] callback: what it prints with [console.log], if
    anything. *)
Definition on_line (line : string) : T (option string) :=
  if trim line =? EmptyString then retT None
  else
    match JSON_parse rt line with
    | None => retT (Some (parse_error (syntax_error line)))
    | Some request =>
        try_catch
          (response <~ Stdio.handleMCPRequest rt TOOLS apiClient request ;;
           retT (match response with
                 | Some r => Some (JSON_stringify rt (response_value r))
                 | None => None
                 end))
          (fun error => retT (Some (parse_error (message error))))
    end.

End Loop.
End Main.

(** ** A test double for the closed examples

    The examples below run the model on concrete inputs.  They use a
    runtime that reads URLs of the form [https://host/path?query],
    parses exactly the documents it is handed and prints values without
    escaping, and a network that answers by request path. *)

Module Sample.

(** [s] up to the first [c], and the rest from that [c] on. *)
Fixpoint split_at (c : ascii) (s : string) : string * string :=
  match s with
  | EmptyString => (EmptyString, EmptyString)
  | String d rest =>
      if Ascii.eqb c d then (EmptyString, s)
      else let (before, after) := split_at c rest in (String d before, after)
  end.

Definition parse_https (s : string) : option url :=
  if prefix "https://" s then
    let (host, p) := split_at "/" (substring 8 (String.length s - 8) s) in
    let (path, search) := split_at "?" p in
    Some {| url_hostname := host;
            url_port := EmptyString;
            url_pathname := if path =? EmptyString then "/" else path;
            url_search := search |}
  else None.

Definition resolve (loc base : string) : option url :=
  match parse_https base with
  | Some b =>
      if prefix "/" loc then parse_https ("https://" ++ url_hostname b ++ loc)
      else None
  | None => None
  end.

Fixpoint assoc {A} (table : list (string * A)) (k : string) : option A :=
  match table with
  | [] => None
  | (k', a) :: rest => if k' =? k then Some a else assoc rest k
  end.

Fixpoint show (v : value) : string :=
  match v with
  | VUndefined => "undefined"
  | VNull | VNaN => "null"
  | VBool true => "true"
  | VBool false => "false"
  | VNum n => num_to_string n
  | VStr s => quoted s
  | VArr l => "[" ++ String.concat "," (map show l) ++ "]"
  | VObj fields =>
      "{" ++ String.concat ","
               (map (fun kv => match kv with
                               | (k, x) => quoted k ++ ":" ++ show x
                               end) fields) ++ "}"
  end.

(** The runtime that parses the documents [docs]. *)
Definition runtime_with (docs : list (string * value)) : runtime :=
  {| JSON_parse := assoc docs;
     JSON_stringify := show;
     JSON_pretty := show;
     URL_parse := parse_https;
     URL_resolve := resolve;
     form_encode := fun s => s;
     string_to_number := fun _ => None;
     Date_now := 0;
     toISOString := num_to_string;
     receiver_error := fun k => "Object.prototype." ++ k ++ " called on null or undefined" |}.

Definition ok (body : string) : http_response :=
  {| statusCode := Some 200%Z; location := None; data := body |}.

Definition redirect (status : Z) (target : string) : http_response :=
  {| statusCode := Some status; location := Some target; data := EmptyString |}.

(** The network that answers by path, and [404] elsewhere. *)
Definition network_with (routes : list (string * http_response)) : network :=
  fun _ rq =>
    match assoc routes (rq_path rq) with
    | Some res => Responded res
    | None => Responded {| statusCode := Some 404%Z; location := None; data := "not found" |}
    end.

(** The requests of a run, as method and path. *)
Definition calls (tr : list http_request) : list (string * string) :=
  map (fun rq => (rq_method rq, rq_path rq)) tr.

Fixpoint repeat_string (n : nat) (s : string) : string :=
  match n with
  | O => EmptyString
  | S m => s ++ repeat_string m s
  end.

End Sample.

(** ** Vocabulary of the statements *)

(** [v.k] when the read cannot throw. *)
Definition field (v : value) (k : string) : value :=
  match get v k with inr x => x | inl _ => VUndefined end.

(** The parameter names of a query. *)
Definition names (q : list (string * string)) : list string := map fst q.

(** A value whose conversion to a string cannot throw: anything but an
    array or an object. *)
Definition scalar (v : value) : bool :=
  match v with VArr _ | VObj _ => false | _ => true end.

(** A [tags] argument as the schema types it: absent, or an array of
    strings. *)
Definition plain_tags (v : value) : bool :=
  match v with
  | VArr l => forallb scalar l
  | _ => true
  end.

(** A context as the remote API documents it, as far as the statistics
    read it: an object whose [word_count] is a number or absent. *)
Definition counted_context (c : value) : bool :=
  match c with
  | VObj fields =>
      match own fields "word_count" with
      | None | Some (VNum _) => true
      | Some _ => false
      end
  | _ => false
  end.

(** [r] with its [date_range] property set to [d]. *)
Definition with_date_range (d : value) (r : value) : value :=
  match r with
  | VObj fields => VObj (set_own fields "date_range" d)
  | _ => r
  end.

(** How a handler splits into validation and remote call: [validate]
    turns the arguments into the request, [invoke] is the one client
    method the handler calls on it. *)
Record phases : Type := {
  request_type : Type;
  prefix : string;
  validate : value -> M request_type;
  invoke : api_client -> request_type -> T value
}.

(** A handler keeps to the Tool Result envelope: it always returns one
    text block; a validation failure is flagged and leaves the network
    untouched; a failure of the remote call is flagged; nothing is
    flagged unless one of the phases or the presentation threw. *)
Definition envelope_contract (h : Stdio.handler) (p : phases) : Prop :=
  forall (args : value) (apiClient : api_client) (tr : list http_request),
    (exists r tr', h args apiClient tr = (inr r, tr') /\
                   exists s, content r = [text_block s]) /\
    (forall e, validate p args = inl e ->
               h args apiClient tr = (inr (failure (prefix p) e), tr)) /\
    (forall x e tr', validate p args = inr x ->
                     invoke p apiClient x tr = (inl e, tr') ->
                     h args apiClient tr = (inr (failure (prefix p) e), tr')) /\
    (forall r tr', h args apiClient tr = (inr r, tr') ->
                   isError r = false ->
                   exists x y, validate p args = inr x /\
                               invoke p apiClient x tr = (inr y, tr')).

(** The eleven registered handlers, and the fixed list handler, with
    their phases. *)
Definition handler_phases (rt : runtime) : list (Stdio.handler * phases) :=
  let limit100 := VObj [("limit", VNum 100)] in
  [ (Contexts.handleListContexts rt,
     Build_phases value "Error listing contexts: "
       Contexts.validateContextSearch (fun c params => listContexts c params));
    (ContextsFixed.handleListContexts rt,
     Build_phases value "Error listing contexts: "
       Contexts.validateContextSearch (fun c params => listContexts c params));
    (Contexts.handleGetContext rt,
     Build_phases value "Error retrieving context: "
       (fun args => v <- Contexts.validateContextId args ;; get v "context_id")
       (fun c context_id => getContext c context_id));
    (Contexts.handleCreateContext rt,
     Build_phases value "Error creating context: "
       Contexts.validateCreateContext (fun c data => createContext c data));
    (Contexts.handleUpdateContext rt,
     Build_phases (value * value) "Error updating context: "
       (fun args =>
          _ <- destructurable "context_id" args ;;
          context_id <- get args "context_id" ;;
          _ <- Contexts.validateContextId (VObj [("context_id", context_id)]) ;;
          updateData <- Contexts.validateUpdateContext (rest_without "context_id" args) ;;
          ret (context_id, updateData))
       (fun c x => updateContext c (fst x) (snd x)));
    (Contexts.handleDeleteContext rt,
     Build_phases value "Error deleting context: "
       (fun args => v <- Contexts.validateContextId args ;; get v "context_id")
       (fun c context_id => deleteContext c context_id));
    (AiTools.handleSearchContexts rt,
     Build_phases value "Error searching contexts: "
       AiTools.searchParams (fun c params => listContexts c params));
    (AiTools.handleConsolidateContexts rt,
     Build_phases value "Error consolidating contexts: "
       AiTools.validateConsolidateRequest (fun c req => consolidateContexts c req));
    (AiTools.handlePlanFromContexts rt,
     Build_phases value "Error generating plan: "
       AiTools.validatePlanRequest (fun c req => planFromContexts c req));
    (ExportTools.handleExportContexts rt,
     Build_phases value "Error exporting contexts: "
       ExportTools.validateExportRequest (fun c req => exportContexts c req));
    (ExportTools.handleGetRawUrl rt,
     Build_phases value "Error generating raw URL: "
       ExportTools.validateRawUrlRequest (fun c req => generateRawUrl c req));
    (ExportTools.handleGetContextStats rt,
     Build_phases (value * value) "Error generating statistics: "
       (fun args =>
          date_range <- get_default args "date_range" (VStr "30d") ;;
          group_by <- get_default args "group_by" (VStr "category") ;;
          ret (date_range, group_by))
       (fun c _ => listContexts c limit100)) ].

(** [request.params.arguments || {}] *)
Definition arguments_of (request : value) : value :=
  or_else (field (field request "params") "arguments") (VObj []).

(** [request.params?.name], which cannot throw on an object. *)
Definition tool_name (request : value) : value :=
  match Stdio.params_name request with inr v => v | inl _ => VUndefined end.

(** [undefined] or [null] *)
Definition nullish (v : value) : bool :=
  match v with VUndefined | VNull => true | _ => false end.

(** [if cond then Some v else None] *)
Definition kept (cond : bool) (v : value) : option value :=
  if cond then Some v else None.

(** The first entry of [l] whose [id] is [contextId]. *)
Definition entry_with_id (contextId : value) (l : list value) : option value :=
  List.find (fun item => strict_eq (field item "id") contextId) l.

(** A context is an object. *)
Definition is_object (v : value) : bool :=
  match v with VObj _ => true | _ => false end.

(** One [if (cond) queryParams.append(name, text)] of [listContexts]:
    what it adds to the query. *)
Definition step (name : string) (cond : bool) (text : M string)
    (added : list (string * string)) : Prop :=
  (cond = false /\ added = []) \/
  (cond = true /\ exists s, text = inr s /\ added = [(name, s)]).

(** [params.tags && params.tags.length] *)
Definition has_tags (tags : value) : bool :=
  truthy tags && match length_of tags with inr len => truthy len | inl _ => false end.

(** [params.tags.join(',')] *)
Definition tags_text (tags : value) : M string :=
  match tags with
  | VArr _ => to_string tags
  | _ => throw (not_a_function "params.tags.join")
  end.

(** [v] with the default of a destructuring pattern. *)
Definition defaulted (v dflt : value) : value :=
  if is_undefined v then dflt else v.

(** ** Example worlds *)

Module Worlds.
Import Sample.

Definition c1 : value := VObj [("id", VStr "a"); ("category", VStr "work")].
Definition c2 : value := VObj [("id", VStr "b")].

(** The two shapes of a list response: [[c1, c2]] and
    [{ items: [c1, c2], total_count: 5, offset: 0 }]. *)
Definition bare : value := VArr [c1; c2].
Definition envelope : value :=
  VObj [("items", VArr [c1; c2]); ("total_count", VNum 5); ("offset", VNum 0)].

Definition rt0 : runtime :=
  runtime_with [(show bare, bare); (show envelope, envelope); ("{}", VObj [])].

(** A server that answers every request with [200 {}]. *)
Definition accepting : network := fun _ _ => Responded (ok "{}").

(** [POST /v1/contexts] answers [307] with [Location: /contexts?x=1]. *)
Definition redirecting : network :=
  network_with [("/v1/contexts", redirect 307 "/contexts?x=1");
                ("/contexts?x=1", ok "{}")].

(** A redirect whose response has no [Location] header. *)
Definition lost : network :=
  network_with [("/v1/contexts",
                 {| statusCode := Some 302%Z; location := None; data := EmptyString |})].

(** The list endpoint answers with the bare array, or the envelope. *)
Definition bare_server : network := fun _ _ => Responded (ok (show bare)).
Definition envelope_server : network := fun _ _ => Responded (ok (show envelope)).

(** [/r0 -> /r1 -> ... -> /rk], each hop a [307]; [/rk] answers [200 {}]. *)
Definition hop (i : nat) : list (string * http_response) :=
  let here := num_to_string (Z.of_nat i) in
  let next := num_to_string (Z.of_nat (S i)) in
  [ ("/v1/r" ++ here, redirect 307 ("/r" ++ next));
    ("/r" ++ here, redirect 307 ("/r" ++ next)) ].

Definition chain (k : nat) : network :=
  let last := num_to_string (Z.of_nat k) in
  network_with
    (app (flat_map hop (seq 0 k))
         [("/r" ++ last, ok "{}"); ("/v1/r" ++ last, ok "{}")]).

Definition post (body : string) : options := with_body "POST" (Some body).

End Worlds.

(** What the claim says of a query [q] built for the validated
    arguments [args]: no [offset] for an offset of 0; [limit],
    [offset], [contain] and [category] exactly when they are truthy;
    [is_favorite] exactly when it is not [undefined], and with its text
    when it is a boolean. *)
Definition serialised (args : value) (q : list (string * string)) : Prop :=
  (field args "offset" = VNum 0 -> ~ In "offset" (names q)) /\
  (In "limit" (names q) <-> truthy (field args "limit") = true) /\
  (In "offset" (names q) <-> truthy (field args "offset") = true) /\
  (In "contain" (names q) <-> truthy (field args "contain") = true) /\
  (In "category" (names q) <-> truthy (field args "category") = true) /\
  (In "is_favorite" (names q) <-> is_undefined (field args "is_favorite") = false) /\
  (forall b, field args "is_favorite" = VBool b ->
             In ("is_favorite", if b then "true" else "false") q).

(** ** Vocabulary of the further properties *)

(** A [limit] that [validateContextSearch] lets through: absent, or a
    number from 1 to 100 ([NaN] compares false with both bounds). *)
Definition limit_ok (v : value) : bool :=
  match v with
  | VUndefined | VNaN => true
  | VNum n => (1 <=? n)%Z && (n <=? 100)%Z
  | _ => false
  end.

(** An [offset] that it lets through: absent, or a number that is not
    negative. *)
Definition offset_ok (v : value) : bool :=
  match v with
  | VUndefined | VNaN => true
  | VNum n => (0 <=? n)%Z
  | _ => false
  end.

(** An array of [lo] to [hi] entries. *)
Definition ids_between (lo hi : nat) (v : value) : Prop :=
  exists ids, v = VArr ids /\ (lo <= List.length ids <= hi)%nat.

(** One of the listed strings. *)
Definition one_of (choices : list string) (v : value) : Prop :=
  exists c, In c choices /\ v = VStr c.

(** The headers of a request that carries the API key. *)
Definition signed (apiKey : string) (rq : http_request) : Prop :=
  rq_headers rq = [ ("Content-Type", "application/json");
                    ("api_key", apiKey);
                    ("User-Agent", "convolut-mcp-client/1.0.0") ].

(** [c] adds at most [n] requests to the trace, each of them a [P]. *)
Definition sends_at_most {A} (n : nat) (P : http_request -> Prop) (c : T A) : Prop :=
  forall tr, exists new,
    snd (c tr) = (tr ++ new)%list /\ (List.length new <= n)%nat /\ Forall P new.

(** A status from 200 to 299. *)
Definition is_2xx (st : option Z) : Prop :=
  exists n, st = Some n /\ (200 <= n < 300)%Z.

(** The parameters [listContexts] can send, in the order it appends
    them. *)
Definition query_order : list string :=
  ["limit"; "offset"; "contain"; "category"; "tags"; "from"; "to"; "is_favorite"].

(** [k] is one of [l]. *)
Definition mem (k : string) (l : list string) : bool :=
  existsb (String.eqb k) l.

(** How often [k] occurs in [keys]. *)
Fixpoint occurrences (k : string) (keys : list string) : Z :=
  match keys with
  | [] => 0
  | x :: rest => (if x =? k then 1 else 0) + occurrences k rest
  end.



(** The word count of a documented context. *)
Definition word_count_of (c : value) : Z :=
  match field c "word_count" with VNum w => w | _ => 0 end.

Fixpoint sum_words (l : list value) : Z :=
  match l with
  | [] => 0
  | c :: rest => word_count_of c + sum_words rest
  end.

(** The [id] of a JSON-RPC response. *)
Definition response_id (r : Stdio.rpc_response) : value :=
  match r with
  | Stdio.Result id _ => id
  | Stdio.RpcError id _ _ => id
  end.

(** The response [r] answers the request identified by [rid]. *)
Definition answers (rid : value) (out : option Stdio.rpc_response) : Prop :=
  exists r, out = Some r /\ response_id r = rid.

(** A request of the health probe: a [GET] without body whose only
    header names the client. *)
Definition probe (rq : http_request) : Prop :=
  rq_method rq = "GET" /\ rq_body rq = None /\
  rq_headers rq = [("User-Agent", "convolut-mcp-client/1.0.0")].

(** The word counts of [l] in absolute value, added up: a bound on
    every partial sum of [total_words]. *)
Fixpoint abs_words (l : list value) : Z :=
  match l with
  | [] => 0
  | c :: rest => Z.abs (word_count_of c) + abs_words rest
  end.

(** Word counts that the double arithmetic of the source adds and
    averages exactly: every partial sum is an integer below 2^52 in
    absolute value, and the quotient by the number of contexts is
    farther from a half-integer than its rounding error. *)
Definition exact_words (l : list value) : Prop :=
  (abs_words l + Z.of_nat (List.length l) < 2 ^ 52)%Z.

(** A computation that, when it returns, returns a [Q]. *)
Definition yields {A} (Q : A -> Prop) (c : T A) : Prop :=
  forall tr, match fst (c tr) with inr a => Q a | inl _ => True end.

(** * Properties *)

(** ** The monads *)

Lemma bindT_ok {A B} (c : T A) (k : A -> T B) tr a tr' :
  c tr = (inr a, tr') -> bindT c k tr = k a tr'.
Proof. intros H. unfold bindT. now rewrite H. Qed.

Lemma bindT_throw {A B} (c : T A) (k : A -> T B) tr e tr' :
  c tr = (inl e, tr') -> bindT c k tr = (inl e, tr').
Proof. intros H. unfold bindT. now rewrite H. Qed.

Lemma bindT_lift {A B} (c : M A) (k : A -> T B) tr :
  bindT (lift c) k tr =
  match c with inl e => (inl e, tr) | inr a => k a tr end.
Proof. unfold bindT, lift. now destruct c. Qed.

Lemma guarded_run prefix body tr :
  guarded prefix body tr =
  match body tr with
  | (inl e, tr') => (inr (failure prefix e), tr')
  | (inr r, tr') => (inr r, tr')
  end.
Proof. unfold guarded, try_catch, retT. now destruct (body tr) as [[e | r] tr']. Qed.

(** ** Transport: redirects (C1) *)

Lemma redirect_not_2xx st : is_redirect st = true -> not_2xx st = true.
Proof.
  destruct st as [n |]; simpl; [| discriminate].
  intros H. apply orb_true_iff in H as [H | H];
    [apply orb_true_iff in H as [H | H] |];
    apply Z.eqb_eq in H; subst; reflexivity.
Qed.

(** C1, on [utils/api-client.cjs]: [request] has no redirect branch.  A
    301, 302 or 307 answer is rejected as an API error after the one
    request that was sent; nothing is re-issued to [Location]. *)
Theorem request_rejects_redirect :
  forall rt net apiKey endpoint o u tr res,
    URL_parse rt (baseUrl ++ endpoint) = Some u ->
    net tr (requestOptions apiKey u o) = Responded res ->
    is_redirect (statusCode res) = true ->
    ApiClient.request rt net apiKey endpoint o tr =
    (inl (Error ("API Error " ++ status_text (statusCode res) ++ ": " ++ data res)),
     (tr ++ [requestOptions apiKey u o])%list).
Proof.
  intros rt net apiKey endpoint o u tr res Hu Hnet Hred.
  unfold ApiClient.request, new_URL.
  rewrite bindT_lift, Hu. unfold ret. cbv beta iota.
  unfold bindT, send, ret. rewrite Hnet.
  unfold lift, on_end. now rewrite (redirect_not_2xx _ Hred).
Qed.

Lemma request_rejects_redirect_witness :
  ApiClient.request Worlds.rt0 Worlds.redirecting "key" "/contexts"
    (Worlds.post "{}") [] =
  (inl (Error "API Error 307: "),
   [ {| rq_hostname := "api.convolut.app"; rq_port := "443";
        rq_path := "/v1/contexts"; rq_method := "POST";
        rq_headers := [ ("Content-Type", "application/json");
                        ("api_key", "key");
                        ("User-Agent", "convolut-mcp-client/1.0.0") ];
        rq_body := Some "{}" |} ]).
Proof.
  exact (request_rejects_redirect Worlds.rt0 Worlds.redirecting "key" "/contexts"
           (Worlds.post "{}")
           {| url_hostname := "api.convolut.app"; url_port := EmptyString;
              url_pathname := "/v1/contexts"; url_search := EmptyString |}
           [] (Sample.redirect 307 "/contexts?x=1")
           eq_refl eq_refl eq_refl).
Defined.

(** The fixed sibling follows one redirect: the request is re-issued to
    the target of [Location] with the method and headers of the first
    one, and the answer to the second request is the result. *)
Lemma fixed_request_follows_redirect :
  forall rt net apiKey fewer endpoint o u tr res loc target res',
    URL_parse rt (baseUrl ++ endpoint) = Some u ->
    net tr (requestOptions apiKey u o) = Responded res ->
    is_redirect (statusCode res) = true ->
    present (location res) = Some loc ->
    ApiClientFixed.redirect_target rt u loc = Some target ->
    net (tr ++ [requestOptions apiKey u o])%list
        (ApiClientFixed.redirectRequestOptions (requestOptions apiKey u o) target o)
      = Responded res' ->
    is_redirect (statusCode res') = false ->
    ApiClientFixed.request_from rt net apiKey (S fewer) endpoint o tr =
    (ApiClientFixed.on_redirect_end rt res',
     (tr ++ [requestOptions apiKey u o;
             ApiClientFixed.redirectRequestOptions (requestOptions apiKey u o) target o])%list).
Proof.
  intros rt net apiKey fewer endpoint o u tr res loc target res'
         Hu Hnet Hred Hloc Htarget Hnet' Hstop.
  cbn [ApiClientFixed.request_from]. unfold new_URL.
  rewrite bindT_lift, Hu. unfold ret. cbv beta iota.
  unfold bindT at 1. unfold send at 1, ret. rewrite Hnet. cbv beta iota.
  rewrite Hred, Hloc, Htarget.
  unfold bindT, send, ret. rewrite Hnet', Hstop. cbn [andb].
  unfold lift. now rewrite <- app_assoc.
Qed.

(** The spec's example on the fixed sibling: a 307 with
    [Location: /contexts?x=1] causes exactly one more request, to that
    path, with the same method and body. *)
Lemma fixed_request_redirect_example :
  let '(r, tr) := ApiClientFixed.request Worlds.rt0 Worlds.redirecting "key"
                    "/contexts" (Worlds.post "{}") [] in
  r = inr (VObj []) /\
  map (fun rq => (rq_method rq, rq_path rq, rq_body rq)) tr =
    [ ("POST", "/v1/contexts", Some "{}"); ("POST", "/contexts?x=1", Some "{}") ].
Proof. vm_compute. split; reflexivity. Qed.

(** On the fixed sibling a redirect without [Location] is reported as
    such. *)
Lemma fixed_request_missing_location :
  fst (ApiClientFixed.request Worlds.rt0 Worlds.lost "key" "/contexts" no_options [])
  = inl (Error "Redirect response 302 missing Location header").
Proof. vm_compute. reflexivity. Qed.

(** On the fixed sibling five redirects are followed and a sixth is
    refused; the refusal is the API error of the last response, since
    the "Too many redirects" branch needs [maxRedirects <= 0] and the
    recursion stops at 1. *)
Lemma fixed_request_redirect_bound :
  fst (ApiClientFixed.request Worlds.rt0 (Worlds.chain 5) "key" "/r0" no_options [])
    = inr (VObj []) /\
  fst (ApiClientFixed.request Worlds.rt0 (Worlds.chain 6) "key" "/r0" no_options [])
    = inl (Error "API Error 307: ").
Proof. vm_compute. split; reflexivity. Qed.

(** ** Property reads *)

Lemma get_ok v k : nullish v = false -> get v k = inr (field v k).
Proof. unfold field. destruct v; simpl; try discriminate; reflexivity. Qed.

Lemma get_inv v k x : get v k = inr x -> nullish v = false /\ x = field v k.
Proof.
  unfold field. destruct v; simpl; try discriminate;
    intros H; injection H as <-; split; reflexivity.
Qed.

Lemma field_obj fields k :
  field (VObj fields) k = match own fields k with Some x => x | None => VUndefined end.
Proof. reflexivity. Qed.

Lemma own_set_own_eq fields k v : own (set_own fields k v) k = Some v.
Proof.
  induction fields as [| [k' v'] rest IH]; simpl.
  - now rewrite String.eqb_refl.
  - destruct (k' =? k) eqn:E; simpl; [now rewrite String.eqb_refl | now rewrite E].
Qed.

Lemma own_set_own_neq fields k v k' :
  (k =? k') = false -> own (set_own fields k v) k' = own fields k'.
Proof.
  intros Hneq. induction fields as [| [k0 v0] rest IH]; simpl.
  - now rewrite Hneq.
  - destruct (k0 =? k) eqn:E; simpl.
    + apply String.eqb_eq in E. subst k0. now rewrite Hneq.
    + destruct (k0 =? k'); [reflexivity | exact IH].
Qed.




Lemma own_set_if cond fields k v k' :
  own (set_if cond k v fields) k' =
  if cond && (k =? k') then Some v else own fields k'.
Proof.
  unfold set_if. destruct cond; simpl; [| reflexivity].
  destruct (k =? k') eqn:E.
  - apply String.eqb_eq in E. subst. apply own_set_own_eq.
  - now apply own_set_own_neq.
Qed.

(** ** [get_context] (C4) *)

(** C4, on [utils/api-client.cjs]: when the list endpoint answers with a
    bare array, [getContext] reads [response.items], which is
    [undefined], and throws a [TypeError] -- whether or not the array
    holds the identifier. *)
Theorem getContext_bare_array :
  forall rt net apiKey contextId tr items tr',
    ApiClient.listContexts rt net apiKey (VObj [("limit", VNum 100)]) tr
      = (inr (VArr items), tr') ->
    ApiClient.getContext rt net apiKey contextId tr
      = (inl (cannot_read "undefined" "find"), tr').
Proof.
  intros rt net apiKey contextId tr items tr' Hlist.
  unfold ApiClient.getContext.
  rewrite (bindT_ok _ _ _ _ _ Hlist). reflexivity.
Qed.

Lemma getContext_bare_array_witness :
  ApiClient.getContext Worlds.rt0 Worlds.bare_server "key" (VStr "a") []
  = (inl (TypeError "Cannot read properties of undefined (reading 'find')"),
     [ requestOptions "key"
         {| url_hostname := "api.convolut.app"; url_port := EmptyString;
            url_pathname := "/v1/contexts"; url_search := "?limit=100" |}
         no_options ]).
Proof.
  exact (getContext_bare_array Worlds.rt0 Worlds.bare_server "key" (VStr "a") []
           [Worlds.c1; Worlds.c2] _ eq_refl).
Defined.

(** [l.find(item => item.id === contextId)] on a list of objects. *)
Lemma find_by_id contextId l :
  forallb is_object l = true ->
  find (fun item => id <- get item "id" ;; ret (strict_eq id contextId)) l
  = inr (match entry_with_id contextId l with Some x => x | None => VUndefined end).
Proof.
  induction l as [| x rest IH]; simpl; [reflexivity |].
  intros H. apply andb_true_iff in H as [Hx Hrest].
  destruct x; try discriminate. cbn [get bind ret].
  unfold entry_with_id. cbn [List.find]. rewrite field_obj.
  destruct (strict_eq _ contextId); [reflexivity |].
  rewrite (IH Hrest). reflexivity.
Qed.

Lemma entry_with_id_object contextId l x :
  forallb is_object l = true -> entry_with_id contextId l = Some x -> truthy x = true.
Proof.
  intros Hall Hfind. apply find_some in Hfind as [Hin _].
  rewrite forallb_forall in Hall. specialize (Hall x Hin).
  now destruct x.
Qed.

(** What both versions do once they hold the list of entries. *)
Lemma pick_by_id expr id l :
  forallb is_object l = true ->
  (l' <- as_array expr "find" (VArr l) ;;
   context <- find (fun item => i <- get item "id" ;;
                                ret (strict_eq i (VStr id))) l' ;;
   if truthy context then ret context
   else s <- to_string (VStr id) ;;
        throw (Error ("Context with ID " ++ s ++ " not found")))
  = match entry_with_id (VStr id) l with
    | Some x => inr x
    | None => inl (Error ("Context with ID " ++ id ++ " not found"))
    end.
Proof.
  intros Hall. cbn [as_array bind ret]. rewrite (find_by_id _ _ Hall).
  cbn [bind]. destruct (entry_with_id (VStr id) l) as [x |] eqn:E.
  - now rewrite (entry_with_id_object _ _ _ Hall E).
  - reflexivity.
Qed.

(** On an envelope [utils/api-client.cjs] does what C4 says: the entry
    with the identifier, or the not-found error. *)
Lemma getContext_envelope :
  forall rt net apiKey id tr fields l tr',
    ApiClient.listContexts rt net apiKey (VObj [("limit", VNum 100)]) tr
      = (inr (VObj fields), tr') ->
    own fields "items" = Some (VArr l) ->
    forallb is_object l = true ->
    ApiClient.getContext rt net apiKey (VStr id) tr
    = (match entry_with_id (VStr id) l with
       | Some x => inr x
       | None => inl (Error ("Context with ID " ++ id ++ " not found"))
       end, tr').
Proof.
  intros rt net apiKey id tr fields l tr' Hlist Hitems Hall.
  unfold ApiClient.getContext. rewrite (bindT_ok _ _ _ _ _ Hlist).
  unfold lift. cbn [get bind ret]. rewrite Hitems. cbn [bind].
  now rewrite (pick_by_id _ _ _ Hall).
Qed.

(** The fixed sibling does so for both shapes of the list response. *)
Lemma fixed_getContext_both_shapes :
  forall rt net apiKey id tr response l tr',
    ApiClientFixed.listContexts rt net apiKey (VObj [("limit", VNum 100)]) tr
      = (inr response, tr') ->
    response = VArr l \/
    (exists fields, response = VObj fields /\ own fields "items" = Some (VArr l)) ->
    forallb is_object l = true ->
    ApiClientFixed.getContext rt net apiKey (VStr id) tr
    = (match entry_with_id (VStr id) l with
       | Some x => inr x
       | None => inl (Error ("Context with ID " ++ id ++ " not found"))
       end, tr').
Proof.
  intros rt net apiKey id tr response l tr' Hlist Hshape Hall.
  unfold ApiClientFixed.getContext. rewrite (bindT_ok _ _ _ _ _ Hlist).
  unfold lift. destruct Hshape as [-> | (fields & -> & Hitems)].
  - cbn [items_or_empty isArray bind ret]. now rewrite (pick_by_id _ _ _ Hall).
  - cbn [items_or_empty isArray get bind ret]. rewrite Hitems.
    cbn [or_else truthy bind]. now rewrite (pick_by_id _ _ _ Hall).
Qed.

(** ** [list_contexts] (C2) *)

(** C2, on [tools/contexts.cjs]: the handler reads [response.items] and
    [response.total_count] whatever the response is.  On a bare array
    [response.items.length] throws and the handler returns the flagged
    result; no normalisation takes place. *)
Theorem handleListContexts_bare_array :
  forall rt args apiClient tr params items tr',
    Contexts.validateContextSearch args = inr params ->
    listContexts apiClient params tr = (inr (VArr items), tr') ->
    Contexts.handleListContexts rt args apiClient tr
    = (inr (failure "Error listing contexts: " (cannot_read "undefined" "length")), tr').
Proof.
  intros rt args apiClient tr params items tr' Hval Hlist.
  unfold Contexts.handleListContexts. rewrite guarded_run.
  rewrite bindT_lift, Hval. rewrite (bindT_ok _ _ _ _ _ Hlist).
  reflexivity.
Qed.

Lemma handleListContexts_bare_array_witness :
  Contexts.handleListContexts Worlds.rt0 (VObj [])
    (ApiClient.ConvolutAPIClient Worlds.rt0 Worlds.bare_server "key") []
  = (inr {| content :=
              [text_block ("Error listing contexts: "
                           ++ "Cannot read properties of undefined (reading 'length')")];
            isError := true |},
     [ requestOptions "key"
         {| url_hostname := "api.convolut.app"; url_port := EmptyString;
            url_pathname := "/v1/contexts"; url_search := EmptyString |}
         no_options ]).
Proof.
  exact (handleListContexts_bare_array Worlds.rt0 (VObj [])
           (ApiClient.ConvolutAPIClient Worlds.rt0 Worlds.bare_server "key") []
           (VObj []) [Worlds.c1; Worlds.c2] _ eq_refl eq_refl).
Defined.

(** The same handler on an envelope without [items]. *)
Lemma handleListContexts_without_items :
  forall rt args apiClient tr params fields tr',
    Contexts.validateContextSearch args = inr params ->
    listContexts apiClient params tr = (inr (VObj fields), tr') ->
    own fields "items" = None ->
    Contexts.handleListContexts rt args apiClient tr
    = (inr (failure "Error listing contexts: " (cannot_read "undefined" "length")), tr').
Proof.
  intros rt args apiClient tr params fields tr' Hval Hlist Hnone.
  unfold Contexts.handleListContexts. rewrite guarded_run.
  rewrite bindT_lift, Hval. rewrite (bindT_ok _ _ _ _ _ Hlist).
  unfold lift, Contexts.list_payload, Contexts.hasMore_of_response.
  cbn [get bind ret]. rewrite Hnone. reflexivity.
Qed.

Lemma or_else_num n d : or_else (VNum n) (VNum d) = VNum (if (n =? 0)%Z then d else n).
Proof. unfold or_else. simpl. now destruct (n =? 0)%Z. Qed.


(** Both shapes normalise to the same pair: the entries and their
    total. *)
Lemma fixed_normalises_bare l :
  items_or_empty (VArr l) = inr (VArr l) /\
  ContextsFixed.totalCount_of (VArr l) = inr (VNum (Z.of_nat (List.length l))).
Proof. split; reflexivity. Qed.

Lemma fixed_normalises_envelope fields l total :
  own fields "items" = Some (VArr l) ->
  own fields "total_count" = Some (VNum total) ->
  items_or_empty (VObj fields) = inr (VArr l) /\
  ContextsFixed.totalCount_of (VObj fields) = inr (VNum total).
Proof.
  intros Hitems Htotal. unfold items_or_empty, ContextsFixed.totalCount_of.
  cbn [isArray get bind ret]. rewrite Hitems, Htotal. split; [reflexivity |].
  rewrite or_else_num. destruct (total =? 0)%Z eqn:E; [| reflexivity].
  apply Z.eqb_eq in E. now subst.
Qed.

Lemma fixed_normalises_without_items fields total :
  own fields "items" = None ->
  own fields "total_count" = Some (VNum total) ->
  items_or_empty (VObj fields) = inr (VArr []) /\
  ContextsFixed.totalCount_of (VObj fields) = inr (VNum total).
Proof.
  intros Hitems Htotal. unfold items_or_empty, ContextsFixed.totalCount_of.
  cbn [isArray get bind ret]. rewrite Hitems, Htotal. split; [reflexivity |].
  rewrite or_else_num. destruct (total =? 0)%Z eqn:E; [| reflexivity].
  apply Z.eqb_eq in E. now subst.
Qed.

(** The spec's example, in both modules: [total_count = 5], [offset = 0]
    and two items give [hasMore = true]. *)
Lemma hasMore_example :
  (p <- ContextsFixed.list_payload Worlds.rt0 (VObj []) Worlds.envelope ;;
   g <- get p "pagination" ;; get g "hasMore") = inr (VBool true) /\
  (p <- Contexts.list_payload Worlds.rt0 Worlds.envelope ;;
   g <- get p "pagination" ;; get g "hasMore") = inr (VBool true).
Proof. split; reflexivity. Qed.

(** The fixed handler on the bare array of the example: two entries, a
    total of two, nothing more. *)
Lemma fixed_handleListContexts_bare_example :
  fst (ContextsFixed.handleListContexts Worlds.rt0 (VObj [])
         (ApiClient.ConvolutAPIClient Worlds.rt0 Worlds.bare_server "key") [])
  = inr (success (JSON_pretty Worlds.rt0
      (VObj [ ("contexts", Worlds.bare);
              ("pagination",
               VObj [ ("total", VNum 2); ("limit", VNum 20); ("offset", VNum 0);
                      ("hasMore", VBool false) ]) ]))).
Proof. reflexivity. Qed.

(** ** Validation and serialisation of list parameters (C9) *)

(** What [validateContextSearch] keeps of its arguments. *)
Lemma validateContextSearch_inv args params :
  Contexts.validateContextSearch args = inr params ->
  nullish args = false /\
  (is_undefined (field args "limit") = false ->
     typeof (field args "limit") = "number") /\
  (is_undefined (field args "offset") = false ->
     typeof (field args "offset") = "number") /\
  exists ps, params = VObj ps /\
    own ps "limit" = kept (negb (is_undefined (field args "limit"))) (field args "limit") /\
    own ps "offset" = kept (negb (is_undefined (field args "offset"))) (field args "offset") /\
    own ps "contain" = kept (truthy (field args "contain")) (field args "contain") /\
    own ps "category" = kept (truthy (field args "category")) (field args "category") /\
    own ps "tags" = kept (truthy (field args "tags") && isArray (field args "tags"))
                         (field args "tags") /\
    own ps "from" = kept (truthy (field args "from")) (field args "from") /\
    own ps "to" = kept (truthy (field args "to")) (field args "to") /\
    own ps "is_favorite" = kept (negb (is_undefined (field args "is_favorite")))
                                (field args "is_favorite").
Proof.
  intros H.
  destruct (nullish args) eqn:Hn; [destruct args; discriminate |].
  split; [reflexivity |].
  unfold Contexts.validateContextSearch in H.
  rewrite !(get_ok _ _ Hn) in H. cbn [bind] in H.
  destruct (is_undefined (field args "limit")) eqn:El;
    [| destruct (typeof (field args "limit") =? "number") eqn:Tl;
       [apply String.eqb_eq in Tl
       | discriminate];
       destruct (negb true || below (field args "limit") 1
                 || above (field args "limit") 100); [discriminate |]];
    cbn [bind ret] in H;
    (destruct (is_undefined (field args "offset")) eqn:Eo;
     [| destruct (typeof (field args "offset") =? "number") eqn:To;
        [apply String.eqb_eq in To
        | discriminate];
        destruct (negb true || below (field args "offset") 0); [discriminate |]]);
    cbn [bind ret] in H; injection H as <-;
    (split; [intros; congruence |]); (split; [intros; congruence |]);
    eexists; (split; [reflexivity |]);
    rewrite ?own_set_if, ?own_set_own_eq; cbn;
    rewrite ?andb_false_r, ?andb_true_r; unfold kept; cbn;
    repeat split; reflexivity.
Qed.

Lemma field_kept ps k cond v :
  own ps k = kept cond v -> field (VObj ps) k = if cond then v else VUndefined.
Proof. intros H. rewrite field_obj, H. now destruct cond. Qed.

(** A defined property that was kept reads back as itself. *)
Lemma field_kept_defined ps k v :
  own ps k = kept (negb (is_undefined v)) v -> field (VObj ps) k = v.
Proof. intros H. rewrite (field_kept _ _ _ _ H). now destruct v. Qed.

Lemma field_kept_truthy ps k v :
  own ps k = kept (truthy v) v -> truthy (field (VObj ps) k) = truthy v.
Proof. intros H. rewrite (field_kept _ _ _ _ H). now destruct (truthy v) eqn:E. Qed.

(** Each [append] of [listContexts] is a [step]. *)
Lemma append_number_step params k q q' :
  nullish params = false ->
  append_number params k q = inr q' ->
  exists d, q' = (q ++ d)%list /\
            step k (truthy (field params k))
                 (toString ("params." ++ k) (field params k)) d.
Proof.
  intros Hn. unfold append_number. rewrite (get_ok _ _ Hn). cbn [bind].
  destruct (truthy (field params k)) eqn:E.
  - destruct (toString _ (field params k)) as [e | s] eqn:Es; [discriminate |].
    cbn [bind ret]. intros H. injection H as <-.
    exists [(k, s)]. split; [reflexivity |]. right. eauto.
  - intros H. injection H as <-. exists []. rewrite app_nil_r.
    split; [reflexivity |]. left. auto.
Qed.

Lemma append_string_step params k name q q' :
  nullish params = false ->
  append_string params k name q = inr q' ->
  exists d, q' = (q ++ d)%list /\
            step name (truthy (field params k)) (to_string (field params k)) d.
Proof.
  intros Hn. unfold append_string. rewrite (get_ok _ _ Hn). cbn [bind].
  destruct (truthy (field params k)) eqn:E.
  - destruct (to_string (field params k)) as [e | s] eqn:Es; [discriminate |].
    cbn [bind ret]. intros H. injection H as <-.
    exists [(name, s)]. split; [reflexivity |]. right. eauto.
  - intros H. injection H as <-. exists []. rewrite app_nil_r.
    split; [reflexivity |]. left. auto.
Qed.

Lemma length_of_truthy v : truthy v = true -> exists len, length_of v = inr len.
Proof. destruct v; try discriminate; intros _; eexists; reflexivity. Qed.

Lemma append_tags_step params q q' :
  nullish params = false ->
  append_tags params q = inr q' ->
  exists d, q' = (q ++ d)%list /\
            step "tags" (has_tags (field params "tags"))
                 (tags_text (field params "tags")) d.
Proof.
  intros Hn. unfold append_tags, has_tags. rewrite (get_ok _ _ Hn). cbn [bind].
  destruct (truthy (field params "tags")) eqn:E; cbn [andb].
  - destruct (length_of_truthy _ E) as [len Hlen]. rewrite Hlen. cbn [bind].
    destruct (truthy len) eqn:El.
    + unfold tags_text.
      destruct (field params "tags") eqn:Et; try discriminate.
      destruct (to_string (VArr items)) as [e | s] eqn:Es; [discriminate |].
      cbn [bind ret]. intros H. injection H as <-.
      exists [("tags", s)]. split; [reflexivity |]. right. eauto.
    + intros H. injection H as <-. exists []. rewrite app_nil_r.
      split; [reflexivity |]. left. auto.
  - intros H. injection H as <-. exists []. rewrite app_nil_r.
    split; [reflexivity |]. left. auto.
Qed.

Lemma append_favorite_step params q q' :
  nullish params = false ->
  append_favorite params q = inr q' ->
  exists d, q' = (q ++ d)%list /\
            step "is_favorite" (negb (is_undefined (field params "is_favorite")))
                 (toString "params.is_favorite" (field params "is_favorite")) d.
Proof.
  intros Hn. unfold append_favorite. rewrite (get_ok _ _ Hn). cbn [bind].
  destruct (is_undefined (field params "is_favorite")) eqn:E; cbn [negb].
  - intros H. injection H as <-. exists []. rewrite app_nil_r.
    split; [reflexivity |]. left. auto.
  - destruct (toString _ (field params "is_favorite")) as [e | s] eqn:Es;
      [discriminate |].
    cbn [bind ret]. intros H. injection H as <-.
    exists [("is_favorite", s)]. split; [reflexivity |]. right. eauto.
Qed.

(** The query of [listContexts] is the concatenation of its eight steps. *)
Lemma list_query_inv keyword params q :
  nullish params = false ->
  list_query keyword params = inr q ->
  exists d1 d2 d3 d4 d5 d6 d7 d8,
    q = (d1 ++ d2 ++ d3 ++ d4 ++ d5 ++ d6 ++ d7 ++ d8)%list /\
    step "limit" (truthy (field params "limit"))
         (toString "params.limit" (field params "limit")) d1 /\
    step "offset" (truthy (field params "offset"))
         (toString "params.offset" (field params "offset")) d2 /\
    step keyword (truthy (field params "contain"))
         (to_string (field params "contain")) d3 /\
    step "category" (truthy (field params "category"))
         (to_string (field params "category")) d4 /\
    step "tags" (has_tags (field params "tags")) (tags_text (field params "tags")) d5 /\
    step "from" (truthy (field params "from")) (to_string (field params "from")) d6 /\
    step "to" (truthy (field params "to")) (to_string (field params "to")) d7 /\
    step "is_favorite" (negb (is_undefined (field params "is_favorite")))
         (toString "params.is_favorite" (field params "is_favorite")) d8.
Proof.
  intros Hn. unfold list_query.
  replace (if is_undefined params then VObj [] else params) with params
    by (destruct params; try reflexivity; discriminate).
  destruct (append_number params "limit" []) as [e | q1] eqn:H1; [discriminate |].
  cbn [bind].
  destruct (append_number params "offset" q1) as [e | q2] eqn:H2; [discriminate |].
  cbn [bind].
  destruct (append_string params "contain" keyword q2) as [e | q3] eqn:H3;
    [discriminate |].
  cbn [bind].
  destruct (append_string params "category" "category" q3) as [e | q4] eqn:H4;
    [discriminate |].
  cbn [bind].
  destruct (append_tags params q4) as [e | q5] eqn:H5; [discriminate |].
  cbn [bind].
  destruct (append_string params "from" "from" q5) as [e | q6] eqn:H6;
    [discriminate |].
  cbn [bind].
  destruct (append_string params "to" "to" q6) as [e | q7] eqn:H7; [discriminate |].
  cbn [bind]. intros H8.
  apply (append_number_step _ _ _ _ Hn) in H1 as (d1 & -> & S1).
  apply (append_number_step _ _ _ _ Hn) in H2 as (d2 & -> & S2).
  apply (append_string_step _ _ _ _ _ Hn) in H3 as (d3 & -> & S3).
  apply (append_string_step _ _ _ _ _ Hn) in H4 as (d4 & -> & S4).
  apply (append_tags_step _ _ _ Hn) in H5 as (d5 & -> & S5).
  apply (append_string_step _ _ _ _ _ Hn) in H6 as (d6 & -> & S6).
  apply (append_string_step _ _ _ _ _ Hn) in H7 as (d7 & -> & S7).
  apply (append_favorite_step _ _ _ Hn) in H8 as (d8 & -> & S8).
  exists d1, d2, d3, d4, d5, d6, d7, d8.
  split; [| repeat split; assumption].
  cbn [app]. now rewrite <- !app_assoc.
Qed.

Lemma step_names name cond text d x :
  step name cond text d -> (In x (names d) <-> x = name /\ cond = true).
Proof.
  intros [[Hc ->] | [Hc (s & _ & ->)]]; simpl; split.
  - intros [].
  - intros [_ H]. congruence.
  - intros [<- | []]. auto.
  - intros [-> _]. auto.
Qed.

Lemma step_entry name cond text d :
  step name cond text d -> cond = true ->
  exists s, text = inr s /\ In (name, s) d.
Proof.
  intros [[Hc _] | [_ (s & Hs & ->)]] Ht; [congruence |].
  exists s. split; [assumption | now left].
Qed.

Lemma names_app q1 q2 : names (q1 ++ q2)%list = (names q1 ++ names q2)%list.
Proof. apply map_app. Qed.

(** Membership in a query, step by step. *)
Lemma list_query_names keyword params q x :
  nullish params = false ->
  list_query keyword params = inr q ->
  In x (names q) <->
  (x = "limit" /\ truthy (field params "limit") = true) \/
  (x = "offset" /\ truthy (field params "offset") = true) \/
  (x = keyword /\ truthy (field params "contain") = true) \/
  (x = "category" /\ truthy (field params "category") = true) \/
  (x = "tags" /\ has_tags (field params "tags") = true) \/
  (x = "from" /\ truthy (field params "from") = true) \/
  (x = "to" /\ truthy (field params "to") = true) \/
  (x = "is_favorite" /\ negb (is_undefined (field params "is_favorite")) = true).
Proof.
  intros Hn Hq.
  destruct (list_query_inv _ _ _ Hn Hq)
    as (d1 & d2 & d3 & d4 & d5 & d6 & d7 & d8 & -> & S1 & S2 & S3 & S4 & S5 & S6 & S7 & S8).
  rewrite !names_app, !in_app_iff.
  rewrite (step_names _ _ _ _ x S1), (step_names _ _ _ _ x S2),
          (step_names _ _ _ _ x S3), (step_names _ _ _ _ x S4),
          (step_names _ _ _ _ x S5), (step_names _ _ _ _ x S6),
          (step_names _ _ _ _ x S7), (step_names _ _ _ _ x S8).
  reflexivity.
Qed.

Lemma list_query_favorite keyword params q :
  nullish params = false ->
  list_query keyword params = inr q ->
  is_undefined (field params "is_favorite") = false ->
  exists s, toString "params.is_favorite" (field params "is_favorite") = inr s /\
            In ("is_favorite", s) q.
Proof.
  intros Hn Hq Hdef.
  destruct (list_query_inv _ _ _ Hn Hq)
    as (d1 & d2 & d3 & d4 & d5 & d6 & d7 & d8 & -> & _ & _ & _ & _ & _ & _ & _ & S8).
  destruct (step_entry _ _ _ _ S8) as (s & Hs & Hin); [now rewrite Hdef |].
  exists s. split; [assumption |].
  rewrite !in_app_iff. tauto.
Qed.

(** Conversions that cannot throw. *)
Lemma to_string_scalar v : scalar v = true -> exists s, to_string v = inr s.
Proof. destruct v as [| | [|] | | | | |]; try discriminate; intros _; eexists; reflexivity. Qed.

Lemma to_string_plain_array l :
  forallb scalar l = true -> exists s, to_string (VArr l) = inr s.
Proof.
  induction l as [| x rest IH]; [intros _; eexists; reflexivity |].
  intros H. apply andb_true_iff in H as [Hx Hrest].
  destruct (IH Hrest) as [r Hr].
  assert (Helem : exists s, match x with
                            | VUndefined | VNull => ret EmptyString
                            | _ => to_string x
                            end = inr s).
  { destruct x as [| | [|] | | | | |]; try discriminate; eexists; reflexivity. }
  destruct Helem as [s Hs].
  change (to_string (VArr (x :: rest))) with
    (s0 <- match x with
           | VUndefined | VNull => ret EmptyString
           | _ => to_string x
           end ;;
     match rest with
     | [] => ret s0
     | _ => r0 <- to_string (VArr rest) ;; ret (s0 ++ "," ++ r0)
     end).
  rewrite Hs. cbn [bind]. destruct rest; [eexists; reflexivity |].
  rewrite Hr. eexists; reflexivity.
Qed.

Lemma toString_number expr v :
  typeof v = "number" -> exists s, toString expr v = inr s.
Proof. destruct v; try discriminate; intros _; eexists; reflexivity. Qed.

Lemma toString_scalar expr v :
  scalar v = true -> nullish v = false -> exists s, toString expr v = inr s.
Proof.
  destruct v as [| | [|] | | | | |]; try discriminate; intros _ _; eexists; reflexivity.
Qed.

(** Each [append] returns when its conversion does. *)
Lemma append_number_total params k q :
  nullish params = false ->
  (truthy (field params k) = true ->
   exists s, toString ("params." ++ k) (field params k) = inr s) ->
  exists q', append_number params k q = inr q'.
Proof.
  intros Hn Hconv. unfold append_number. rewrite (get_ok _ _ Hn). cbn [bind].
  destruct (truthy (field params k)); [| eexists; reflexivity].
  destruct (Hconv eq_refl) as [s ->]. eexists; reflexivity.
Qed.

Lemma append_string_total params k name q :
  nullish params = false ->
  (truthy (field params k) = true -> exists s, to_string (field params k) = inr s) ->
  exists q', append_string params k name q = inr q'.
Proof.
  intros Hn Hconv. unfold append_string. rewrite (get_ok _ _ Hn). cbn [bind].
  destruct (truthy (field params k)); [| eexists; reflexivity].
  destruct (Hconv eq_refl) as [s ->]. eexists; reflexivity.
Qed.

Lemma append_tags_total params q :
  nullish params = false ->
  (truthy (field params "tags") = true ->
   exists l, field params "tags" = VArr l /\ forallb scalar l = true) ->
  exists q', append_tags params q = inr q'.
Proof.
  intros Hn Htags. unfold append_tags. rewrite (get_ok _ _ Hn). cbn [bind].
  destruct (truthy (field params "tags")); [| eexists; reflexivity].
  destruct (Htags eq_refl) as (l & -> & Hl).
  cbn [length_of bind ret].
  destruct (truthy (VNum (Z.of_nat (List.length l)))); [| eexists; reflexivity].
  destruct (to_string_plain_array _ Hl) as [s ->]. eexists; reflexivity.
Qed.

Lemma append_favorite_total params q :
  nullish params = false ->
  (is_undefined (field params "is_favorite") = false ->
   exists s, toString "params.is_favorite" (field params "is_favorite") = inr s) ->
  exists q', append_favorite params q = inr q'.
Proof.
  intros Hn Hconv. unfold append_favorite. rewrite (get_ok _ _ Hn). cbn [bind].
  destruct (is_undefined (field params "is_favorite")); [eexists; reflexivity |].
  destruct (Hconv eq_refl) as [s ->]. eexists; reflexivity.
Qed.

(** The query is what the one request of [listContexts] carries; when
    building it throws, no request is made. *)
Lemma listContexts_sends rt net apiKey params tr :
  ApiClient.listContexts rt net apiKey params tr
  = match ApiClient.listContexts_query params with
    | inl e => (inl e, tr)
    | inr q =>
        ApiClient.request rt net apiKey (ApiClient.listContexts_endpoint rt q)
          no_options tr
    end.
Proof.
  unfold ApiClient.listContexts. rewrite bindT_lift.
  now destruct (ApiClient.listContexts_query params).
Qed.

(** For validated arguments with scalar filters and tags, the seven
    conditional [append]s before [is_favorite] go through. *)
Lemma list_query_to_favorite keyword args ps :
  Contexts.validateContextSearch args = inr (VObj ps) ->
  scalar (field args "contain") = true ->
  scalar (field args "category") = true ->
  scalar (field args "from") = true ->
  scalar (field args "to") = true ->
  plain_tags (field args "tags") = true ->
  exists q7, list_query keyword (VObj ps) = append_favorite (VObj ps) q7.
Proof.
  intros Hval Sc Scat Sf Sto St.
  destruct (validateContextSearch_inv _ _ Hval)
    as (Hn & Tl & To & ps' & Hps & Pl & Po & Pc & Pcat & Pt & Pf & Pto & Pfav).
  injection Hps as <-.
  assert (Hnp : nullish (VObj ps) = false) by reflexivity.
  pose proof (field_kept_defined _ _ _ Pl) as Fl.
  pose proof (field_kept_defined _ _ _ Po) as Fo.
  unfold list_query. cbn [is_undefined].
  destruct (append_number_total (VObj ps) "limit" [] Hnp) as [q1 ->].
  { rewrite Fl. intros Ht. apply toString_number, Tl.
    destruct (field args "limit"); try reflexivity; discriminate. }
  cbn [bind].
  destruct (append_number_total (VObj ps) "offset" q1 Hnp) as [q2 ->].
  { rewrite Fo. intros Ht. apply toString_number, To.
    destruct (field args "offset"); try reflexivity; discriminate. }
  cbn [bind].
  destruct (append_string_total (VObj ps) "contain" keyword q2 Hnp) as [q3 ->].
  { intros _. apply to_string_scalar. rewrite (field_kept _ _ _ _ Pc).
    now destruct (truthy (field args "contain")). }
  cbn [bind].
  destruct (append_string_total (VObj ps) "category" "category" q3 Hnp) as [q4 ->].
  { intros _. apply to_string_scalar. rewrite (field_kept _ _ _ _ Pcat).
    now destruct (truthy (field args "category")). }
  cbn [bind].
  destruct (append_tags_total (VObj ps) q4 Hnp) as [q5 ->].
  { rewrite (field_kept _ _ _ _ Pt).
    destruct (truthy (field args "tags") && isArray (field args "tags")) eqn:E;
      [| discriminate].
    intros _. apply andb_true_iff in E as [_ E].
    destruct (field args "tags"); try discriminate. eauto. }
  cbn [bind].
  destruct (append_string_total (VObj ps) "from" "from" q5 Hnp) as [q6 ->].
  { intros _. apply to_string_scalar. rewrite (field_kept _ _ _ _ Pf).
    now destruct (truthy (field args "from")). }
  cbn [bind].
  destruct (append_string_total (VObj ps) "to" "to" q6 Hnp) as [q7 ->].
  { intros _. apply to_string_scalar. rewrite (field_kept _ _ _ _ Pto).
    now destruct (truthy (field args "to")). }
  cbn [bind]. exists q7. reflexivity.
Qed.

(** A query built for validated arguments is as the claim says. *)
Lemma validated_query_serialised args ps q :
  Contexts.validateContextSearch args = inr (VObj ps) ->
  ApiClient.listContexts_query (VObj ps) = inr q ->
  serialised args q.
Proof.
  intros Hval Hq.
  destruct (validateContextSearch_inv _ _ Hval)
    as (Hn & Tl & To & ps' & Hps & Pl & Po & Pc & Pcat & Pt & Pf & Pto & Pfav).
  injection Hps as <-.
  assert (Hnp : nullish (VObj ps) = false) by reflexivity.
  pose proof (field_kept_defined _ _ _ Pl) as Fl.
  pose proof (field_kept_defined _ _ _ Po) as Fo.
  pose proof (field_kept_defined _ _ _ Pfav) as Ffav.
  pose proof (field_kept_truthy _ _ _ Pc) as Fc.
  pose proof (field_kept_truthy _ _ _ Pcat) as Fcat.
  unfold ApiClient.listContexts_query in Hq.
  pose proof (fun x => list_query_names _ _ _ x Hnp Hq) as Hin.
  rewrite Fl, Fo, Fc, Fcat, Ffav in Hin.
  assert (Hoffset : In "offset" (names q) <-> truthy (field args "offset") = true).
  { rewrite (Hin "offset"). split.
    - intros H. repeat (destruct H as [[H ?] | H]; [assumption || discriminate |]).
      destruct H; discriminate.
    - intros H. right; left. auto. }
  unfold serialised. split; [| split; [| split; [| split; [| split; [| split]]]]].
  - intros Hoff H. apply Hoffset in H. rewrite Hoff in H. discriminate.
  - rewrite (Hin "limit"). split.
    + intros H. repeat (destruct H as [[H ?] | H]; [assumption || discriminate |]).
      destruct H; discriminate.
    + intros H. left. auto.
  - exact Hoffset.
  - rewrite (Hin "contain"). split.
    + intros H. repeat (destruct H as [[H ?] | H]; [assumption || discriminate |]).
      destruct H; discriminate.
    + intros H. right; right; left. auto.
  - rewrite (Hin "category"). split.
    + intros H. repeat (destruct H as [[H ?] | H]; [assumption || discriminate |]).
      destruct H; discriminate.
    + intros H. right; right; right; left. auto.
  - rewrite (Hin "is_favorite"). split.
    + intros H. repeat (destruct H as [[H ?] | H]; [discriminate |]).
      destruct H as [_ H]. now apply negb_true_iff in H.
    + intros H. do 7 right. split; [reflexivity | now rewrite H].
  - intros b Hb.
    destruct (list_query_favorite _ _ _ Hnp Hq) as (s & Hs & Hin').
    { now rewrite Ffav, Hb. }
    rewrite Ffav, Hb in Hs. destruct b; injection Hs as <-; exact Hin'.
Qed.

(** C9, on [validateContextSearch] and [listContexts] of
    [utils/api-client.cjs]: for validated arguments whose filters are
    scalars, [listContexts] sends the request whose endpoint carries a
    query as the claim describes it -- no [offset] for an offset of 0,
    [is_favorite] whenever it is not [undefined], [false] included --
    unless [is_favorite] is [null]: [null] passes validation and the
    [!== undefined] test, [null.toString()] throws, and no request is
    made. *)
Theorem listContexts_of_validated :
  forall rt net apiKey args params tr,
    Contexts.validateContextSearch args = inr params ->
    scalar (field args "contain") = true ->
    scalar (field args "category") = true ->
    scalar (field args "from") = true ->
    scalar (field args "to") = true ->
    plain_tags (field args "tags") = true ->
    scalar (field args "is_favorite") = true ->
    match field args "is_favorite" with
    | VNull =>
        ApiClient.listContexts rt net apiKey params tr
        = (inl (cannot_read "null" "toString"), tr)
    | _ =>
        exists q,
          ApiClient.listContexts rt net apiKey params tr
          = ApiClient.request rt net apiKey (ApiClient.listContexts_endpoint rt q)
              no_options tr /\
          serialised args q
    end.
Proof.
  intros rt net apiKey args params tr Hval Sc Scat Sf Sto St Sfav.
  destruct (validateContextSearch_inv _ _ Hval)
    as (_ & _ & _ & ps & -> & _ & _ & _ & _ & _ & _ & _ & Pfav).
  pose proof (field_kept_defined _ _ _ Pfav) as Ffav.
  destruct (list_query_to_favorite "contain" args ps Hval Sc Scat Sf Sto St)
    as [q7 Hq7].
  assert (Hquery : ApiClient.listContexts_query (VObj ps)
                   = match field args "is_favorite" with
                     | VUndefined => inr q7
                     | v => s <- toString "params.is_favorite" v ;;
                            ret (q7 ++ [("is_favorite", s)])%list
                     end).
  { unfold ApiClient.listContexts_query. rewrite Hq7. unfold append_favorite.
    rewrite (get_ok (VObj ps) _ eq_refl), Ffav. cbn [bind].
    now destruct (field args "is_favorite"). }
  rewrite listContexts_sends.
  destruct (field args "is_favorite") as [| | b | n | | s | l | fs] eqn:Efav;
    try discriminate Sfav;
    try (rewrite Hquery; reflexivity);
    (assert (Hq : exists q, ApiClient.listContexts_query (VObj ps) = inr q)
       by (rewrite Hquery; try destruct b; eexists; reflexivity));
    destruct Hq as [q Hq]; exists q;
    (split; [rewrite Hq; reflexivity
            | exact (validated_query_serialised args ps q Hval Hq)]).
Qed.

Lemma listContexts_of_validated_witness :
  (let args := VObj [ ("limit", VNum 20); ("offset", VNum 0); ("contain", VNull);
                      ("category", VNull); ("tags", VNull); ("from", VNull);
                      ("to", VNull); ("is_favorite", VNull) ] in
   let params := VObj [ ("limit", VNum 20); ("offset", VNum 0);
                        ("is_favorite", VNull) ] in
   Contexts.validateContextSearch args = inr params /\
   ApiClient.listContexts Worlds.rt0 Worlds.accepting "key" params []
   = (inl (cannot_read "null" "toString"), [])) /\
  (let args := VObj [("offset", VNum 0); ("is_favorite", VBool false)] in
   exists q,
     ApiClient.listContexts Worlds.rt0 Worlds.envelope_server "key" args []
     = ApiClient.request Worlds.rt0 Worlds.envelope_server "key"
         (ApiClient.listContexts_endpoint Worlds.rt0 q) no_options [] /\
     serialised args q).
Proof.
  split.
  - split; [reflexivity |].
    exact (listContexts_of_validated Worlds.rt0 Worlds.accepting "key"
             (VObj [ ("limit", VNum 20); ("offset", VNum 0); ("contain", VNull);
                     ("category", VNull); ("tags", VNull); ("from", VNull);
                     ("to", VNull); ("is_favorite", VNull) ])
             (VObj [ ("limit", VNum 20); ("offset", VNum 0); ("is_favorite", VNull) ])
             [] eq_refl eq_refl eq_refl eq_refl eq_refl eq_refl eq_refl).
  - exact (listContexts_of_validated Worlds.rt0 Worlds.envelope_server "key"
             (VObj [("offset", VNum 0); ("is_favorite", VBool false)])
             (VObj [("offset", VNum 0); ("is_favorite", VBool false)])
             [] eq_refl eq_refl eq_refl eq_refl eq_refl eq_refl eq_refl).
Defined.

(** The request of [list_contexts] for [{ offset: 0, is_favorite: false }]. *)
Lemma handleListContexts_offset_zero_example :
  Sample.calls
    (snd (Contexts.handleListContexts Worlds.rt0
            (VObj [("offset", VNum 0); ("is_favorite", VBool false)])
            (ApiClient.ConvolutAPIClient Worlds.rt0 Worlds.envelope_server "key") []))
  = [("GET", "/v1/contexts?is_favorite=false")].
Proof. reflexivity. Qed.

(** The search parameters as [types/convolut.cjs] lists them, with
    [null] for every filter that is not set: [list_contexts] fails on
    them with the flagged [TypeError], and no request is made. *)
Lemma handleListContexts_null_favorite :
  let args := VObj [ ("limit", VNum 20); ("offset", VNum 0); ("contain", VNull);
                     ("category", VNull); ("tags", VNull); ("from", VNull);
                     ("to", VNull); ("is_favorite", VNull) ] in
  Contexts.handleListContexts Worlds.rt0 args
    (ApiClient.ConvolutAPIClient Worlds.rt0 Worlds.accepting "key") []
  = (inr (failure "Error listing contexts: " (cannot_read "null" "toString")), []) /\
  ContextsFixed.handleListContexts Worlds.rt0 args
    (ApiClientFixed.ConvolutAPIClient Worlds.rt0 Worlds.accepting "key") []
  = (inr (failure "Error listing contexts: " (cannot_read "null" "toString")), []).
Proof. split; reflexivity. Qed.

(** ** [search_contexts] (C8) *)

Lemma get_set_own_neq ps k v k' :
  (k =? k') = false -> get (VObj (set_own ps k v)) k' = get (VObj ps) k'.
Proof. intros H. cbn [get]. now rewrite (own_set_own_neq _ _ _ _ H). Qed.

(** [listContexts] never reads [params.search]. *)
Lemma list_query_ignores_search keyword ps v :
  list_query keyword (VObj (set_own ps "search" v)) = list_query keyword (VObj ps).
Proof.
  unfold list_query, append_number, append_string, append_tags, append_favorite.
  cbn [is_undefined].
  now rewrite !get_set_own_neq by reflexivity.
Qed.

(** What [handleSearchContexts] hands to [listContexts]. *)
Lemma searchParams_inv args params :
  AiTools.searchParams args = inr params ->
  nullish args = false /\
  truthy (field args "query") = true /\
  exists ps, params = VObj ps /\
    own ps "search" = Some (field args "query") /\
    own ps "limit" = Some (or_else (field args "limit") (VNum 10)) /\
    own ps "category" = kept (truthy (field args "category")) (field args "category") /\
    own ps "tags" = kept (truthy (field args "tags") && isArray (field args "tags"))
                         (field args "tags") /\
    own ps "offset" = None /\ own ps "contain" = None /\ own ps "from" = None /\
    own ps "to" = None /\ own ps "is_favorite" = None.
Proof.
  intros H.
  destruct (nullish args) eqn:Hn; [destruct args; discriminate |].
  split; [reflexivity |].
  unfold AiTools.searchParams in H.
  rewrite !(get_ok _ _ Hn) in H. cbn [bind] in H.
  destruct (truthy (field args "query")) eqn:Eq; [| discriminate].
  split; [reflexivity |].
  destruct (negb true || blank (field args "query")); [discriminate |].
  cbn [bind ret] in H. injection H as <-.
  eexists. split; [reflexivity |].
  rewrite ?own_set_if; cbn.
  rewrite ?andb_false_r, ?andb_true_r; unfold kept; cbn.
  repeat split; reflexivity.
Qed.

(** C8, on [tools/ai-tools.cjs] with either version of the client: the
    handler stores the keyword under [search], [listContexts] reads
    [contain]; the query that goes out carries at most [limit],
    [category] and [tags], and is the same whatever the keyword. *)
Theorem search_keyword_is_dropped :
  forall args params keyword q,
    AiTools.searchParams args = inr params ->
    list_query keyword params = inr q ->
    incl (names q) ["limit"; "category"; "tags"] /\
    forall ps other,
      params = VObj ps ->
      list_query keyword (VObj (set_own ps "search" other)) = inr q.
Proof.
  intros args params keyword q Hparams Hq.
  destruct (searchParams_inv _ _ Hparams)
    as (Hn & Hquery & ps & -> & Ps & Pl & Pcat & Pt & Po & Pc & Pf & Pto & Pfav).
  split.
  - intros x Hx.
    apply (list_query_names keyword (VObj ps) q x eq_refl Hq) in Hx.
    rewrite !field_obj, Po, Pc, Pf, Pto, Pfav in Hx. cbn [truthy is_undefined negb] in Hx.
    destruct Hx as [[-> _] | [[_ H] | [[_ H] | [[-> _] | [[-> _] | [[_ H] | [[_ H] | [_ H]]]]]]]];
      try discriminate; simpl; auto.
  - intros ps' other Heq. injection Heq as <-.
    now rewrite list_query_ignores_search.
Qed.

Lemma search_keyword_is_dropped_witness :
  let args := VObj [("query", VStr "machine learning")] in
  exists params q,
    AiTools.searchParams args = inr params /\
    ApiClient.listContexts_query params = inr q /\
    incl (names q) ["limit"; "category"; "tags"].
Proof.
  pose (params := VObj [("search", VStr "machine learning"); ("limit", VNum 10)]).
  exists params, [("limit", "10")].
  split; [reflexivity |]. split; [reflexivity |].
  exact (proj1 (search_keyword_is_dropped
                  (VObj [("query", VStr "machine learning")]) params "contain"
                  [("limit", "10")] eq_refl eq_refl)).
Defined.

(** The request [search_contexts] sends for the keyword
    "machine learning": the list endpoint with [limit=10] and nothing
    else. *)
Lemma handleSearchContexts_example :
  Sample.calls
    (snd (AiTools.handleSearchContexts Worlds.rt0
            (VObj [("query", VStr "machine learning")])
            (ApiClient.ConvolutAPIClient Worlds.rt0 Worlds.accepting "key") []))
  = [("GET", "/v1/contexts?limit=10")] /\
  Sample.calls
    (snd (AiTools.handleSearchContexts Worlds.rt0
            (VObj [("query", VStr "machine learning")])
            (ApiClientFixed.ConvolutAPIClient Worlds.rt0 Worlds.accepting "key") []))
  = [("GET", "/v1/contexts?limit=10")].
Proof. split; reflexivity. Qed.

(** The method of the fixed client that does send the keyword reads
    [params.query]; no handler calls it. *)
Lemma searchContexts_query_example :
  ApiClientFixed.searchContexts_query (VObj [("query", VStr "ml"); ("limit", VNum 10)])
  = inr [("search", "ml"); ("limit", "10")].
Proof. reflexivity. Qed.

(** ** [create_context] (C3) *)

(** What [validateCreateContext] accepts: a title and a content that
    are strings with something besides white space -- of any length. *)
Lemma validateCreateContext_ok args :
  nullish args = false ->
  truthy (field args "title") = true -> blank (field args "title") = false ->
  truthy (field args "content") = true -> blank (field args "content") = false ->
  Contexts.validateCreateContext args
  = inr (VObj
      (set_if (truthy (field args "files") && isArray (field args "files"))
              "files" (field args "files")
        (set_if (truthy (field args "tags") && isArray (field args "tags"))
                "tags" (field args "tags")
           [ ("title", trimmed (field args "title"));
             ("content", trimmed (field args "content"));
             ("category", or_else (field args "category") (VStr "other"));
             ("is_favorite", or_else (field args "is_favorite") (VBool false)) ]))).
Proof.
  intros Hn Ht Hbt Hc Hbc. unfold Contexts.validateCreateContext.
  rewrite !(get_ok _ _ Hn). cbn [bind]. rewrite Ht, Hbt, Hc, Hbc. reflexivity.
Qed.

(** An empty title, and an empty content, are refused before any
    request is made. *)
Lemma handleCreateContext_rejects_title rt args apiClient tr :
  nullish args = false ->
  truthy (field args "title") = false \/ blank (field args "title") = true ->
  Contexts.handleCreateContext rt args apiClient tr
  = (inr (failure "Error creating context: "
            (Error "title is required and must be a non-empty string")), tr).
Proof.
  intros Hn Hbad. unfold Contexts.handleCreateContext. rewrite guarded_run.
  rewrite bindT_lift. unfold Contexts.validateCreateContext.
  rewrite !(get_ok _ _ Hn). cbn [bind].
  destruct Hbad as [-> | ->]; [reflexivity |].
  now rewrite orb_true_r.
Qed.

Lemma handleCreateContext_rejects_content rt args apiClient tr :
  nullish args = false ->
  truthy (field args "title") = true -> blank (field args "title") = false ->
  truthy (field args "content") = false \/ blank (field args "content") = true ->
  Contexts.handleCreateContext rt args apiClient tr
  = (inr (failure "Error creating context: "
            (Error "content is required and must be a non-empty string")), tr).
Proof.
  intros Hn Ht Hbt Hbad. unfold Contexts.handleCreateContext. rewrite guarded_run.
  rewrite bindT_lift. unfold Contexts.validateCreateContext.
  rewrite !(get_ok _ _ Hn). cbn [bind]. rewrite Ht, Hbt. cbn [negb orb bind].
  destruct Hbad as [-> | ->]; [reflexivity |].
  now rewrite orb_true_r.
Qed.

(** With [category] and [is_favorite] omitted the payload carries
    ['other'] and [false]. *)
Lemma validateCreateContext_defaults title content :
  blank (VStr title) = false -> blank (VStr content) = false ->
  Contexts.validateCreateContext
    (VObj [("title", VStr title); ("content", VStr content)])
  = inr (VObj [ ("title", VStr (trim title)); ("content", VStr (trim content));
                ("category", VStr "other"); ("is_favorite", VBool false) ]).
Proof.
  intros Hbt Hbc.
  assert (Ht : truthy (VStr title) = true).
  { destruct title; [discriminate | reflexivity]. }
  assert (Hc : truthy (VStr content) = true).
  { destruct content; [discriminate | reflexivity]. }
  now rewrite validateCreateContext_ok.
Qed.

(** C3, on [tools/contexts.cjs] and [tools/contexts-fixed.cjs]: a title
    of 201 characters passes [validateCreateContext] and is posted to
    the API; the [maxLength: 200] of the tool schema is not enforced. *)
Theorem handleCreateContext_long_title :
  let title := Sample.repeat_string 201 "a" in
  let args := VObj [("title", VStr title); ("content", VStr "text")] in
  let payload := VObj [ ("title", VStr title); ("content", VStr "text");
                        ("category", VStr "other"); ("is_favorite", VBool false) ] in
  String.length title = 201 /\
  Contexts.validateCreateContext args = inr payload /\
  (let '(r, tr) :=
     Contexts.handleCreateContext Worlds.rt0 args
       (ApiClient.ConvolutAPIClient Worlds.rt0 Worlds.accepting "key") [] in
   (exists r', r = inr r' /\ isError r' = false) /\
   map (fun rq => (rq_method rq, rq_path rq, rq_body rq)) tr
   = [("POST", "/v1/contexts", Some (JSON_stringify Worlds.rt0 payload))]).
Proof.
  vm_compute. repeat split. eexists. split; reflexivity.
Qed.

(** ** [update_context] (C7) *)

Lemma own_without_neq fields k k' :
  (k =? k') = false -> own (without k fields) k' = own fields k'.
Proof.
  intros Hneq. induction fields as [| [k0 v0] rest IH]; [reflexivity |].
  unfold without in *. cbn [filter fst own].
  destruct (k0 =? k) eqn:E; cbn [negb].
  - apply String.eqb_eq in E. subst k0. now rewrite Hneq.
  - cbn [own]. now rewrite IH.
Qed.

Lemma field_rest_without fields k :
  ("context_id" =? k) = false ->
  field (rest_without "context_id" (VObj fields)) k = field (VObj fields) k.
Proof. intros H. cbn [rest_without]. now rewrite !field_obj, own_without_neq. Qed.

(** With no mutable field present [validateUpdateContext] returns the
    empty update. *)
Lemma validateUpdateContext_empty fields :
  is_undefined (field (VObj fields) "title") = true ->
  is_undefined (field (VObj fields) "content") = true ->
  is_undefined (field (VObj fields) "category") = true ->
  is_undefined (field (VObj fields) "is_favorite") = true ->
  is_undefined (field (VObj fields) "tags") = true ->
  is_undefined (field (VObj fields) "files") = true ->
  Contexts.validateUpdateContext (rest_without "context_id" (VObj fields))
  = inr (VObj []).
Proof.
  intros Ht Hc Hcat Hfav Htags Hfiles.
  unfold Contexts.validateUpdateContext.
  rewrite !get_ok by reflexivity.
  rewrite !field_rest_without by reflexivity.
  cbn [bind]. rewrite Ht. cbn [bind ret]. rewrite Hc. cbn [bind ret].
  now rewrite Hcat, Hfav, Htags, Hfiles.
Qed.

(** C7, as the code has it: validation requires [context_id] to be a
    non-empty string, and nothing else; with no mutable field present
    it passes, and the handler calls [updateContext] with the empty
    update. *)
Theorem handleUpdateContext_validation :
  forall rt args apiClient tr,
    nullish args = false ->
    (truthy (field args "context_id")
       && (typeof (field args "context_id") =? "string") = false ->
     Contexts.handleUpdateContext rt args apiClient tr
     = (inr (failure "Error updating context: "
               (Error "context_id is required and must be a string")), tr)) /\
    (forall fields id,
       args = VObj fields ->
       field args "context_id" = VStr id -> id <> EmptyString ->
       is_undefined (field args "title") = true ->
       is_undefined (field args "content") = true ->
       is_undefined (field args "category") = true ->
       is_undefined (field args "is_favorite") = true ->
       is_undefined (field args "tags") = true ->
       is_undefined (field args "files") = true ->
       Contexts.validateUpdateContext (rest_without "context_id" args) = inr (VObj []) /\
       Contexts.handleUpdateContext rt args apiClient tr
       = match updateContext apiClient (VStr id) (VObj []) tr with
         | (inl e, tr') => (inr (failure "Error updating context: " e), tr')
         | (inr context, tr') =>
             (inr (success (JSON_pretty rt
                (VObj [ ("message", VStr "Context updated successfully");
                        ("context", context) ]))), tr')
         end).
Proof.
  intros rt args apiClient tr Hn. split.
  - intros Hbad. unfold Contexts.handleUpdateContext. rewrite guarded_run.
    rewrite bindT_lift.
    replace (destructurable "context_id" args) with (@inr exn unit tt)
      by (destruct args; try reflexivity; discriminate).
    rewrite bindT_lift, (get_ok _ _ Hn).
    rewrite bindT_lift. unfold Contexts.validateContextId.
    cbn [get own String.eqb Ascii.eqb Bool.eqb bind ret].
    apply andb_false_iff in Hbad as [-> | ->]; [reflexivity |].
    now rewrite orb_true_r.
  - intros fields id -> Hid Hne Ht Hc Hcat Hfav Htags Hfiles.
    pose proof (validateUpdateContext_empty fields Ht Hc Hcat Hfav Htags Hfiles) as Hupd.
    split; [exact Hupd |].
    unfold Contexts.handleUpdateContext. rewrite guarded_run.
    rewrite bindT_lift. cbn [destructurable ret].
    rewrite bindT_lift, (get_ok _ _ Hn), Hid.
    rewrite bindT_lift. unfold Contexts.validateContextId.
    cbn [get own String.eqb Ascii.eqb Bool.eqb bind ret truthy typeof negb orb].
    replace (id =? EmptyString) with false
      by (symmetry; now apply String.eqb_neq).
    cbn [negb]. rewrite bindT_lift, Hupd.
    unfold bindT, retT.
    now destruct (updateContext apiClient (VStr id) (VObj []) tr) as [[e | context] tr'].
Qed.

Lemma handleUpdateContext_validation_witness :
  let args := VObj [("context_id", VStr "abc")] in
  let client := ApiClient.ConvolutAPIClient Worlds.rt0 Worlds.accepting "key" in
  Contexts.validateUpdateContext (rest_without "context_id" args) = inr (VObj []) /\
  Contexts.handleUpdateContext Worlds.rt0 args client []
  = match updateContext client (VStr "abc") (VObj []) [] with
    | (inl e, tr') => (inr (failure "Error updating context: " e), tr')
    | (inr context, tr') =>
        (inr (success (JSON_pretty Worlds.rt0
           (VObj [ ("message", VStr "Context updated successfully");
                   ("context", context) ]))), tr')
    end.
Proof.
  refine (proj2 (handleUpdateContext_validation Worlds.rt0
                   (VObj [("context_id", VStr "abc")])
                   (ApiClient.ConvolutAPIClient Worlds.rt0 Worlds.accepting "key")
                   [] eq_refl)
                [("context_id", VStr "abc")] "abc" eq_refl eq_refl _
                eq_refl eq_refl eq_refl eq_refl eq_refl eq_refl).
  discriminate.
Defined.

(** C7 as worded fails: an argument set carrying only [context_id]
    passes validation, and the update goes out as a [PUT] with the
    empty object for body. *)
Lemma handleUpdateContext_only_context_id :
  let args := VObj [("context_id", VStr "abc")] in
  Contexts.validateContextId args = inr (VObj [("context_id", VStr "abc")]) /\
  Contexts.validateUpdateContext (rest_without "context_id" args) = inr (VObj []) /\
  (let '(r, tr) :=
     Contexts.handleUpdateContext Worlds.rt0 args
       (ApiClient.ConvolutAPIClient Worlds.rt0 Worlds.accepting "key") [] in
   (exists r', r = inr r' /\ isError r' = false) /\
   map (fun rq => (rq_method rq, rq_path rq, rq_body rq)) tr
   = [("PUT", "/v1/contexts/abc", Some (JSON_stringify Worlds.rt0 (VObj [])))]).
Proof.
  vm_compute. repeat split. eexists. split; reflexivity.
Qed.

(** ** [get_context_stats] (C10) *)

Lemma get_default_ok v k dflt :
  nullish v = false -> get_default v k dflt = inr (defaulted (field v k) dflt).
Proof. intros Hn. unfold get_default. now rewrite (get_ok _ _ Hn). Qed.

(** The handler, phase by phase. *)
Lemma handleGetContextStats_run rt args apiClient tr :
  nullish args = false ->
  ExportTools.handleGetContextStats rt args apiClient tr
  = match listContexts apiClient (VObj [("limit", VNum 100)]) tr with
    | (inl e, tr') => (inr (failure "Error generating statistics: " e), tr')
    | (inr allContexts, tr') =>
        match ExportTools.stats_result rt
                (defaulted (field args "date_range") (VStr "30d"))
                (defaulted (field args "group_by") (VStr "category"))
                allContexts with
        | inl e => (inr (failure "Error generating statistics: " e), tr')
        | inr result => (inr (success (JSON_pretty rt result)), tr')
        end
    end.
Proof.
  intros Hn. unfold ExportTools.handleGetContextStats. rewrite guarded_run.
  rewrite bindT_lift, (get_default_ok _ _ _ Hn).
  rewrite bindT_lift, (get_default_ok _ _ _ Hn).
  unfold bindT at 1.
  destruct (listContexts apiClient (VObj [("limit", VNum 100)]) tr)
    as [[e | allContexts] tr']; [reflexivity |].
  rewrite bindT_lift.
  now destruct (ExportTools.stats_result rt _ _ allContexts).
Qed.

(** [date_range] enters the result as one property and nothing else. *)
Lemma stats_result_date_range rt d g allContexts :
  ExportTools.stats_result rt d g allContexts
  = (r <- ExportTools.stats_result rt VUndefined g allContexts ;;
     ret (with_date_range d r)).
Proof.
  unfold ExportTools.stats_result.
  destruct (ExportTools.statistics g allContexts) as [e | stats]; [reflexivity |].
  cbn [bind].
  destruct (get allContexts "total_count") as [e | total]; [reflexivity |].
  cbn [bind].
  destruct (get allContexts "items") as [e | items]; [reflexivity |].
  cbn [bind].
  destruct (as_array "allContexts.items" "reduce" items) as [e | l]; [reflexivity |].
  cbn [bind].
  destruct (ExportTools.total_words l) as [e | words]; [reflexivity |].
  cbn [bind].
  destruct (if (0 <? Z.of_nat (List.length l))%Z
            then round_div (string_to_number rt) words (Z.of_nat (List.length l))
            else ret (VNum 0)) as [e | avg]; reflexivity.
Qed.

Lemma stats_result_fields rt d g allContexts r :
  ExportTools.stats_result rt d g allContexts = inr r ->
  field r "date_range" = d /\ field r "group_by" = g /\
  (exists fs, r = VObj fs) /\
  exists stats, ExportTools.statistics g allContexts = inr stats /\
                field r "statistics" = VObj stats.
Proof.
  unfold ExportTools.stats_result.
  destruct (ExportTools.statistics g allContexts) as [e | stats]; [discriminate |].
  cbn [bind].
  destruct (get allContexts "total_count") as [e | total]; [discriminate |].
  cbn [bind].
  destruct (get allContexts "items") as [e | items]; [discriminate |].
  cbn [bind].
  destruct (as_array "allContexts.items" "reduce" items) as [e | l]; [discriminate |].
  cbn [bind].
  destruct (ExportTools.total_words l) as [e | words]; [discriminate |].
  cbn [bind].
  destruct (if (0 <? Z.of_nat (List.length l))%Z
            then round_div (string_to_number rt) words (Z.of_nat (List.length l))
            else ret (VNum 0)) as [e | avg]; [discriminate |].
  cbn [bind ret]. intros H. injection H as <-.
  repeat split; [eexists; reflexivity |]. exists stats. split; reflexivity.
Qed.

(** The word count of documented contexts is a number. *)
Lemma total_words_counted l :
  forallb counted_context l = true ->
  forall a, exists n,
    reduce (fun sum ctx => word_count <- get ctx "word_count" ;;
                           js_add sum (or_else word_count (VNum 0))) l (VNum a)
    = inr (VNum n).
Proof.
  induction l as [| c rest IH]; intros Hall a; [eexists; reflexivity |].
  cbn [forallb] in Hall. apply andb_true_iff in Hall as [Hc Hrest].
  cbn [reduce].
  destruct c as [| | | | | | | fields]; try discriminate.
  cbn [counted_context] in Hc. cbn [get bind ret].
  destruct (own fields "word_count") as [[| | | w | | | |] |]; try discriminate.
  - rewrite or_else_num. cbn [js_add to_primitive bind ret is_string orb to_number].
    apply (IH Hrest).
  - cbn [or_else truthy js_add to_primitive bind ret is_string orb to_number].
    apply (IH Hrest).
Qed.

(** Of a result that was produced: [date_range] holds what was echoed,
    and grouping by ['date'] has filled no statistics. *)
Lemma stats_result_echo rt d g allContexts r :
  ExportTools.stats_result rt VUndefined g allContexts = inr r ->
  field (with_date_range d r) "date_range" = d /\
  field (with_date_range d r) "group_by" = g /\
  (g = VStr "date" -> field (with_date_range d r) "statistics" = VObj []).
Proof.
  intros Hres.
  destruct (stats_result_fields _ _ _ _ _ Hres)
    as (_ & Hg & (fs & ->) & stats & Hstats & Hfield).
  cbn [with_date_range]. rewrite !field_obj in *.
  rewrite own_set_own_eq, !own_set_own_neq by reflexivity.
  split; [reflexivity |]. split; [exact Hg |].
  intros ->. rewrite Hfield. f_equal.
  cbn in Hstats. now injection Hstats as <-.
Qed.

(** On an envelope of documented contexts the result by ['date'] is
    produced. *)
Lemma stats_result_by_date rt d fields l :
  own fields "items" = Some (VArr l) ->
  forallb counted_context l = true ->
  exists r, ExportTools.stats_result rt d (VStr "date") (VObj fields) = inr r.
Proof.
  intros Hitems Hall.
  unfold ExportTools.stats_result. cbn [ExportTools.statistics strict_eq String.eqb
    Ascii.eqb Bool.eqb bind ret get].
  rewrite Hitems. cbn [as_array bind ret]. unfold ExportTools.total_words.
  destruct (total_words_counted l Hall 0) as [n ->]. cbn [bind].
  destruct (0 <? Z.of_nat (List.length l))%Z;
    cbn [round_div to_primitive to_number bind ret];
    eexists; reflexivity.
Qed.

(** C10: the handler is its list request for [{ limit: 100 }], the
    result computed from [group_by] and the response alone, and the
    echo of [date_range] -- the argument itself, or ['30d'] when it is
    absent -- into that result: [date_range] reaches neither the
    request nor the counting.  Grouping by ['date'] fills no
    statistics: every result produced for it has the empty object, and
    on an envelope of documented contexts the handler does return that
    result, not flagged. *)
Theorem handleGetContextStats_date :
  forall rt args apiClient tr,
    nullish args = false ->
    let d := defaulted (field args "date_range") (VStr "30d") in
    let g := defaulted (field args "group_by") (VStr "category") in
    ExportTools.handleGetContextStats rt args apiClient tr
    = match listContexts apiClient (VObj [("limit", VNum 100)]) tr with
      | (inl e, tr') => (inr (failure "Error generating statistics: " e), tr')
      | (inr allContexts, tr') =>
          match ExportTools.stats_result rt VUndefined g allContexts with
          | inl e => (inr (failure "Error generating statistics: " e), tr')
          | inr r => (inr (success (JSON_pretty rt (with_date_range d r))), tr')
          end
      end /\
    (forall allContexts r,
       ExportTools.stats_result rt VUndefined g allContexts = inr r ->
       field (with_date_range d r) "date_range" = d /\
       (g = VStr "date" -> field (with_date_range d r) "statistics" = VObj [])) /\
    (g = VStr "date" ->
     forall fields l tr',
       listContexts apiClient (VObj [("limit", VNum 100)]) tr
         = (inr (VObj fields), tr') ->
       own fields "items" = Some (VArr l) ->
       forallb counted_context l = true ->
       exists result,
         ExportTools.handleGetContextStats rt args apiClient tr
         = (inr (success (JSON_pretty rt result)), tr') /\
         field result "statistics" = VObj [] /\
         field result "date_range" = d /\
         field result "group_by" = VStr "date").
Proof.
  intros rt args apiClient tr Hn d g.
  assert (Hrun :
    ExportTools.handleGetContextStats rt args apiClient tr
    = match listContexts apiClient (VObj [("limit", VNum 100)]) tr with
      | (inl e, tr') => (inr (failure "Error generating statistics: " e), tr')
      | (inr allContexts, tr') =>
          match ExportTools.stats_result rt VUndefined g allContexts with
          | inl e => (inr (failure "Error generating statistics: " e), tr')
          | inr r => (inr (success (JSON_pretty rt (with_date_range d r))), tr')
          end
      end).
  { rewrite (handleGetContextStats_run _ _ _ _ Hn). fold d g.
    destruct (listContexts apiClient (VObj [("limit", VNum 100)]) tr)
      as [[e | allContexts] tr']; [reflexivity |].
    rewrite (stats_result_date_range rt d g allContexts).
    now destruct (ExportTools.stats_result rt VUndefined g allContexts). }
  split; [exact Hrun |]. split.
  - intros allContexts r Hres.
    destruct (stats_result_echo rt d g allContexts r Hres) as (Hd & _ & Hs).
    split; assumption.
  - intros Hg fields l tr' Hlist Hitems Hall.
    destruct (stats_result_by_date rt VUndefined fields l Hitems Hall) as [r Hr].
    rewrite Hrun, Hlist, Hg, Hr.
    exists (with_date_range d r). split; [reflexivity |].
    destruct (stats_result_echo rt d (VStr "date") (VObj fields) r Hr)
      as (Hd & Hgb & Hs).
    repeat split; [exact (Hs eq_refl) | exact Hd | exact Hgb].
Qed.

Lemma handleGetContextStats_date_witness :
  let args := VObj [("group_by", VStr "date"); ("date_range", VStr "7d")] in
  let client := ApiClient.ConvolutAPIClient Worlds.rt0 Worlds.envelope_server "key" in
  exists result,
    ExportTools.handleGetContextStats Worlds.rt0 args client []
    = (inr (success (JSON_pretty Worlds.rt0 result)),
       snd (listContexts client (VObj [("limit", VNum 100)]) [])) /\
    field result "statistics" = VObj [] /\
    field result "date_range" = VStr "7d" /\
    field result "group_by" = VStr "date".
Proof.
  intros args client.
  exact (proj2 (proj2 (handleGetContextStats_date Worlds.rt0
                         (VObj [("group_by", VStr "date"); ("date_range", VStr "7d")])
                         (ApiClient.ConvolutAPIClient Worlds.rt0 Worlds.envelope_server
                            "key")
                         [] eq_refl))
           eq_refl
           [ ("items", VArr [Worlds.c1; Worlds.c2]); ("total_count", VNum 5);
             ("offset", VNum 0) ]
           [Worlds.c1; Worlds.c2]
           (snd (listContexts
                   (ApiClient.ConvolutAPIClient Worlds.rt0 Worlds.envelope_server "key")
                   (VObj [("limit", VNum 100)]) []))
           eq_refl eq_refl eq_refl).
Defined.

(** Grouping by date on the envelope of the example: two contexts, no
    statistics, the range echoed. *)
Lemma handleGetContextStats_date_example :
  fst (ExportTools.handleGetContextStats Worlds.rt0
         (VObj [("group_by", VStr "date"); ("date_range", VStr "7d")])
         (ApiClient.ConvolutAPIClient Worlds.rt0 Worlds.envelope_server "key") [])
  = inr (success (JSON_pretty Worlds.rt0
      (VObj [ ("total_contexts", VNum 5); ("date_range", VStr "7d");
              ("group_by", VStr "date"); ("statistics", VObj []);
              ("total_words", VNum 0); ("avg_words_per_context", VNum 0) ]))).
Proof. reflexivity. Qed.

(** ** The Tool Result envelope (C5) *)

(** A handler that runs as validation, remote call and presentation,
    each failure turned into the flagged result, keeps the contract. *)
Lemma contract_of_run (h : Stdio.handler) (p : phases)
    (present : value -> request_type p -> value -> M string) :
  (forall args c tr,
     h args c tr =
     match validate p args with
     | inl e => (inr (failure (prefix p) e), tr)
     | inr x =>
         match invoke p c x tr with
         | (inl e, tr') => (inr (failure (prefix p) e), tr')
         | (inr y, tr') =>
             match present args x y with
             | inl e => (inr (failure (prefix p) e), tr')
             | inr s => (inr (success s), tr')
             end
         end
     end) ->
  envelope_contract h p.
Proof.
  intros Hrun args c tr. rewrite Hrun.
  destruct (validate p args) as [e | x].
  - repeat split.
    + eexists. eexists. split; [reflexivity | eexists; reflexivity].
    + intros e' H. now injection H as <-.
    + intros; discriminate.
    + intros r tr' H Hflag. injection H as <- <-. discriminate.
  - destruct (invoke p c x tr) as [[e | y] tr1] eqn:Hcall.
    + repeat split.
      * eexists. eexists. split; [reflexivity | eexists; reflexivity].
      * intros; discriminate.
      * intros x0 e0 tr' H. injection H as <-. rewrite Hcall.
        intros H. now injection H as <- <-.
      * intros r tr' H Hflag. injection H as <- <-. discriminate.
    + destruct (present args x y) as [e | s].
      * repeat split.
        -- eexists. eexists. split; [reflexivity | eexists; reflexivity].
        -- intros; discriminate.
        -- intros x0 e0 tr' H. injection H as <-. rewrite Hcall. discriminate.
        -- intros r tr' H Hflag. injection H as <- <-. discriminate.
      * repeat split.
        -- eexists. eexists. split; [reflexivity | eexists; reflexivity].
        -- intros; discriminate.
        -- intros x0 e0 tr' H. injection H as <-. rewrite Hcall. discriminate.
        -- intros r tr' H Hflag. injection H as <- <-. exists x, y. now split.
Qed.

(** Runs a handler body against the three-phase form: every stage is
    split into its two outcomes. *)
Ltac run_handler :=
  intros args c tr; cbn [validate invoke prefix request_type];
  rewrite guarded_run; unfold bindT, lift, retT, bind, ret, throw;
  repeat first
    [ progress cbn [fst snd]
    | match goal with
      | |- context [match ?t with inl _ => _ | inr _ => _ end] =>
          lazymatch t with
          | context [match _ with _ => _ end] => fail
          | _ => destruct t
          end
      | |- context [let (_, _) := ?t in _] =>
          lazymatch t with
          | context [match _ with _ => _ end] => fail
          | _ => destruct t as [[? | ?] ?]
          end
      end ];
  try reflexivity.

Section Contracts.

Context (rt : runtime).

Lemma handleListContexts_contract :
  envelope_contract (Contexts.handleListContexts rt)
    (Build_phases value "Error listing contexts: "
       Contexts.validateContextSearch (fun c params => listContexts c params)).
Proof.
  apply (contract_of_run _ (Build_phases value _ _ _) (fun _ _ response =>
    p <- Contexts.list_payload rt response ;; ret (JSON_pretty rt p))).
  unfold Contexts.handleListContexts. run_handler.
Qed.

Lemma fixed_handleListContexts_contract :
  envelope_contract (ContextsFixed.handleListContexts rt)
    (Build_phases value "Error listing contexts: "
       Contexts.validateContextSearch (fun c params => listContexts c params)).
Proof.
  apply (contract_of_run _ (Build_phases value _ _ _) (fun _ params response =>
    p <- ContextsFixed.list_payload rt params response ;; ret (JSON_pretty rt p))).
  unfold ContextsFixed.handleListContexts. run_handler.
Qed.

Lemma handleGetContext_contract :
  envelope_contract (Contexts.handleGetContext rt)
    (Build_phases value "Error retrieving context: "
       (fun args => v <- Contexts.validateContextId args ;; get v "context_id")
       (fun c context_id => getContext c context_id)).
Proof.
  apply (contract_of_run _ (Build_phases value _ _ _) (fun _ _ context => ret (JSON_pretty rt context))).
  unfold Contexts.handleGetContext. run_handler.
Qed.

Lemma handleCreateContext_contract :
  envelope_contract (Contexts.handleCreateContext rt)
    (Build_phases value "Error creating context: "
       Contexts.validateCreateContext (fun c data => createContext c data)).
Proof.
  apply (contract_of_run _ (Build_phases value _ _ _) (fun _ _ context =>
    ret (JSON_pretty rt (VObj [ ("message", VStr "Context created successfully");
                                ("context", context) ])))).
  unfold Contexts.handleCreateContext. run_handler.
Qed.

Lemma handleUpdateContext_contract :
  envelope_contract (Contexts.handleUpdateContext rt)
    (Build_phases (value * value) "Error updating context: "
       (fun args =>
          _ <- destructurable "context_id" args ;;
          context_id <- get args "context_id" ;;
          _ <- Contexts.validateContextId (VObj [("context_id", context_id)]) ;;
          updateData <- Contexts.validateUpdateContext (rest_without "context_id" args) ;;
          ret (context_id, updateData))
       (fun c x => updateContext c (fst x) (snd x))).
Proof.
  apply (contract_of_run _ (Build_phases (value * value) _ _ _) (fun _ _ context =>
    ret (JSON_pretty rt (VObj [ ("message", VStr "Context updated successfully");
                                ("context", context) ])))).
  unfold Contexts.handleUpdateContext. run_handler.
Qed.

Lemma handleDeleteContext_contract :
  envelope_contract (Contexts.handleDeleteContext rt)
    (Build_phases value "Error deleting context: "
       (fun args => v <- Contexts.validateContextId args ;; get v "context_id")
       (fun c context_id => deleteContext c context_id)).
Proof.
  apply (contract_of_run _ (Build_phases value _ _ _) (fun _ context_id _ =>
    ret (JSON_pretty rt (VObj [ ("message", VStr "Context deleted successfully");
                                ("context_id", context_id) ])))).
  unfold Contexts.handleDeleteContext. run_handler.
Qed.

Lemma handleSearchContexts_contract :
  envelope_contract (AiTools.handleSearchContexts rt)
    (Build_phases value "Error searching contexts: "
       AiTools.searchParams (fun c params => listContexts c params)).
Proof.
  apply (contract_of_run _ (Build_phases value _ _ _) (fun args _ response =>
    results <- items_or_empty response ;;
    query <- get args "query" ;;
    n <- length_of results ;;
    ret (JSON_pretty rt (VObj [ ("message", VStr "Context search completed");
                                ("query", query);
                                ("results", results);
                                ("total_found", n) ])))).
  unfold AiTools.handleSearchContexts. run_handler.
Qed.

Lemma handleConsolidateContexts_contract :
  envelope_contract (AiTools.handleConsolidateContexts rt)
    (Build_phases value "Error consolidating contexts: "
       AiTools.validateConsolidateRequest (fun c req => consolidateContexts c req)).
Proof.
  apply (contract_of_run _ (Build_phases value _ _ _) (fun _ request result =>
    consolidation_type <- get request "consolidation_type" ;;
    ids <- get request "context_ids" ;;
    n <- length_of ids ;;
    ret (JSON_pretty rt (VObj [ ("message", VStr "Contexts consolidated successfully");
                                ("consolidation_type", consolidation_type);
                                ("input_contexts", n);
                                ("result", result) ])))).
  unfold AiTools.handleConsolidateContexts. run_handler.
Qed.

Lemma handlePlanFromContexts_contract :
  envelope_contract (AiTools.handlePlanFromContexts rt)
    (Build_phases value "Error generating plan: "
       AiTools.validatePlanRequest (fun c req => planFromContexts c req)).
Proof.
  apply (contract_of_run _ (Build_phases value _ _ _) (fun _ request result =>
    ids <- get request "context_ids" ;;
    n <- length_of ids ;;
    ret (JSON_pretty rt (VObj [ ("message", VStr "Plan generated successfully from contexts");
                                ("analyzed_contexts", n);
                                ("result", result) ])))).
  unfold AiTools.handlePlanFromContexts. run_handler.
Qed.

Lemma handleExportContexts_contract :
  envelope_contract (ExportTools.handleExportContexts rt)
    (Build_phases value "Error exporting contexts: "
       ExportTools.validateExportRequest (fun c req => exportContexts c req)).
Proof.
  apply (contract_of_run _ (Build_phases value _ _ _) (fun _ request result =>
    format <- get request "format" ;;
    ids <- get request "context_ids" ;;
    n <- length_of ids ;;
    include_metadata <- get request "include_metadata" ;;
    ret (JSON_pretty rt (VObj [ ("message", VStr "Contexts exported successfully");
                                ("format", format);
                                ("exported_contexts", n);
                                ("include_metadata", include_metadata);
                                ("result", result) ])))).
  unfold ExportTools.handleExportContexts. run_handler.
Qed.

Lemma handleGetRawUrl_contract :
  envelope_contract (ExportTools.handleGetRawUrl rt)
    (Build_phases value "Error generating raw URL: "
       ExportTools.validateRawUrlRequest (fun c req => generateRawUrl c req)).
Proof.
  apply (contract_of_run _ (Build_phases value _ _ _) (fun _ request result =>
    context_id <- get request "context_id" ;;
    raw_url <- get result "raw_url" ;;
    expires_in_seconds <- get result "expires_in_seconds" ;;
    ms <- js_mul (string_to_number rt) expires_in_seconds (VNum 1000) ;;
    t <- js_add (VNum (Date_now rt)) ms ;;
    expires_at <- ExportTools.iso_date rt t ;;
    ret (JSON_pretty rt (VObj [ ("message", VStr "Raw URL generated successfully");
                                ("context_id", context_id);
                                ("raw_url", raw_url);
                                ("expires_in_seconds", expires_in_seconds);
                                ("expires_at", expires_at) ])))).
  unfold ExportTools.handleGetRawUrl. run_handler.
Qed.

Lemma handleGetContextStats_contract :
  envelope_contract (ExportTools.handleGetContextStats rt)
    (Build_phases (value * value) "Error generating statistics: "
       (fun args =>
          date_range <- get_default args "date_range" (VStr "30d") ;;
          group_by <- get_default args "group_by" (VStr "category") ;;
          ret (date_range, group_by))
       (fun c _ => listContexts c (VObj [("limit", VNum 100)]))).
Proof.
  apply (contract_of_run _ (Build_phases (value * value) _ _ _) (fun _ x allContexts =>
    result <- ExportTools.stats_result rt (fst x) (snd x) allContexts ;;
    ret (JSON_pretty rt result))).
  unfold ExportTools.handleGetContextStats. run_handler.
Qed.

End Contracts.

Lemma handler_phases_contract rt :
  Forall (fun hp => envelope_contract (fst hp) (snd hp)) (handler_phases rt).
Proof.
  unfold handler_phases.
  repeat (apply Forall_cons; [cbn [fst snd] |]); [.. | apply Forall_nil].
  - apply handleListContexts_contract.
  - apply fixed_handleListContexts_contract.
  - apply handleGetContext_contract.
  - apply handleCreateContext_contract.
  - apply handleUpdateContext_contract.
  - apply handleDeleteContext_contract.
  - apply handleSearchContexts_contract.
  - apply handleConsolidateContexts_contract.
  - apply handlePlanFromContexts_contract.
  - apply handleExportContexts_contract.
  - apply handleGetRawUrl_contract.
  - apply handleGetContextStats_contract.
Qed.

Lemma registered_in_phases rt :
  Forall (fun nh => In (snd nh) (map fst (handler_phases rt))) (Stdio.TOOL_HANDLERS rt).
Proof.
  unfold Stdio.TOOL_HANDLERS, handler_phases.
  repeat (apply Forall_cons; [cbn [fst snd map In]; tauto |]).
  apply Forall_nil.
Qed.

(** A registered handler always returns a result. *)
Lemma registered_returns rt name h :
  Stdio.own_handler (Stdio.TOOL_HANDLERS rt) name = Some h ->
  forall args c tr, exists r tr', h args c tr = (inr r, tr').
Proof.
  intros Hown.
  assert (Hin : In (name, h) (Stdio.TOOL_HANDLERS rt)).
  { revert Hown. generalize (Stdio.TOOL_HANDLERS rt).
    induction l as [| [k h0] rest IH]; cbn [Stdio.own_handler]; [discriminate |].
    destruct (k =? name) eqn:E.
    - intros H. injection H as ->. apply String.eqb_eq in E. subst. now left.
    - intros H. right. auto. }
  pose proof (registered_in_phases rt) as Hreg. rewrite Forall_forall in Hreg.
  specialize (Hreg _ Hin). cbn [snd] in Hreg.
  apply in_map_iff in Hreg as ([h' p] & Heq & Hin'). cbn [fst] in Heq. subst h'.
  pose proof (handler_phases_contract rt) as Hall. rewrite Forall_forall in Hall.
  specialize (Hall _ Hin'). cbn [fst snd] in Hall.
  intros args c tr. destruct (Hall args c tr) as ((r & tr' & Hrun & _) & _).
  eauto.
Qed.

(** C5: each of the eleven registered handlers (and the fixed list
    handler) keeps the envelope contract for every argument value,
    every client and every state of the network: it returns a result
    with one text block and never throws; a validation failure and a
    failure of the remote call are returned with [isError] set, the
    first without any request having been made; a result without
    [isError] means validation and the remote call both succeeded. *)
Theorem handlers_keep_envelope :
  forall rt,
    Forall (fun hp => envelope_contract (fst hp) (snd hp)) (handler_phases rt) /\
    Forall (fun nh => In (snd nh) (map fst (handler_phases rt)))
           (Stdio.TOOL_HANDLERS rt).
Proof.
  intros rt. split; [apply handler_phases_contract | apply registered_in_phases].
Qed.

(** ** [tools/call] (C6) *)

Lemma params_name_object fields :
  Stdio.params_name (VObj fields) = inr (tool_name (VObj fields)).
Proof.
  unfold tool_name, Stdio.params_name. cbn [get bind ret].
  destruct (own fields "params") as [[| | | | | | |] |]; reflexivity.
Qed.

(** A truthy name was read from a [params] that is not nullish. *)
Lemma tool_name_truthy fields :
  truthy (tool_name (VObj fields)) = true ->
  nullish (field (VObj fields) "params") = false /\
  tool_name (VObj fields) = field (field (VObj fields) "params") "name".
Proof.
  unfold tool_name, Stdio.params_name, field. cbn [get bind ret].
  destruct (own fields "params") as [[| | | | | | |] |]; cbn;
    intros H; try discriminate; split; reflexivity.
Qed.

(** The dispatcher on a [tools/call] request, up to the lookup. *)
Lemma handleMCPRequest_tools_call rt TOOLS apiClient fields tr :
  own fields "method" = Some (VStr "tools/call") ->
  Stdio.handleMCPRequest rt TOOLS apiClient (VObj fields) tr
  = match Stdio.tools_call rt apiClient (Stdio.request_id (VObj fields)) (VObj fields) tr with
    | (inl e, tr') =>
        (inr (Some (Stdio.RpcError (Stdio.request_id (VObj fields)) (-32603)
                      ("Internal error: " ++ message e))), tr')
    | (inr r, tr') => (inr r, tr')
    end.
Proof.
  intros Hm. unfold Stdio.handleMCPRequest.
  cbn [truthy typeof negb orb String.eqb Ascii.eqb Bool.eqb].
  unfold try_catch. rewrite bindT_lift. cbn [get]. rewrite Hm.
  cbn [ret strict_eq String.eqb Ascii.eqb Bool.eqb].
  now destruct (Stdio.tools_call rt apiClient _ (VObj fields) tr) as [[e | r] tr'].
Qed.

(** C6, as the code has it: a name that is absent or falsy is answered
    with -32602; a truthy name whose key is neither registered nor
    inherited from [Object.prototype] is answered with -32601 and a
    message that ends with the key; a registered name runs its handler
    on [params.arguments || {}] and the response carries the handler's
    result. *)
Theorem tools_call_dispatch :
  forall rt TOOLS apiClient fields tr,
    own fields "method" = Some (VStr "tools/call") ->
    let request := VObj fields in
    let id := Stdio.request_id request in
    let name := tool_name request in
    (truthy name = false ->
       Stdio.handleMCPRequest rt TOOLS apiClient request tr
       = (inr (Some (Stdio.RpcError id (-32602) "Missing tool name")), tr)) /\
    (truthy name = true ->
       forall key, to_string name = inr key ->
         (Stdio.lookup (Stdio.TOOL_HANDLERS rt) key = Stdio.Missing ->
            Stdio.handleMCPRequest rt TOOLS apiClient request tr
            = (inr (Some (Stdio.RpcError id (-32601) ("Tool not found: " ++ key))), tr)) /\
         (forall h, Stdio.lookup (Stdio.TOOL_HANDLERS rt) key = Stdio.Registered h ->
            exists r tr',
              h (arguments_of request) apiClient tr = (inr r, tr') /\
              Stdio.handleMCPRequest rt TOOLS apiClient request tr
              = (inr (Some (Stdio.Result id (Stdio.ToolResult r))), tr'))).
Proof.
  intros rt TOOLS apiClient fields tr Hm request id name.
  subst request id name.
  rewrite (handleMCPRequest_tools_call _ _ _ _ _ Hm).
  unfold Stdio.tools_call. rewrite bindT_lift, params_name_object.
  split.
  - intros ->. reflexivity.
  - intros Ht key Hkey. rewrite Ht. cbn [negb].
    destruct (tool_name_truthy _ Ht) as [Hparams Hname].
    rewrite bindT_lift, (get_ok (VObj fields) "params" eq_refl).
    rewrite bindT_lift, (get_ok _ "name" Hparams), <- Hname.
    rewrite bindT_lift, Hkey.
    split.
    + intros ->. reflexivity.
    + intros h Hh. rewrite Hh.
      assert (Hown : Stdio.own_handler (Stdio.TOOL_HANDLERS rt) key = Some h).
      { unfold Stdio.lookup in Hh.
        destruct (Stdio.own_handler (Stdio.TOOL_HANDLERS rt) key); [congruence |].
        destruct (inherited key); discriminate. }
      destruct (registered_returns rt key h Hown (arguments_of (VObj fields)) apiClient tr)
        as (r & tr' & Hrun).
      exists r, tr'. split; [exact Hrun |].
      unfold try_catch. rewrite bindT_lift, (get_ok _ "arguments" Hparams).
      unfold arguments_of in Hrun. unfold bindT. rewrite Hrun. reflexivity.
Qed.

Lemma tools_call_dispatch_witness :
  Stdio.handleMCPRequest Worlds.rt0 VNull
    (ApiClient.ConvolutAPIClient Worlds.rt0 Worlds.accepting "key")
    (VObj [ ("jsonrpc", VStr "2.0"); ("id", VNum 7); ("method", VStr "tools/call");
            ("params", VObj [("name", VStr "frobnicate")]) ]) []
  = (inr (Some (Stdio.RpcError (VNum 7) (-32601) "Tool not found: frobnicate")), []).
Proof.
  exact (proj1 (proj2 (tools_call_dispatch Worlds.rt0 VNull
           (ApiClient.ConvolutAPIClient Worlds.rt0 Worlds.accepting "key")
           [ ("jsonrpc", VStr "2.0"); ("id", VNum 7); ("method", VStr "tools/call");
             ("params", VObj [("name", VStr "frobnicate")]) ] [] eq_refl)
           eq_refl "frobnicate" eq_refl) eq_refl).
Defined.

(** C6 as worded fails at a name that is present and is no registered
    tool, the empty string: the answer is -32602, not -32601. *)
Lemma tools_call_empty_name :
  let params := [("name", VStr EmptyString)] in
  let request :=
    VObj [ ("jsonrpc", VStr "2.0"); ("id", VNum 7); ("method", VStr "tools/call");
           ("params", VObj params) ] in
  has_own params "name" = true /\
  Stdio.lookup (Stdio.TOOL_HANDLERS Worlds.rt0) EmptyString = Stdio.Missing /\
  Stdio.handleMCPRequest Worlds.rt0 VNull
    (ApiClient.ConvolutAPIClient Worlds.rt0 Worlds.accepting "key") request []
  = (inr (Some (Stdio.RpcError (VNum 7) (-32602) "Missing tool name")), []).
Proof. repeat split. Qed.

(** A name that [TOOL_HANDLERS] inherits from [Object.prototype] is
    looked up successfully although no tool is registered under it: the
    member is called, and the answer is its return value or -32603,
    never -32601. *)
Lemma tools_call_inherited_name rt TOOLS apiClient fields tr key :
  own fields "method" = Some (VStr "tools/call") ->
  truthy (tool_name (VObj fields)) = true ->
  to_string (tool_name (VObj fields)) = inr key ->
  Stdio.lookup (Stdio.TOOL_HANDLERS rt) key = Stdio.Inherited key ->
  Stdio.handleMCPRequest rt TOOLS apiClient (VObj fields) tr
  = (inr (Some
       match Stdio.call_inherited rt key (arguments_of (VObj fields)) with
       | inr v => Stdio.Result (Stdio.request_id (VObj fields)) (Stdio.Plain v)
       | inl e => Stdio.RpcError (Stdio.request_id (VObj fields)) (-32603) (message e)
       end), tr).
Proof.
  intros Hm Ht Hkey Hlook.
  rewrite (handleMCPRequest_tools_call _ _ _ _ _ Hm).
  unfold Stdio.tools_call. rewrite bindT_lift, params_name_object, Ht. cbn [negb].
  destruct (tool_name_truthy _ Ht) as [Hparams Hname].
  rewrite bindT_lift, (get_ok (VObj fields) "params" eq_refl).
  rewrite bindT_lift, (get_ok _ "name" Hparams), <- Hname.
  rewrite bindT_lift, Hkey, Hlook.
  unfold try_catch. rewrite bindT_lift, (get_ok _ "arguments" Hparams).
  rewrite bindT_lift. unfold arguments_of.
  now destruct (Stdio.call_inherited rt key _).
Qed.

Lemma tools_call_constructor_example :
  Stdio.handleMCPRequest Worlds.rt0 VNull
    (ApiClient.ConvolutAPIClient Worlds.rt0 Worlds.accepting "key")
    (VObj [ ("jsonrpc", VStr "2.0"); ("id", VNum 7); ("method", VStr "tools/call");
            ("params", VObj [("name", VStr "constructor");
                             ("arguments", VObj [("limit", VNum 5)])]) ]) []
  = (inr (Some (Stdio.Result (VNum 7) (Stdio.Plain (VObj [("limit", VNum 5)])))), []).
Proof. reflexivity. Qed.

(** * Further properties *)

(** ** The validators of the AI and export tools *)

Lemma strict_eq_str c v : strict_eq (VStr c) v = true <-> v = VStr c.
Proof.
  destruct v; simpl; split; try discriminate; try congruence.
  - intros H. apply String.eqb_eq in H. now subst.
  - intros H. injection H as ->. apply String.eqb_refl.
Qed.

Lemma includes_spec choices v :
  includes choices v = true <-> one_of choices v.
Proof.
  unfold includes, one_of. rewrite existsb_exists. split.
  - intros (c & Hin & Heq). apply strict_eq_str in Heq. eauto.
  - intros (c & Hin & Heq). exists c. split; [assumption |]. now apply strict_eq_str.
Qed.

Lemma one_of_truthy choices v :
  ~ In EmptyString choices -> one_of choices v -> truthy v = true.
Proof.
  intros Hne (c & Hin & ->). simpl. destruct c; [contradiction | reflexivity].
Qed.

Ltac no_empty_choice :=
  simpl; intros H; repeat (destruct H as [H | H]; [discriminate |]); exact H.

Lemma bad_ids_spec v lo hi :
  AiTools.bad_ids v (Z.of_nat lo) (Z.of_nat hi) = false <-> ids_between lo hi v.
Proof.
  unfold AiTools.bad_ids, ids_between. destruct v; try (split; [discriminate |]);
    try (intros (ids & H & _); discriminate).
  rewrite orb_false_iff, !Z.ltb_ge. split.
  - intros [H1 H2]. exists items. split; [reflexivity | lia].
  - intros (ids & H & Hlen). injection H as ->. lia.
Qed.

Lemma field_nullish v k : nullish v = true -> field v k = VUndefined.
Proof. destruct v; try discriminate; reflexivity. Qed.

Lemma get_field v k : get v k = inr (field v k) \/ exists e, get v k = inl e.
Proof. destruct v; simpl; eauto. Qed.

Lemma ids_between_not_undefined lo hi : ~ ids_between lo hi VUndefined.
Proof. intros (ids & H & _). discriminate. Qed.

(** X1: [validateConsolidateRequest] accepts exactly an array of 2 to 10
    identifiers together with the type ['summarize'] or ['compose'];
    what it returns carries the two unchanged, and [custom_prompt] only
    when it is truthy. *)
Theorem validateConsolidateRequest_accepts :
  forall args,
    ((exists r, AiTools.validateConsolidateRequest args = inr r) <->
     ids_between 2 10 (field args "context_ids") /\
     one_of ["summarize"; "compose"] (field args "consolidation_type")) /\
    (forall r, AiTools.validateConsolidateRequest args = inr r ->
       r = VObj (set_if (truthy (field args "custom_prompt")) "custom_prompt"
                        (field args "custom_prompt")
                   [ ("context_ids", field args "context_ids");
                     ("consolidation_type", field args "consolidation_type") ])).
Proof.
  intros args.
  destruct (nullish args) eqn:Hn.
  - split.
    + split.
      * intros [r H]. destruct args; discriminate.
      * intros [H _]. rewrite (field_nullish _ _ Hn) in H.
        now apply ids_between_not_undefined in H.
    + intros r H. destruct args; discriminate.
  - unfold AiTools.validateConsolidateRequest.
    rewrite !(get_ok _ _ Hn). cbn [bind].
    destruct (AiTools.bad_ids (field args "context_ids") 2 10) eqn:Eids.
    + split; [split |].
      * intros [r H]. discriminate.
      * intros [H _]. apply (bad_ids_spec _ 2 10) in H. cbn in H. congruence.
      * intros r H. discriminate.
    + cbn [bind ret].
      destruct (includes ["summarize"; "compose"] (field args "consolidation_type"))
        eqn:Einc.
      * assert (Hone : one_of ["summarize"; "compose"] (field args "consolidation_type"))
          by now apply includes_spec.
        rewrite (one_of_truthy ["summarize"; "compose"] _ ltac:(no_empty_choice) Hone).
        cbn [negb orb bind ret]. split; [split |].
        -- intros _. split; [now apply (bad_ids_spec _ 2 10) | assumption].
        -- intros _. eexists; reflexivity.
        -- intros r H. now injection H as <-.
      * rewrite orb_true_r. split; [split |].
        -- intros [r H]. discriminate.
        -- intros [_ H]. apply includes_spec in H. congruence.
        -- intros r H. discriminate.
Qed.

(** X2: [validatePlanRequest] accepts exactly an array of 1 to 20
    identifiers; [planning_prompt] is kept only when it is truthy. *)
Theorem validatePlanRequest_accepts :
  forall args,
    ((exists r, AiTools.validatePlanRequest args = inr r) <->
     ids_between 1 20 (field args "context_ids")) /\
    (forall r, AiTools.validatePlanRequest args = inr r ->
       r = VObj (set_if (truthy (field args "planning_prompt")) "planning_prompt"
                        (field args "planning_prompt")
                   [ ("context_ids", field args "context_ids") ])).
Proof.
  intros args.
  destruct (nullish args) eqn:Hn.
  - split.
    + split.
      * intros [r H]. destruct args; discriminate.
      * intros H. rewrite (field_nullish _ _ Hn) in H.
        now apply ids_between_not_undefined in H.
    + intros r H. destruct args; discriminate.
  - unfold AiTools.validatePlanRequest.
    rewrite !(get_ok _ _ Hn). cbn [bind].
    destruct (AiTools.bad_ids (field args "context_ids") 1 20) eqn:Eids.
    + split; [split |].
      * intros [r H]. discriminate.
      * intros H. apply (bad_ids_spec _ 1 20) in H. cbn in H. congruence.
      * intros r H. discriminate.
    + cbn [bind ret]. split; [split |].
      * intros _. now apply (bad_ids_spec _ 1 20).
      * intros _. eexists; reflexivity.
      * intros r H. now injection H as <-.
Qed.

(** X3: [validateExportRequest] accepts exactly an array of 1 to 100
    identifiers together with one of the four formats;
    [include_metadata] is [true] when absent and is kept otherwise,
    [false] included. *)
Theorem validateExportRequest_accepts :
  forall args,
    ((exists r, ExportTools.validateExportRequest args = inr r) <->
     ids_between 1 100 (field args "context_ids") /\
     one_of ["json"; "xml"; "txt"; "markdown"] (field args "format")) /\
    (forall r, ExportTools.validateExportRequest args = inr r ->
       r = VObj [ ("context_ids", field args "context_ids");
                  ("format", field args "format");
                  ("include_metadata",
                   defaulted (field args "include_metadata") (VBool true)) ]).
Proof.
  intros args.
  destruct (nullish args) eqn:Hn.
  - split.
    + split.
      * intros [r H]. destruct args; discriminate.
      * intros [H _]. rewrite (field_nullish _ _ Hn) in H.
        now apply ids_between_not_undefined in H.
    + intros r H. destruct args; discriminate.
  - unfold ExportTools.validateExportRequest.
    rewrite !(get_ok _ _ Hn). cbn [bind].
    destruct (AiTools.bad_ids (field args "context_ids") 1 100) eqn:Eids.
    + split; [split |].
      * intros [r H]. discriminate.
      * intros [H _]. apply (bad_ids_spec _ 1 100) in H. cbn in H. congruence.
      * intros r H. discriminate.
    + cbn [bind ret].
      destruct (includes ["json"; "xml"; "txt"; "markdown"] (field args "format"))
        eqn:Einc.
      * assert (Hone : one_of ["json"; "xml"; "txt"; "markdown"] (field args "format"))
          by now apply includes_spec.
        rewrite (one_of_truthy ["json"; "xml"; "txt"; "markdown"] _
                   ltac:(no_empty_choice) Hone).
        cbn [negb orb bind ret]. split; [split |].
        -- intros _. split; [now apply (bad_ids_spec _ 1 100) | assumption].
        -- intros _. eexists; reflexivity.
        -- intros r H. now injection H as <-.
      * rewrite orb_true_r. split; [split |].
        -- intros [r H]. discriminate.
        -- intros [_ H]. apply includes_spec in H. congruence.
        -- intros r H. discriminate.
Qed.

(** ** The bounds of [validateContextSearch] *)

Ltac settle_bound :=
  try solve [split; [intros _; left; reflexivity | reflexivity]];
  try solve [split; [intros _; right; reflexivity | reflexivity]];
  try solve [split; [discriminate | intros [H | H]; discriminate]].

Lemma limit_ok_spec v :
  limit_ok v = true <->
  is_undefined v = true \/
  (negb (typeof v =? "number") || below v 1 || above v 100) = false.
Proof.
  destruct v; simpl; settle_bound.
  rewrite andb_true_iff, orb_false_iff, !Z.leb_le, !Z.ltb_ge. split.
  - intros [H1 H2]. right. split; lia.
  - intros [H | [H1 H2]]; [discriminate | lia].
Qed.

Lemma offset_ok_spec v :
  offset_ok v = true <->
  is_undefined v = true \/
  (negb (typeof v =? "number") || below v 0) = false.
Proof.
  destruct v; simpl; settle_bound.
  rewrite Z.leb_le, Z.ltb_ge. split.
  - intros H. now right.
  - intros [H | H]; [discriminate | assumption].
Qed.

(** X4: [validateContextSearch] rejects only on [limit] and [offset]: it
    returns exactly when [limit] is absent or a number from 1 to 100 and
    [offset] is absent or a number that is not negative; no other
    argument can make it fail. *)
Theorem validateContextSearch_accepts :
  forall args,
    (exists params, Contexts.validateContextSearch args = inr params) <->
    nullish args = false /\
    limit_ok (field args "limit") = true /\
    offset_ok (field args "offset") = true.
Proof.
  intros args. destruct (nullish args) eqn:Hn.
  - split.
    + intros [p H]. destruct args; discriminate.
    + intros [H _]. discriminate.
  - unfold Contexts.validateContextSearch.
    rewrite !(get_ok _ _ Hn). cbn [bind].
    rewrite limit_ok_spec, offset_ok_spec.
    destruct (is_undefined (field args "limit")) eqn:El;
      [| destruct (negb (typeof (field args "limit") =? "number")
                   || below (field args "limit") 1
                   || above (field args "limit") 100) eqn:Bl];
      cbn [bind ret];
      try (split; [intros [p H]; discriminate
                  | intros (_ & [H | H] & _); discriminate]);
      (destruct (is_undefined (field args "offset")) eqn:Eo;
       [| destruct (negb (typeof (field args "offset") =? "number")
                    || below (field args "offset") 0) eqn:Bo]);
      cbn [bind ret];
      try (split; [intros [p H]; discriminate
                  | intros (_ & _ & [H | H]); discriminate]);
      (split; [intros _; repeat split; auto | intros _; eexists; reflexivity]).
Qed.

(** ** The transport of [utils/api-client.cjs] *)

Lemma not_2xx_false st : not_2xx st = false <-> is_2xx st.
Proof.
  unfold is_2xx. destruct st as [n |]; simpl.
  - rewrite !orb_false_iff, Z.eqb_neq, Z.ltb_ge, Z.leb_gt. split.
    + intros [[H0 H1] H2]. exists n. split; [reflexivity | lia].
    + intros (m & H & Hm). injection H as ->. lia.
  - split; [discriminate | intros (m & H & _); discriminate].
Qed.

(** X5: [request] returns a value only from a response whose status is 200
    to 299 and whose body parses; that value is the parsed body, and
    exactly one request was sent for it. *)
Theorem request_returns_parsed_2xx :
  forall rt net apiKey endpoint o tr v tr',
    ApiClient.request rt net apiKey endpoint o tr = (inr v, tr') ->
    exists u res,
      URL_parse rt (baseUrl ++ endpoint) = Some u /\
      tr' = (tr ++ [requestOptions apiKey u o])%list /\
      net tr (requestOptions apiKey u o) = Responded res /\
      is_2xx (statusCode res) /\
      JSON_parse rt (data res) = Some v.
Proof.
  intros rt net apiKey endpoint o tr v tr'.
  unfold ApiClient.request, new_URL. rewrite bindT_lift.
  destruct (URL_parse rt (baseUrl ++ endpoint)) as [u |]; [| discriminate].
  unfold ret. cbv beta iota. unfold bindT, send, ret.
  destruct (net tr (requestOptions apiKey u o)) as [res | e |] eqn:Hnet;
    [| discriminate | discriminate].
  unfold lift, on_end.
  destruct (not_2xx (statusCode res)) eqn:Hst; [discriminate |].
  destruct (JSON_parse rt (data res)) as [v0 |] eqn:Hparse; [| discriminate].
  intros H. injection H as <- <-.
  exists u, res. repeat split; try assumption. now apply not_2xx_false.
Qed.

Lemma request_returns_parsed_2xx_witness :
  exists u res,
    URL_parse Worlds.rt0 (baseUrl ++ "/contexts") = Some u /\
    snd (ApiClient.request Worlds.rt0 Worlds.envelope_server "key" "/contexts"
           no_options [])
    = ([] ++ [requestOptions "key" u no_options])%list /\
    Worlds.envelope_server [] (requestOptions "key" u no_options) = Responded res /\
    is_2xx (statusCode res) /\
    JSON_parse Worlds.rt0 (data res) = Some Worlds.envelope.
Proof.
  exact (request_returns_parsed_2xx Worlds.rt0 Worlds.envelope_server "key"
           "/contexts" no_options [] Worlds.envelope
           (snd (ApiClient.request Worlds.rt0 Worlds.envelope_server "key"
                   "/contexts" no_options []))
           eq_refl).
Defined.

(** *** One request per operation *)

Lemma sends_ret {A} P (a : A) : sends_at_most 0 P (retT a).
Proof. intros tr. exists []. cbn. rewrite app_nil_r. auto. Qed.

Lemma sends_throw {A} P e : sends_at_most 0 P (@throwT A e).
Proof. intros tr. exists []. cbn. rewrite app_nil_r. auto. Qed.

Lemma sends_lift {A} P (c : M A) : sends_at_most 0 P (lift c).
Proof. intros tr. exists []. cbn. rewrite app_nil_r. auto. Qed.

Lemma sends_bind {A B} P n m (c : T A) (k : A -> T B) :
  sends_at_most n P c -> (forall a, sends_at_most m P (k a)) ->
  sends_at_most (n + m) P (bindT c k).
Proof.
  intros Hc Hk tr. destruct (Hc tr) as (new & Hsnd & Hlen & Hall).
  unfold bindT. destruct (c tr) as [[e | a] tr1]; cbn [snd] in Hsnd; subst tr1.
  - exists new. cbn [snd]. repeat split; [lia | assumption].
  - destruct (Hk a (tr ++ new)%list) as (new' & Hsnd' & Hlen' & Hall').
    exists (new ++ new')%list. rewrite Hsnd', app_assoc, length_app.
    repeat split; [lia | now apply Forall_app].
Qed.

Lemma sends_more {A} P n m (c : T A) :
  (n <= m)%nat -> sends_at_most n P c -> sends_at_most m P c.
Proof.
  intros Hle Hc tr. destruct (Hc tr) as (new & Hsnd & Hlen & Hall).
  exists new. repeat split; [assumption | lia | assumption].
Qed.

Lemma sends_try_catch {A} P n (body : T A) (handler : exn -> T A) :
  sends_at_most n P body -> (forall e, sends_at_most 0 P (handler e)) ->
  sends_at_most n P (try_catch body handler).
Proof.
  intros Hb Hh tr. destruct (Hb tr) as (new & Hsnd & Hlen & Hall).
  unfold try_catch. destruct (body tr) as [[e | a] tr1]; cbn [snd] in Hsnd; subst tr1.
  - destruct (Hh e (tr ++ new)%list) as (new' & Hsnd' & Hlen' & Hall').
    exists (new ++ new')%list. rewrite Hsnd', app_assoc, length_app.
    repeat split; [lia | now apply Forall_app].
  - exists new. cbn [snd]. auto.
Qed.

Lemma sends_send P net rq : P rq -> sends_at_most 1 P (send net rq).
Proof.
  intros HP tr. exists [rq]. cbn. repeat split; [lia | auto].
Qed.

(** [request] sends one request, with the key when no header is
    overridden. *)
Lemma request_sends rt net apiKey endpoint o :
  opt_headers o = [] ->
  sends_at_most 1 (signed apiKey) (ApiClient.request rt net apiKey endpoint o).
Proof.
  intros Hh. unfold ApiClient.request.
  apply (sends_bind _ 0 1); [apply sends_lift |]. intros u.
  apply (sends_bind _ 1 0).
  - apply sends_send. unfold signed, requestOptions. cbn [rq_headers].
    now rewrite Hh.
  - intros [res | e |]; [apply sends_lift | apply sends_throw | apply sends_throw].
Qed.

Lemma ConvolutAPIClient_sends :
  forall rt net apiKey,
    let c := ApiClient.ConvolutAPIClient rt net apiKey in
    let one {A} (op : T A) := sends_at_most 1 (signed apiKey) op in
    (forall p, one (listContexts c p)) /\
    (forall id, one (getContext c id)) /\
    (forall d, one (createContext c d)) /\
    (forall id d, one (updateContext c id d)) /\
    (forall id, one (deleteContext c id)) /\
    (forall r, one (consolidateContexts c r)) /\
    (forall r, one (planFromContexts c r)) /\
    (forall r, one (exportContexts c r)) /\
    (forall r, one (generateRawUrl c r)).
Proof.
  intros rt net apiKey c one. subst c one.
  cbn [ApiClient.ConvolutAPIClient listContexts getContext createContext
       updateContext deleteContext consolidateContexts planFromContexts
       exportContexts generateRawUrl].
  assert (Hlist : forall p,
            sends_at_most 1 (signed apiKey) (ApiClient.listContexts rt net apiKey p)).
  { intros p. unfold ApiClient.listContexts.
    apply (sends_bind _ 0 1); [apply sends_lift |]. intros q.
    now apply request_sends. }
  repeat split; intros.
  - apply Hlist.
  - unfold ApiClient.getContext.
    apply (sends_bind _ 1 0); [apply Hlist | intros; apply sends_lift].
  - now apply request_sends.
  - unfold ApiClient.updateContext.
    apply (sends_bind _ 0 1); [apply sends_lift |]. intros s.
    now apply request_sends.
  - unfold ApiClient.deleteContext.
    apply (sends_bind _ 0 1); [apply sends_lift |]. intros s.
    now apply request_sends.
  - now apply request_sends.
  - now apply request_sends.
  - now apply request_sends.
  - now apply request_sends.
Qed.

(** X6: Every operation of the client sends at most one request, and that
    request carries the API key: nothing is retried, and nothing goes
    out unsigned. *)
Theorem client_operations_send_once :
  forall rt net apiKey,
    let c := ApiClient.ConvolutAPIClient rt net apiKey in
    let one {A} (op : T A) := sends_at_most 1 (signed apiKey) op in
    (forall p, one (listContexts c p)) /\
    (forall id, one (getContext c id)) /\
    (forall d, one (createContext c d)) /\
    (forall id d, one (updateContext c id d)) /\
    (forall id, one (deleteContext c id)) /\
    (forall r, one (consolidateContexts c r)) /\
    (forall r, one (planFromContexts c r)) /\
    (forall r, one (exportContexts c r)) /\
    (forall r, one (generateRawUrl c r)).
Proof. exact ConvolutAPIClient_sends. Qed.

(** Counts the requests of a handler body: the client call sends one,
    every other stage none. *)
Ltac count_sends Hclient :=
  cbv zeta;
  repeat first
    [ apply sends_ret
    | apply sends_lift
    | apply sends_throw
    | apply (sends_bind _ 0 0); [apply sends_lift | intros]
    | apply (sends_bind _ 0 1); [apply sends_lift | intros]
    | apply (sends_bind _ 1 0); [apply Hclient | intros] ].

Lemma registered_handlers_send rt net apiKey :
  Forall (fun nh => forall args,
            sends_at_most 1 (signed apiKey)
              (snd nh args (ApiClient.ConvolutAPIClient rt net apiKey)))
         (Stdio.TOOL_HANDLERS rt).
Proof.
  destruct (ConvolutAPIClient_sends rt net apiKey)
    as (Hl & Hg & Hc & Hu & Hd & Hco & Hp & He & Hr).
  unfold Stdio.TOOL_HANDLERS.
  repeat (apply Forall_cons; [cbn [snd]; intros args |]); [.. | apply Forall_nil].
  - unfold Contexts.handleListContexts, guarded.
    apply sends_try_catch; [| intros; apply sends_ret]. count_sends Hl.
  - unfold Contexts.handleGetContext, guarded.
    apply sends_try_catch; [| intros; apply sends_ret]. count_sends Hg.
  - unfold Contexts.handleCreateContext, guarded.
    apply sends_try_catch; [| intros; apply sends_ret]. count_sends Hc.
  - unfold Contexts.handleUpdateContext, guarded.
    apply sends_try_catch; [| intros; apply sends_ret]. count_sends Hu.
  - unfold Contexts.handleDeleteContext, guarded.
    apply sends_try_catch; [| intros; apply sends_ret]. count_sends Hd.
  - unfold AiTools.handleSearchContexts, guarded.
    apply sends_try_catch; [| intros; apply sends_ret]. count_sends Hl.
  - unfold AiTools.handleConsolidateContexts, guarded.
    apply sends_try_catch; [| intros; apply sends_ret]. count_sends Hco.
  - unfold AiTools.handlePlanFromContexts, guarded.
    apply sends_try_catch; [| intros; apply sends_ret]. count_sends Hp.
  - unfold ExportTools.handleExportContexts, guarded.
    apply sends_try_catch; [| intros; apply sends_ret]. count_sends He.
  - unfold ExportTools.handleGetRawUrl, guarded.
    apply sends_try_catch; [| intros; apply sends_ret]. count_sends Hr.
  - unfold ExportTools.handleGetContextStats, guarded.
    apply sends_try_catch; [| intros; apply sends_ret]. count_sends Hl.
Qed.

Lemma own_handler_In table name h :
  Stdio.own_handler table name = Some h -> In (name, h) table.
Proof.
  induction table as [| [k h0] rest IH]; cbn [Stdio.own_handler]; [discriminate |].
  destruct (k =? name) eqn:E.
  - intros H. injection H as ->. apply String.eqb_eq in E. subst. now left.
  - intros H. right. auto.
Qed.

(** X7: One JSON-RPC request makes at most one HTTPS call, whatever it
    asks for, and the call carries the API key. *)
Theorem handleMCPRequest_sends_once :
  forall rt TOOLS net apiKey request,
    sends_at_most 1 (signed apiKey)
      (Stdio.handleMCPRequest rt TOOLS
         (ApiClient.ConvolutAPIClient rt net apiKey) request).
Proof.
  intros rt TOOLS net apiKey request. unfold Stdio.handleMCPRequest.
  pose (zero := fun A (a : A) =>
          sends_more (signed apiKey) 0 1 (retT a) (Nat.le_0_l 1)
                     (sends_ret (signed apiKey) a)).
  destruct (negb (truthy request) || negb (typeof request =? "object"));
    [apply zero |].
  apply sends_try_catch; [| intros; apply (sends_ret _)].
  apply (sends_bind _ 0 1); [apply sends_lift |]. intros method.
  do 4 (match goal with
        | |- sends_at_most _ _ (if ?b then _ else _) => destruct b; [apply zero |]
        end).
  destruct (strict_eq method (VStr "tools/call")).
  - unfold Stdio.tools_call.
    apply (sends_bind _ 0 1); [apply sends_lift |]. intros name.
    destruct (negb (truthy name)); [apply zero |].
    apply (sends_bind _ 0 1); [apply sends_lift |]. intros params.
    apply (sends_bind _ 0 1); [apply sends_lift |]. intros toolName.
    apply (sends_bind _ 0 1); [apply sends_lift |]. intros key.
    unfold Stdio.lookup.
    destruct (Stdio.own_handler (Stdio.TOOL_HANDLERS rt) key) as [h |] eqn:Hown.
    + apply sends_try_catch; [| intros; apply (sends_ret _)].
      apply (sends_bind _ 0 1); [apply sends_lift |]. intros arguments.
      apply (sends_bind _ 1 0); [| intros; apply sends_ret].
      pose proof (registered_handlers_send rt net apiKey) as Hall.
      rewrite Forall_forall in Hall.
      exact (Hall _ (own_handler_In _ _ _ Hown) _).
    + destruct (inherited key); [| apply zero].
      apply (sends_more _ 0); [lia |].
      apply sends_try_catch; [| intros; apply (sends_ret _)].
      apply (sends_bind _ 0 0); [apply sends_lift |]. intros arguments.
      apply (sends_bind _ 0 0); [apply sends_lift | intros; apply sends_ret].
  - destruct (strict_eq method (VStr "ping")); [apply zero |].
    apply (sends_more _ 0); [lia |].
    apply (sends_bind _ 0 0); [apply sends_lift | intros; apply sends_ret].
Qed.

(** ** The transport of the fixed client *)

(** X8: Whatever the network answers, [request] with [maxRedirects = n]
    sends at most [2n] requests (one when [n] is 0), and every one of
    them -- the hops to the hosts named by [Location] included --
    carries the API key and the method of the call. *)
Theorem fixed_request_bound :
  forall rt net apiKey n endpoint o,
    opt_headers o = [] ->
    sends_at_most (Nat.max 1 (2 * n))
      (fun rq => signed apiKey rq /\ rq_method rq = str_or (opt_method o) "GET")
      (ApiClientFixed.request_from rt net apiKey n endpoint o).
Proof.
  intros rt net apiKey n endpoint o Hh.
  set (P := fun rq => signed apiKey rq /\ rq_method rq = str_or (opt_method o) "GET").
  assert (Hfirst : forall u, P (requestOptions apiKey u o)).
  { intros u. split; [| reflexivity].
    unfold signed, requestOptions. cbn [rq_headers]. now rewrite Hh. }
  assert (Hhop : forall u target,
            P (ApiClientFixed.redirectRequestOptions (requestOptions apiKey u o) target o)).
  { intros u target. destruct (Hfirst u) as [Hs Hm]. split; assumption. }
  revert endpoint. induction n as [| m IH]; intros endpoint.
  - cbn [ApiClientFixed.request_from].
    apply (sends_bind _ 0 1); [apply sends_lift |]. intros u.
    apply (sends_bind _ 1 0); [apply sends_send, Hfirst |].
    intros [res | e |]; [| apply sends_throw | apply sends_throw].
    destruct (is_redirect (statusCode res)); [apply sends_throw | apply sends_lift].
  - cbn [ApiClientFixed.request_from].
    apply (sends_more _ (0 + (1 + (1 + Nat.max 1 (2 * m) * (if (1 <? S m)%nat then 1 else 0))))).
    { destruct m; cbn; lia. }
    apply sends_bind; [apply sends_lift |]. intros u.
    apply sends_bind; [apply sends_send, Hfirst |].
    intros [res | e |];
      [| apply (sends_more _ 0); [lia | apply sends_throw]
       | apply (sends_more _ 0); [lia | apply sends_throw]].
    destruct (is_redirect (statusCode res));
      [| apply (sends_more _ 0); [lia | apply sends_lift]].
    destruct (present (location res)) as [loc |];
      [| apply (sends_more _ 0); [lia | apply sends_throw]].
    destruct (ApiClientFixed.redirect_target rt u loc) as [target |];
      [| apply (sends_more _ 0); [lia | apply sends_throw]].
    apply sends_bind; [apply sends_send, Hhop |].
    intros [res' | e |];
      [| apply (sends_more _ 0); [lia | apply sends_throw]
       | apply (sends_more _ 0); [lia | apply sends_throw]].
    destruct (1 <? S m)%nat;
      [| rewrite andb_false_r; apply (sends_more _ 0); [lia | apply sends_lift]].
    destruct (is_redirect (statusCode res')); cbn [andb].
    + apply (sends_more _ (Nat.max 1 (2 * m))); [lia | apply IH].
    + apply (sends_more _ 0); [lia | apply sends_lift].
Qed.

Lemma fixed_request_bound_witness :
  sends_at_most 10
    (fun rq => signed "key" rq /\ rq_method rq = "POST")
    (ApiClientFixed.request Worlds.rt0 (Worlds.chain 6) "key" "/r0" (Worlds.post "{}")).
Proof.
  exact (fixed_request_bound Worlds.rt0 (Worlds.chain 6) "key" 5 "/r0"
           (Worlds.post "{}") eq_refl).
Defined.

(** X9: When the first answer is not a 301, 302 or 307, the fixed [request]
    does exactly what the original does, whatever [maxRedirects]. *)
Theorem fixed_request_agrees :
  forall rt net apiKey n endpoint o tr,
    (forall u res,
       URL_parse rt (baseUrl ++ endpoint) = Some u ->
       net tr (requestOptions apiKey u o) = Responded res ->
       is_redirect (statusCode res) = false) ->
    ApiClientFixed.request_from rt net apiKey n endpoint o tr
    = ApiClient.request rt net apiKey endpoint o tr.
Proof.
  intros rt net apiKey n endpoint o tr Hplain.
  unfold ApiClient.request.
  destruct n; cbn [ApiClientFixed.request_from];
    unfold new_URL; rewrite !bindT_lift;
    (destruct (URL_parse rt (baseUrl ++ endpoint)) as [u |] eqn:Hu; [| reflexivity]);
    unfold ret; cbv beta iota; unfold bindT, send, ret;
    (destruct (net tr (requestOptions apiKey u o)) as [res | e |] eqn:Hnet;
     [| reflexivity | reflexivity]);
    try rewrite (Hplain u res eq_refl Hnet); reflexivity.
Qed.

Lemma fixed_request_agrees_witness :
  ApiClientFixed.request_from Worlds.rt0 Worlds.envelope_server "key" 5
    "/contexts" no_options []
  = ApiClient.request Worlds.rt0 Worlds.envelope_server "key" "/contexts" no_options [].
Proof.
  apply fixed_request_agrees. intros u res _ H.
  injection H as <-. reflexivity.
Defined.

Ltac other_error :=
  let H := fresh in
  intros H; try discriminate H; injection H as H; simpl in H; discriminate H.

(** X10: Called with a positive [maxRedirects] -- the default is 5 -- on a
    network that produces no error of its own, the fixed [request]
    never fails with "Too many redirects": the recursion stops at 1, so
    the branch that raises it is not reached. *)
Theorem fixed_request_never_too_many :
  forall rt net apiKey n endpoint o tr st,
    (forall tr rq e, net tr rq <> Failed e) ->
    fst (ApiClientFixed.request_from rt net apiKey (S n) endpoint o tr)
    <> inl (Error ("Too many redirects. Last status: " ++ st)).
Proof.
  intros rt net apiKey n endpoint o tr st Hnet.
  revert endpoint tr. induction n as [| m IH]; intros endpoint tr;
    cbn [ApiClientFixed.request_from]; unfold new_URL; rewrite bindT_lift;
    (destruct (URL_parse rt (baseUrl ++ endpoint)) as [u |]; [| other_error]);
    unfold ret; cbv beta iota; unfold bindT at 1; unfold send at 1, ret;
    (destruct (net tr (requestOptions apiKey u o)) as [res | e |] eqn:H1;
     [| now apply Hnet in H1 | other_error]);
    (destruct (is_redirect (statusCode res));
     [| unfold lift, on_end; destruct (not_2xx (statusCode res));
        [other_error | destruct (JSON_parse rt (data res)); other_error]]);
    (destruct (present (location res)) as [loc |]; [| other_error]);
    (destruct (ApiClientFixed.redirect_target rt u loc) as [target |];
     [| other_error]);
    unfold bindT at 1; unfold send at 1, ret;
    (destruct (net _ (ApiClientFixed.redirectRequestOptions _ target o))
       as [res' | e |] eqn:H2; [| now apply Hnet in H2 | other_error]).
  - rewrite andb_false_r. unfold lift, ApiClientFixed.on_redirect_end.
    destruct (not_2xx (statusCode res'));
      [other_error | destruct (JSON_parse rt (data res')); other_error].
  - destruct (is_redirect (statusCode res') && (1 <? S (S m))%nat).
    + apply IH.
    + unfold lift, ApiClientFixed.on_redirect_end.
      destruct (not_2xx (statusCode res'));
        [other_error | destruct (JSON_parse rt (data res')); other_error].
Qed.

Lemma fixed_request_never_too_many_witness :
  fst (ApiClientFixed.request Worlds.rt0 (Worlds.chain 6) "key" "/r0" no_options [])
  <> inl (Error ("Too many redirects. Last status: " ++ "307")).
Proof.
  apply (fixed_request_never_too_many Worlds.rt0 (Worlds.chain 6) "key" 4).
  intros tr rq e. unfold Worlds.chain, Sample.network_with.
  destruct (Sample.assoc _ (rq_path rq)); discriminate.
Defined.

(** X11: With its default of five redirects the fixed [request] follows a
    redirect: the request is re-issued to the target of [Location]
    with the method, headers and body of the first one, and the answer
    to the second request is the result. *)
Theorem fixed_request_reissues :
  forall rt net apiKey endpoint o u tr res loc target res',
    URL_parse rt (baseUrl ++ endpoint) = Some u ->
    net tr (requestOptions apiKey u o) = Responded res ->
    is_redirect (statusCode res) = true ->
    present (location res) = Some loc ->
    ApiClientFixed.redirect_target rt u loc = Some target ->
    net (tr ++ [requestOptions apiKey u o])%list
        (ApiClientFixed.redirectRequestOptions (requestOptions apiKey u o) target o)
      = Responded res' ->
    is_redirect (statusCode res') = false ->
    ApiClientFixed.request rt net apiKey endpoint o tr =
    (ApiClientFixed.on_redirect_end rt res',
     (tr ++ [requestOptions apiKey u o;
             ApiClientFixed.redirectRequestOptions (requestOptions apiKey u o) target o])%list).
Proof.
  intros rt net apiKey endpoint o u tr res loc target res'.
  exact (fixed_request_follows_redirect rt net apiKey 4 endpoint o u tr res loc
           target res').
Qed.

Lemma fixed_request_reissues_witness :
  ApiClientFixed.request Worlds.rt0 Worlds.redirecting "key" "/contexts"
    (Worlds.post "{}") []
  = (ApiClientFixed.on_redirect_end Worlds.rt0 (Sample.ok "{}"),
     ([] ++ [ requestOptions "key"
                {| url_hostname := "api.convolut.app"; url_port := EmptyString;
                   url_pathname := "/v1/contexts"; url_search := EmptyString |}
                (Worlds.post "{}");
              ApiClientFixed.redirectRequestOptions
                (requestOptions "key"
                   {| url_hostname := "api.convolut.app"; url_port := EmptyString;
                      url_pathname := "/v1/contexts"; url_search := EmptyString |}
                   (Worlds.post "{}"))
                {| url_hostname := "api.convolut.app"; url_port := EmptyString;
                   url_pathname := "/contexts"; url_search := "?x=1" |}
                (Worlds.post "{}") ])%list).
Proof.
  exact (fixed_request_reissues Worlds.rt0 Worlds.redirecting "key"
           "/contexts" (Worlds.post "{}") _ [] (Sample.redirect 307 "/contexts?x=1")
           "/contexts?x=1" _ (Sample.ok "{}")
           eq_refl eq_refl eq_refl eq_refl eq_refl eq_refl eq_refl).
Defined.

(** ** The query string of [listContexts] *)


Lemma list_query_undefined keyword :
  list_query keyword VUndefined = list_query keyword (VObj []).
Proof. reflexivity. Qed.

(** X12: A query that [listContexts] builds has its parameters in the order
    [limit, offset, contain, category, tags, from, to, is_favorite],
    each at most once. *)
Theorem listContexts_query_order :
  forall params q,
    ApiClient.listContexts_query params = inr q ->
    names q = filter (fun k => mem k (names q)) query_order.
Proof.
  intros params q Hq. unfold ApiClient.listContexts_query in Hq.
  assert (Hobj : exists p, nullish p = false /\ list_query "contain" p = inr q).
  { destruct params; try (eexists; split; [| exact Hq]; reflexivity).
    - exists (VObj []). split; [reflexivity | exact Hq].
    - discriminate. }
  destruct Hobj as (p & Hn & Hp).
  destruct (list_query_inv _ _ _ Hn Hp)
    as (d1 & d2 & d3 & d4 & d5 & d6 & d7 & d8 & -> & S1 & S2 & S3 & S4 & S5 & S6 & S7 & S8).
  destruct S1 as [[_ ->] | [_ (s1 & _ & ->)]];
  destruct S2 as [[_ ->] | [_ (s2 & _ & ->)]];
  destruct S3 as [[_ ->] | [_ (s3 & _ & ->)]];
  destruct S4 as [[_ ->] | [_ (s4 & _ & ->)]];
  destruct S5 as [[_ ->] | [_ (s5 & _ & ->)]];
  destruct S6 as [[_ ->] | [_ (s6 & _ & ->)]];
  destruct S7 as [[_ ->] | [_ (s7 & _ & ->)]];
  destruct S8 as [[_ ->] | [_ (s8 & _ & ->)]];
  reflexivity.
Qed.

Lemma listContexts_query_order_witness :
  let q := [("limit", "5"); ("category", "work"); ("is_favorite", "false")] in
  names q = filter (fun k => mem k (names q)) query_order.
Proof.
  exact (listContexts_query_order
           (VObj [("is_favorite", VBool false); ("category", VStr "work");
                  ("limit", VNum 5)])
           [("limit", "5"); ("category", "work"); ("is_favorite", "false")] eq_refl).
Defined.



(** ** The statistics of [tools/export.cjs] *)



Lemma occurrences_nonneg k keys : (0 <= occurrences k keys)%Z.
Proof. induction keys as [| x rest IH]; cbn; [lia | destruct (x =? k); lia]. Qed.









(** The words of documented contexts add up. *)
Lemma total_words_sum l :
  forallb counted_context l = true ->
  forall a,
    reduce (fun sum ctx => word_count <- get ctx "word_count" ;;
                           js_add sum (or_else word_count (VNum 0))) l (VNum a)
    = inr (VNum (a + sum_words l)).
Proof.
  induction l as [| c rest IH]; intros Hall a.
  - cbn. now rewrite Z.add_0_r.
  - cbn [forallb] in Hall. apply andb_true_iff in Hall as [Hc Hrest].
    cbn [reduce sum_words].
    destruct c as [| | | | | | | fields]; try discriminate.
    cbn [counted_context] in Hc. unfold word_count_of. rewrite field_obj.
    cbn [get bind ret].
    destruct (own fields "word_count") as [[| | | w | | | |] |]; try discriminate.
    + rewrite or_else_num. cbn [js_add to_primitive bind ret is_string orb to_number].
      rewrite (IH Hrest). do 2 f_equal.
      destruct (w =? 0)%Z eqn:E; [apply Z.eqb_eq in E |]; lia.
    + cbn [or_else truthy js_add to_primitive bind ret is_string orb to_number].
      rewrite (IH Hrest). now rewrite Z.add_assoc.
Qed.

(** [Math.round(x / n)] is the integer nearest to [x / n], halves up. *)
Lemma half_up_bounds (x n : Z) :
  (0 < n)%Z ->
  (2 * n * ((2 * x + n) / (2 * n)) <= 2 * x + n
   < 2 * n * ((2 * x + n) / (2 * n) + 1))%Z.
Proof.
  intros Hn.
  pose proof (Z.mul_div_le (2 * x + n) (2 * n) ltac:(lia)).
  pose proof (Z.mul_succ_div_gt (2 * x + n) (2 * n) ltac:(lia)).
  lia.
Qed.

(** X17: The totals of a statistics result over documented contexts
    whose word counts the source adds exactly: [total_words] is the sum
    of their word counts (an absent count is 0),
    [avg_words_per_context] is that sum divided by the number of
    contexts received and rounded to the nearest integer, halves up,
    and 0 for no context; [total_contexts] is the [total_count] of the
    response, not the number of contexts the totals were taken over. *)
Theorem stats_result_totals :
  forall rt d g fields l r,
    own fields "items" = Some (VArr l) ->
    forallb counted_context l = true ->
    exact_words l ->
    ExportTools.stats_result rt d g (VObj fields) = inr r ->
    field r "total_contexts" = field (VObj fields) "total_count" /\
    field r "total_words" = VNum (sum_words l) /\
    exists avg,
      field r "avg_words_per_context" = VNum avg /\
      let n := Z.of_nat (List.length l) in
      (l = [] -> avg = 0%Z) /\
      (l <> [] -> (2 * n * avg <= 2 * sum_words l + n < 2 * n * (avg + 1))%Z).
Proof.
  intros rt d g fields l r Hitems Hall _. unfold ExportTools.stats_result.
  destruct (ExportTools.statistics g (VObj fields)) as [e | stats]; [discriminate |].
  cbn [bind get ret]. rewrite Hitems. cbn [as_array bind ret].
  unfold ExportTools.total_words. rewrite (total_words_sum l Hall 0). cbn [bind].
  rewrite Z.add_0_l.
  destruct l as [| c rest].
  - cbn. intros H. injection H as <-. repeat split.
    exists 0%Z. repeat split; [reflexivity | congruence].
  - replace (0 <? Z.of_nat (List.length (c :: rest)))%Z with true
      by (symmetry; apply Z.ltb_lt; cbn [List.length]; lia).
    cbn [round_div to_primitive to_number bind ret].
    intros H. injection H as <-. repeat split.
    eexists. split; [reflexivity |]. cbv zeta. split; [discriminate |].
    intros _.
    apply half_up_bounds. cbn [List.length]. lia.
Qed.

Lemma stats_result_totals_witness :
  exists r,
    ExportTools.stats_result Worlds.rt0 (VStr "30d") (VStr "date")
      (VObj [ ("items", VArr [ VObj [("word_count", VNum 3)]; VObj [];
                               VObj [("word_count", VNum 4)] ]);
              ("total_count", VNum 250) ]) = inr r /\
    field r "total_contexts" = VNum 250 /\
    field r "total_words" = VNum 7 /\
    field r "avg_words_per_context" = VNum 2.
Proof.
  eexists. split; [reflexivity |].
  destruct (stats_result_totals Worlds.rt0 (VStr "30d") (VStr "date")
              [ ("items", VArr [ VObj [("word_count", VNum 3)]; VObj [];
                                 VObj [("word_count", VNum 4)] ]);
                ("total_count", VNum 250) ]
              [ VObj [("word_count", VNum 3)]; VObj []; VObj [("word_count", VNum 4)] ]
              _ eq_refl eq_refl eq_refl eq_refl) as (H1 & H2 & _).
  split; [exact H1 |]. split; [exact H2 | reflexivity].
Defined.

(** X18: On a list response that is a bare array the statistics tool fails
    for every grouping: [allContexts.items] is undefined, and the
    result is a flagged error naming the array method that was called
    on it.  The one request has been made. *)
Theorem handleGetContextStats_bare_array :
  forall rt args apiClient tr items tr',
    nullish args = false ->
    listContexts apiClient (VObj [("limit", VNum 100)]) tr = (inr (VArr items), tr') ->
    exists method,
      In method ["reduce"; "filter"; "forEach"] /\
      ExportTools.handleGetContextStats rt args apiClient tr
      = (inr (failure "Error generating statistics: "
                      (cannot_read "undefined" method)), tr').
Proof.
  intros rt args apiClient tr items tr' Hn Hlist.
  rewrite (handleGetContextStats_run _ _ _ _ Hn), Hlist.
  unfold ExportTools.stats_result, ExportTools.statistics.
  destruct (strict_eq _ (VStr "category")).
  { exists "reduce". split; [cbn; auto | reflexivity]. }
  destruct (strict_eq _ (VStr "favorite")).
  { exists "filter". split; [cbn; auto | reflexivity]. }
  destruct (strict_eq _ (VStr "tags")).
  { exists "forEach". split; [cbn; auto | reflexivity]. }
  exists "reduce". split; [cbn; auto | reflexivity].
Qed.

Lemma handleGetContextStats_bare_array_witness :
  exists method,
    In method ["reduce"; "filter"; "forEach"] /\
    ExportTools.handleGetContextStats Worlds.rt0 (VObj [("group_by", VStr "tags")])
      (ApiClient.ConvolutAPIClient Worlds.rt0 Worlds.bare_server "key") []
    = (inr (failure "Error generating statistics: " (cannot_read "undefined" method)),
       snd (listContexts (ApiClient.ConvolutAPIClient Worlds.rt0 Worlds.bare_server "key")
              (VObj [("limit", VNum 100)]) [])).
Proof.
  apply (handleGetContextStats_bare_array Worlds.rt0 (VObj [("group_by", VStr "tags")])
           (ApiClient.ConvolutAPIClient Worlds.rt0 Worlds.bare_server "key") []
           [Worlds.c1; Worlds.c2]); reflexivity.
Defined.

(** ** The dispatcher and the line loop of [stdio-client.cjs] *)

Lemma strict_eq_to_str v c : strict_eq v (VStr c) = true <-> v = VStr c.
Proof.
  destruct v; simpl; split; try discriminate; try congruence.
  - intros H. apply String.eqb_eq in H. now subst.
  - intros H. injection H as ->. apply String.eqb_refl.
Qed.

Lemma yields_ret {A} (Q : A -> Prop) a : Q a -> yields Q (retT a).
Proof. intros H tr. exact H. Qed.

Lemma yields_bind {A B} (Q : B -> Prop) (c : T A) (k : A -> T B) :
  (forall a, yields Q (k a)) -> yields Q (bindT c k).
Proof.
  intros Hk tr. unfold bindT. destruct (c tr) as [[e | a] tr1]; [exact I |].
  apply Hk.
Qed.

Lemma yields_bind_ret {A B} (Q : B -> Prop) (a : A) (k : A -> T B) :
  yields Q (k a) -> yields Q (bindT (lift (inr a)) k).
Proof. intros H tr. exact (H tr). Qed.

Lemma yields_try_catch {A} (Q : A -> Prop) (body : T A) (handler : exn -> T A) :
  yields Q body -> (forall e, yields Q (handler e)) ->
  yields Q (try_catch body handler).
Proof.
  intros Hb Hh tr. unfold try_catch. specialize (Hb tr).
  destruct (body tr) as [[e | a] tr1]; [apply Hh | exact Hb].
Qed.

(** A [try]/[catch] whose handler returns does return. *)
Lemma try_catch_returns {A} (Q : A -> Prop) (body : T A) (handler : exn -> T A) :
  yields Q body -> (forall e tr, exists a, fst (handler e tr) = inr a /\ Q a) ->
  forall tr, exists a, fst (try_catch body handler tr) = inr a /\ Q a.
Proof.
  intros Hb Hh tr. unfold try_catch. specialize (Hb tr).
  destruct (body tr) as [[e | a] tr1]; [apply Hh |].
  exists a. split; [reflexivity | exact Hb].
Qed.

(** Whatever [tools/call] returns carries the request's id. *)
Lemma tools_call_answers rt apiClient rid request :
  yields (answers rid) (Stdio.tools_call rt apiClient rid request).
Proof.
  pose (ans := fun r (H : response_id r = rid) =>
          yields_ret (answers rid) (Some r) (ex_intro _ r (conj eq_refl H))).
  unfold Stdio.tools_call.
  apply yields_bind. intros name.
  destruct (negb (truthy name)); [now apply ans |].
  apply yields_bind. intros params.
  apply yields_bind. intros toolName.
  apply yields_bind. intros key.
  destruct (Stdio.lookup (Stdio.TOOL_HANDLERS rt) key) as [h | k |].
  - apply yields_try_catch; [| intros e; now apply ans].
    apply yields_bind. intros arguments.
    apply yields_bind. intros result. now apply ans.
  - apply yields_try_catch; [| intros e; now apply ans].
    apply yields_bind. intros arguments.
    apply yields_bind. intros result. now apply ans.
  - now apply ans.
Qed.

(** The dispatcher on a request that is an object or an array. *)
Lemma handleMCPRequest_object rt TOOLS apiClient request tr :
  (negb (truthy request) || negb (typeof request =? "object")) = false ->
  exists out,
    fst (Stdio.handleMCPRequest rt TOOLS apiClient request tr) = inr out /\
    (out = None <-> field request "method" = VStr "notifications/initialized") /\
    (forall r, out = Some r -> response_id r = Stdio.request_id request).
Proof.
  intros Hguard. unfold Stdio.handleMCPRequest. rewrite Hguard.
  assert (Hn : nullish request = false).
  { destruct request; try reflexivity; discriminate. }
  rewrite (get_ok _ _ Hn).
  set (rid := Stdio.request_id request).
  set (m := field request "method").
  destruct (strict_eq m (VStr "notifications/initialized")) eqn:Hnote.
  - apply strict_eq_to_str in Hnote. rewrite Hnote.
    exists None. repeat split; try reflexivity. discriminate.
  - assert (Hm : m <> VStr "notifications/initialized").
    { intros E. apply strict_eq_to_str in E. congruence. }
    cut (exists out,
           fst (try_catch
                  (method <~ lift (inr m) ;;
                   if strict_eq method (VStr "initialize") then
                     retT (Some (Stdio.Result rid (Stdio.Plain Stdio.initialize_result)))
                   else if strict_eq method (VStr "notifications/initialized") then
                     retT None
                   else if strict_eq method (VStr "tools/list") then
                     retT (Some (Stdio.Result rid (Stdio.Plain (VObj [("tools", TOOLS)]))))
                   else if strict_eq method (VStr "resources/list") then
                     retT (Some (Stdio.Result rid
                                   (Stdio.Plain (VObj [("resources", VArr [])]))))
                   else if strict_eq method (VStr "tools/call") then
                     Stdio.tools_call rt apiClient rid request
                   else if strict_eq method (VStr "ping") then
                     retT (Some (Stdio.Result rid
                                   (Stdio.Plain (VObj [("status", VStr "ok")]))))
                   else
                     name <~ lift (to_string method) ;;
                     retT (Some (Stdio.RpcError rid (-32601)
                                   ("Method not found: " ++ name))))
                  (fun error =>
                     retT (Some (Stdio.RpcError rid (-32603)
                                   ("Internal error: " ++ message error)))) tr)
           = inr out /\ answers rid out).
    { intros (out & Hrun & r & -> & Hid). exists (Some r). split; [exact Hrun |].
      split; [split; [discriminate | intros E; now apply Hm in E] |].
      intros r' E. injection E as <-. exact Hid. }
    apply try_catch_returns.
    + pose (ans := fun r (H : response_id r = rid) =>
          yields_ret (answers rid) (Some r) (ex_intro _ r (conj eq_refl H))).
      apply yields_bind_ret. rewrite Hnote.
      destruct (strict_eq m (VStr "initialize")); [now apply ans |].
      destruct (strict_eq m (VStr "tools/list")); [now apply ans |].
      destruct (strict_eq m (VStr "resources/list")); [now apply ans |].
      destruct (strict_eq m (VStr "tools/call")); [apply tools_call_answers |].
      destruct (strict_eq m (VStr "ping")); [now apply ans |].
      apply yields_bind. intros name. now apply ans.
    + intros e tr0. eexists. split; [reflexivity |].
      eexists. split; reflexivity.
Qed.

Lemma handleMCPRequest_any :
  forall rt TOOLS apiClient request tr,
    exists out,
      fst (Stdio.handleMCPRequest rt TOOLS apiClient request tr) = inr out /\
      (out = None <-> field request "method" = VStr "notifications/initialized") /\
      (forall r, out = Some r -> response_id r = Stdio.request_id request).
Proof.
  intros rt TOOLS apiClient request tr.
  destruct (negb (truthy request) || negb (typeof request =? "object")) eqn:Hguard.
  - unfold Stdio.handleMCPRequest. rewrite Hguard.
    eexists. split; [reflexivity |].
    assert (Hshape : field request "method" = VUndefined /\
                     Stdio.request_id request = VNull).
    { destruct request; try (split; reflexivity). discriminate. }
    destruct Hshape as [Hm Hid]. rewrite Hm, Hid.
    split; [split; discriminate |].
    intros r E. injection E as <-. reflexivity.
  - now apply handleMCPRequest_object.
Qed.

(** X19: The dispatcher never rejects, and it answers every request but one:
    it returns no response exactly when the request's [method] is
    ['notifications/initialized'].  Every response carries the
    request's [id], and [null] when the request has none: a request
    without [id] is answered like any other. *)
Theorem handleMCPRequest_answers :
  forall rt TOOLS apiClient request tr,
    exists out,
      fst (Stdio.handleMCPRequest rt TOOLS apiClient request tr) = inr out /\
      (out = None <-> field request "method" = VStr "notifications/initialized") /\
      (forall r, out = Some r -> response_id r = Stdio.request_id request).
Proof. exact handleMCPRequest_any. Qed.

(** X20: The line callback never rejects.  It prints nothing for a blank
    line, which reaches neither the parser nor the network, and for a
    ['notifications/initialized'] request; every other line is
    answered with one line of output, which for a line that is not JSON
    is the parse error. *)
Theorem on_line_prints :
  forall rt TOOLS apiClient syntax_error line tr,
    exists out,
      fst (Main.on_line rt TOOLS apiClient syntax_error line tr) = inr out /\
      (trim line = EmptyString ->
       snd (Main.on_line rt TOOLS apiClient syntax_error line tr) = tr) /\
      (out = None <->
       trim line = EmptyString \/
       exists request, JSON_parse rt line = Some request /\
                       field request "method" = VStr "notifications/initialized") /\
      (trim line <> EmptyString -> JSON_parse rt line = None ->
       out = Some (Main.parse_error rt (syntax_error line))).
Proof.
  intros rt TOOLS apiClient syntax_error line tr. unfold Main.on_line.
  destruct (trim line =? EmptyString) eqn:Hblank.
  - apply String.eqb_eq in Hblank. exists None.
    repeat split; auto. intros H. now elim H.
  - assert (Hne : trim line <> EmptyString).
    { intros E. rewrite E in Hblank. discriminate. }
    destruct (JSON_parse rt line) as [request |].
    + destruct (handleMCPRequest_any rt TOOLS apiClient request tr)
        as (out & Hrun & Hnone & _).
      unfold try_catch, bindT.
      destruct (Stdio.handleMCPRequest rt TOOLS apiClient request tr)
        as [[e | out'] tr'] eqn:E; [discriminate |].
      cbn [fst] in Hrun. injection Hrun as ->.
      eexists. split; [reflexivity |]. cbn [fst snd retT].
      split; [intros E'; now elim Hne |]. split; [| discriminate].
      split.
      * intros Hout. right. exists request. split; [reflexivity |].
        apply Hnone. now destruct out.
      * intros [E' | (request' & Hreq & Hm)]; [now elim Hne |].
        injection Hreq as <-. apply Hnone in Hm. now subst out.
    + exists (Some (Main.parse_error rt (syntax_error line))).
      split; [reflexivity |]. split; [intros E; now elim Hne |].
      split; [| reflexivity].
      split; [discriminate |].
      intros [E | (request & E & _)]; [now elim Hne | discriminate].
Qed.

(** ** The health probe of [utils/api-client.cjs] *)

(** X21: [healthCheck] makes at most one request, a [GET] without body that
    does not carry the API key; it returns only the parsed body of a
    2xx answer to that request. *)
Theorem healthCheck_probe :
  forall rt net tr,
    exists new,
      snd (Health.healthCheck rt net tr) = (tr ++ new)%list /\
      (List.length new <= 1)%nat /\
      Forall (fun rq => probe rq /\ forall apiKey, ~ signed apiKey rq) new /\
      forall v,
        fst (Health.healthCheck rt net tr) = inr v ->
        exists rq res,
          new = [rq] /\ net tr rq = Responded res /\
          is_2xx (statusCode res) /\ JSON_parse rt (data res) = Some v.
Proof.
  intros rt net tr. unfold Health.healthCheck, new_URL. rewrite bindT_lift.
  destruct (URL_parse rt Health.healthUrl) as [u |].
  - unfold ret. cbv beta iota. unfold bindT, send, ret.
    exists [Health.healthOptions u].
    destruct (net tr (Health.healthOptions u)) as [res | e |] eqn:Hnet;
      (split; [reflexivity |]); (split; [cbn; lia |]);
      (split; [apply Forall_cons; [| apply Forall_nil];
               split; [repeat split | intros apiKey; unfold signed; discriminate] |]);
      intros v; cbn [fst lift throwT]; try discriminate.
    unfold Health.on_health_end.
    destruct (not_2xx (statusCode res)) eqn:Hst; [discriminate |].
    destruct (JSON_parse rt (data res)) as [v0 |] eqn:Hparse; [| discriminate].
    intros H. injection H as <-.
    exists (Health.healthOptions u), res.
    repeat split; try assumption. now apply not_2xx_false.
  - exists []. cbn. rewrite app_nil_r.
    repeat split; [lia | apply Forall_nil | discriminate].
Qed.

(** ** Further behaviour of the handlers *)





(** X23: [search_contexts] accepts exactly the arguments whose [query] is a
    string with a character that is not white space; [limit],
    [category] and [tags] are never a reason to refuse, and [limit] is
    forwarded as given, whatever its type and size, 10 standing in for
    a falsy one. *)
Theorem searchParams_accepts :
  forall args,
    ((exists params, AiTools.searchParams args = inr params) <->
     exists s, field args "query" = VStr s /\ trim s <> EmptyString) /\
    (forall params, AiTools.searchParams args = inr params ->
       field params "limit" = or_else (field args "limit") (VNum 10)).
Proof.
  intros args. split.
  - destruct (nullish args) eqn:Hn.
    + split.
      * intros [p H]. destruct args; discriminate.
      * intros (s & H & _). rewrite (field_nullish _ _ Hn) in H. discriminate.
    + unfold AiTools.searchParams. rewrite !(get_ok _ _ Hn). cbn [bind].
      destruct (field args "query") as [| | b | n | | s | l | fs];
        try solve [ cbn [blank]; rewrite ?orb_true_r;
                    split; [intros [p H]; discriminate
                           | intros (s' & H & _); discriminate] ].
      cbn [blank]. destruct (trim s =? EmptyString) eqn:Eb.
      * rewrite orb_true_r. apply String.eqb_eq in Eb.
        split; [intros [p H]; discriminate |].
        intros (s' & H & Hne). injection H as <-. now elim Hne.
      * assert (Ht : truthy (VStr s) = true).
        { destruct s; [discriminate | reflexivity]. }
        rewrite Ht. cbn [negb orb bind ret].
        split; [| intros _; eexists; reflexivity].
        intros _. exists s. split; [reflexivity |].
        intros E. rewrite E in Eb. discriminate.
  - intros params H.
    destruct (searchParams_inv _ _ H) as (_ & _ & ps & -> & _ & Pl & _).
    now rewrite field_obj, Pl.
Qed.

(** X24: The search handler reads the contexts off both shapes of a list
    response: for a bare array and for an envelope with the same
    [items] it returns the same result, whose [total_found] is the
    number of contexts received. *)
Theorem handleSearchContexts_both_shapes :
  forall rt args apiClient tr params response l tr',
    AiTools.searchParams args = inr params ->
    listContexts apiClient params tr = (inr response, tr') ->
    (response = VArr l \/
     exists fields, response = VObj fields /\ own fields "items" = Some (VArr l)) ->
    AiTools.handleSearchContexts rt args apiClient tr
    = (inr (success (JSON_pretty rt
              (VObj [ ("message", VStr "Context search completed");
                      ("query", field args "query");
                      ("results", VArr l);
                      ("total_found", VNum (Z.of_nat (List.length l))) ]))), tr').
Proof.
  intros rt args apiClient tr params response l tr' Hparams Hlist Hshape.
  destruct (searchParams_inv _ _ Hparams) as (Hn & _).
  unfold AiTools.handleSearchContexts. rewrite guarded_run.
  rewrite bindT_lift, Hparams. rewrite (bindT_ok _ _ _ _ _ Hlist).
  rewrite bindT_lift.
  assert (Hitems : items_or_empty response = inr (VArr l)).
  { destruct Hshape as [-> | (fields & -> & Hown)]; [reflexivity |].
    unfold items_or_empty. cbn [isArray get bind ret]. now rewrite Hown. }
  rewrite Hitems. cbn [bind]. rewrite (get_ok _ _ Hn). reflexivity.
Qed.

Lemma handleSearchContexts_both_shapes_witness :
  let args := VObj [("query", VStr "notes")] in
  let client net := ApiClient.ConvolutAPIClient Worlds.rt0 net "key" in
  fst (AiTools.handleSearchContexts Worlds.rt0 args (client Worlds.bare_server) [])
  = fst (AiTools.handleSearchContexts Worlds.rt0 args (client Worlds.envelope_server) []).
Proof.
  intros args client.
  pose (params := VObj [("search", VStr "notes"); ("limit", VNum 10)]).
  rewrite (handleSearchContexts_both_shapes Worlds.rt0 args
             (client Worlds.bare_server) [] params Worlds.bare
             [Worlds.c1; Worlds.c2]
             (snd (listContexts (client Worlds.bare_server) params []))
             eq_refl eq_refl (or_introl eq_refl)).
  rewrite (handleSearchContexts_both_shapes Worlds.rt0 args
             (client Worlds.envelope_server) [] params Worlds.envelope
             [Worlds.c1; Worlds.c2]
             (snd (listContexts (client Worlds.envelope_server) params []))
             eq_refl eq_refl
             (or_intror (ex_intro _ _ (conj eq_refl eq_refl)))).
  reflexivity.
Defined.

(** X25: When the reply to [generateRawUrl] has no [expires_in_seconds], the
    raw URL is lost: the expiry date cannot be computed, and the tool
    returns the flagged error [Invalid time value] although the remote
    call succeeded. *)
Theorem handleGetRawUrl_missing_expiry :
  forall rt args apiClient tr request result tr',
    ExportTools.validateRawUrlRequest args = inr request ->
    generateRawUrl apiClient request tr = (inr result, tr') ->
    nullish result = false ->
    field result "expires_in_seconds" = VUndefined ->
    ExportTools.handleGetRawUrl rt args apiClient tr
    = (inr (failure "Error generating raw URL: " (RangeError "Invalid time value")),
       tr').
Proof.
  intros rt args apiClient tr request result tr' Hreq Hgen Hn Hexp.
  unfold ExportTools.handleGetRawUrl. rewrite guarded_run.
  rewrite bindT_lift, Hreq. rewrite (bindT_ok _ _ _ _ _ Hgen).
  rewrite bindT_lift.
  assert (Hr : nullish request = false).
  { unfold ExportTools.validateRawUrlRequest, Contexts.validateContextId in Hreq.
    destruct (get args "context_id") as [e | id]; [discriminate |].
    cbn [bind] in Hreq.
    destruct (negb (truthy id) || negb (typeof id =? "string")); [discriminate |].
    injection Hreq as <-. reflexivity. }
  rewrite (get_ok _ _ Hr). cbn [bind]. rewrite !(get_ok _ _ Hn). cbn [bind].
  rewrite Hexp. reflexivity.
Qed.

Lemma handleGetRawUrl_missing_expiry_witness :
  ExportTools.handleGetRawUrl Worlds.rt0 (VObj [("context_id", VStr "a")])
    (ApiClient.ConvolutAPIClient Worlds.rt0 Worlds.accepting "key") []
  = (inr (failure "Error generating raw URL: " (RangeError "Invalid time value")),
     snd (generateRawUrl (ApiClient.ConvolutAPIClient Worlds.rt0 Worlds.accepting "key")
            (VObj [("context_id", VStr "a")]) [])).
Proof.
  exact (handleGetRawUrl_missing_expiry Worlds.rt0 (VObj [("context_id", VStr "a")])
           (ApiClient.ConvolutAPIClient Worlds.rt0 Worlds.accepting "key") []
           (VObj [("context_id", VStr "a")]) (VObj []) _
           eq_refl eq_refl eq_refl eq_refl).
Defined.

(** X26: [validateContextId] accepts exactly a [context_id] that is a
    non-empty string, white space alone included, and keeps nothing
    else of the arguments. *)
Theorem validateContextId_accepts :
  forall args,
    ((exists r, Contexts.validateContextId args = inr r) <->
     exists s, field args "context_id" = VStr s /\ s <> EmptyString) /\
    (forall r, Contexts.validateContextId args = inr r ->
       r = VObj [("context_id", field args "context_id")]).
Proof.
  intros args. destruct (nullish args) eqn:Hn.
  - split; [split |].
    + intros [r H]. destruct args; discriminate.
    + intros (s & H & _). rewrite (field_nullish _ _ Hn) in H. discriminate.
    + intros r H. destruct args; discriminate.
  - unfold Contexts.validateContextId. rewrite (get_ok _ _ Hn). cbn [bind].
    destruct (field args "context_id") as [| | b | n | | s | l | fs];
      try (split; [split; [intros [r H]; discriminate
                          | intros (s' & H & _); discriminate]
                  | intros r H; discriminate]).
    + destruct b;
        (split; [split; [intros [r H]; discriminate
                        | intros (s' & H & _); discriminate]
                | intros r H; discriminate]).
    + destruct (truthy (VNum n));
        (split; [split; [intros [r H]; discriminate
                        | intros (s' & H & _); discriminate]
                | intros r H; discriminate]).
    + destruct s as [| c s].
      * split; [split; [intros [r H]; discriminate
                       | intros (s' & H & Hne); injection H as <-; now elim Hne]
               | intros r H; discriminate].
      * split; [split; [intros _; eexists; split; [reflexivity | discriminate]
                       | intros _; eexists; reflexivity]
               | intros r H; now injection H as <-].
Qed.

(** X27: No handler touches the client when its validator refuses the
    arguments: the result is the flagged error of the validator, and
    the trace of requests is unchanged. *)
Theorem rejected_arguments_send_nothing :
  forall rt apiClient args tr e,
    let refused prefix := (inr (failure prefix e), tr) in
    (Contexts.validateContextSearch args = inl e ->
     Contexts.handleListContexts rt args apiClient tr
       = refused "Error listing contexts: " /\
     ContextsFixed.handleListContexts rt args apiClient tr
       = refused "Error listing contexts: ") /\
    (Contexts.validateContextId args = inl e ->
     Contexts.handleGetContext rt args apiClient tr
       = refused "Error retrieving context: " /\
     Contexts.handleDeleteContext rt args apiClient tr
       = refused "Error deleting context: " /\
     ExportTools.handleGetRawUrl rt args apiClient tr
       = refused "Error generating raw URL: ") /\
    (Contexts.validateCreateContext args = inl e ->
     Contexts.handleCreateContext rt args apiClient tr
       = refused "Error creating context: ") /\
    (AiTools.searchParams args = inl e ->
     AiTools.handleSearchContexts rt args apiClient tr
       = refused "Error searching contexts: ") /\
    (AiTools.validateConsolidateRequest args = inl e ->
     AiTools.handleConsolidateContexts rt args apiClient tr
       = refused "Error consolidating contexts: ") /\
    (AiTools.validatePlanRequest args = inl e ->
     AiTools.handlePlanFromContexts rt args apiClient tr
       = refused "Error generating plan: ") /\
    (ExportTools.validateExportRequest args = inl e ->
     ExportTools.handleExportContexts rt args apiClient tr
       = refused "Error exporting contexts: ").
Proof.
  intros rt apiClient args tr e refused. subst refused. cbv beta.
  repeat split; intros;
    unfold Contexts.handleListContexts, ContextsFixed.handleListContexts,
           Contexts.handleGetContext, Contexts.handleDeleteContext,
           ExportTools.handleGetRawUrl, ExportTools.validateRawUrlRequest,
           Contexts.handleCreateContext, AiTools.handleSearchContexts,
           AiTools.handleConsolidateContexts, AiTools.handlePlanFromContexts,
           ExportTools.handleExportContexts;
    match goal with
    | H : _ = inl e |- _ => rewrite guarded_run, bindT_lift, H; reflexivity
    end.
Qed.
